(** * A shallow embedding of the VCF line decoder (snp/vcf.c)

    The development follows the C source function by function:
    [strsep] tokenizing, [get_format_index], [parse_haplotypes],
    [parse_geno_probs], [vcf_read_header] and [vcf_read_line].

    - C strings are [string]s (the terminating NUL is implicit); a
      [char *] cursor that may be [NULL] is an [option string].
    - [int] and [long] values are [Z]; the only place where a width is
      visible is the [%d] conversion of [sscanf], whose wrap-around is
      written out in [scan_int].
    - [my_warn] appends to a log, [my_err] ends the process: both live in
      the small monad [M], together with the function-static flag
      [warn_phase] of [parse_haplotypes].
    - caller-owned output arrays are lists updated by index.
    - [float] values and their operations are the class [FloatOps];
      [binary32_float] instantiates it with the binary32 format of the
      Standard Library's [SpecFloat]. *)

From Stdlib Require Import ZArith Ascii String List Bool Lia SpecFloat.
From stdpp Require Import base list.

Import ListNotations.
Local Open Scope string_scope.
Local Open Scope list_scope.
Local Open Scope Z_scope.

(** ** Process state, warnings and fatal errors *)

(** One constructor per [my_warn] call site of vcf.c. *)
Inductive warning : Type :=
| WarnHeaderToken (tok_num : Z) (expected got : string)
| WarnUnphased (inner_tok : string)
| WarnGtParse (inner_tok : string)
| WarnTruncate (true_len stored_len : Z).

(** One constructor per [my_err] call site of vcf.c, and one for the
    [strlen(cur)] of a [NULL] cursor in [vcf_read_line]. *)
Inductive fatal : Type :=
| ErrHeaderEof
| ErrHeaderStart
| ErrNoGT (format : string)
| ErrMoreGenotypes
| ErrGenotypeCount (expect_haps n_haps : Z)
| ErrNoGL
| ErrGlParse (inner_tok : string)
| ErrMoreLikelihoods
| ErrLikelihoodCount (expect_geno_probs n_geno_probs : Z)
| ErrFewTokens (n_fix_header : Z)
| ErrParseLong (token : string)
| NullCursor.

(** [warn_phase] is the [static int warn_phase = TRUE] of
    [parse_haplotypes]: it lives as long as the process does.  [warn_log]
    collects the warnings in the order in which they are emitted. *)
Record proc_state : Type := mkProc {
  warn_phase : bool;
  warn_log : list warning
}.

Definition proc_init : proc_state := mkProc true [].

Inductive outcome (A : Type) : Type :=
| Done (a : A)
| Fatal (e : fatal).
Arguments Done {A} a.
Arguments Fatal {A} e.

(** A computation runs from a process state and leaves one, also when it
    ends in a fatal error (the warnings emitted before are out already). *)
Definition M (A : Type) : Type := proc_state -> proc_state * outcome A.

Definition ret {A} (a : A) : M A := fun st => (st, Done a).

Definition bind {A B} (m : M A) (k : A -> M B) : M B :=
  fun st =>
    match m st with
    | (st', Done a) => k a st'
    | (st', Fatal e) => (st', Fatal e)
    end.

Notation "'do' x <- m ; k" := (bind m (fun x => k))
  (at level 10, x name, m at level 100, k at level 200,
   format "'[v' 'do'  x  <-  m ; '/' k ']'").
Notation "'do' ' pat <- m ; k" :=
  (bind m (fun x => match x with pat => k end))
  (at level 10, pat pattern, m at level 100, k at level 200,
   format "'[v' 'do'  ' pat  <-  m ; '/' k ']'").
Notation "'do_' m ; k" := (bind m (fun _ => k))
  (at level 10, m at level 100, k at level 200,
   format "'[v' 'do_'  m ; '/' k ']'").

Definition my_warn (w : warning) : M unit :=
  fun st => (mkProc (warn_phase st) (warn_log st ++ [w]), Done tt).

Definition my_err {A} (e : fatal) : M A := fun st => (st, Fatal e).

Definition get_warn_phase : M bool := fun st => (st, Done (warn_phase st)).

Definition set_warn_phase (b : bool) : M unit :=
  fun st => (mkProc b (warn_log st), Done tt).

(** ** Characters and the tokenizer *)

Definition VCF_GTYPE_MISSING : Z := -1.

Definition vcf_fix_headers : list string :=
  ["#CHROM"; "POS"; "ID"; "REF"; "ALT"; "QUAL"; "FILTER"; "INFO"; "FORMAT"].

Definition n_fix_header : Z := Z.of_nat (length vcf_fix_headers).

Fixpoint char_in (c : ascii) (set : string) : bool :=
  match set with
  | EmptyString => false
  | String d set' => if Ascii.eqb c d then true else char_in c set'
  end.

(** [strsep] on a non-[NULL] cursor: the token runs up to the first
    delimiter, which is overwritten by NUL; the cursor moves behind it, or
    becomes [NULL] when no delimiter is left. *)
Fixpoint strsep_from (delim : string) (s : string) : string * option string :=
  match s with
  | EmptyString => (EmptyString, None)
  | String c s' =>
      if char_in c delim then (EmptyString, Some s')
      else let '(tok, cur) := strsep_from delim s' in (String c tok, cur)
  end.

Definition strsep (delim : string) (cur : option string)
  : option (string * option string) :=
  match cur with
  | None => None
  | Some s => Some (strsep_from delim s)
  end.

(** All the tokens that [while((tok = strsep(&cur, delim)) != NULL)]
    visits from a non-[NULL] cursor, in order ([strsep_tokens_step] below
    relates it to [strsep]). *)
Fixpoint strsep_tokens (delim : string) (s : string) : list string :=
  match s with
  | EmptyString => [EmptyString]
  | String c s' =>
      if char_in c delim then EmptyString :: strsep_tokens delim s'
      else match strsep_tokens delim s' with
           | tok :: toks => String c tok :: toks
           | [] => [String c EmptyString]
           end
  end.

Definition strsep_all (delim : string) (cur : option string) : list string :=
  match cur with
  | None => []
  | Some s => strsep_tokens delim s
  end.

Fixpoint count_delims (delim : string) (s : string) : nat :=
  match s with
  | EmptyString => O
  | String c s' => (if char_in c delim then 1 else 0) + count_delims delim s'
  end.

Fixpoint str_take (n : nat) (s : string) : string :=
  match n, s with
  | O, _ => EmptyString
  | S _, EmptyString => EmptyString
  | S n', String c s' => String c (str_take n' s')
  end.

Definition strlen (s : string) : Z := Z.of_nat (String.length s).

(** ** What vcf.c takes from its headers and from libc *)

(** vcf.h and util.c are not among the sources: the buffer sizes of
    [VCFInfo] and [util_parse_long] (which converts the POS column and may
    end the process, [None]) are parameters of the development. *)
Class VCFEnv : Type := {
  VCF_MAX_FORMAT : nat;
  sizeof_chrom : nat;
  sizeof_id : nat;
  sizeof_ref_allele : nat;
  sizeof_alt_allele : nat;
  sizeof_qual : nat;
  sizeof_filter : nat;
  sizeof_info : nat;
  sizeof_format : nat;
  util_parse_long : string -> option Z
}.

(** The single-precision arithmetic of [parse_geno_probs].  [scan_float]
    is one [%g] conversion of [sscanf] (the value and the unread rest, or
    [None] on a matching failure), [float_m0477] the constant [-0.477]
    stored in a [float], [pow10 x] is [pow(10.0, x)] stored in a [float]. *)
Class FloatOps : Type := {
  float : Type;
  scan_float : string -> option (float * string);
  float_m0477 : float;
  pow10 : float -> float;
  fadd : float -> float -> float;
  fdiv : float -> float -> float
}.

(** Modelled from the spec: [util_strncpy] of util.c, the bounded copy.
    It stores at most [n - 1] characters of [src] and returns the stored
    text with its length (the value [vcf_read_line] compares with
    [strlen(token)] and prints as the truncated length). *)
Definition util_strncpy (src : string) (n : nat) : string * Z :=
  let dest := str_take (n - 1) src in (dest, strlen dest).

(** Modelled from the spec: [util_str_starts_with] of util.c. *)
Definition util_str_starts_with (s pre : string) : bool := String.prefix pre s.

(** Modelled from the spec: the line source.  A [gzFile] is the list of
    the lines still to be read; [util_gzgets_line] hands out the next one,
    or [NULL] at the end of the stream. *)
Definition gzFile : Type := list string.

Definition util_gzgets_line (vcf_fh : gzFile) : option string * gzFile :=
  match vcf_fh with
  | [] => (None, [])
  | line :: rest => (Some line, rest)
  end.

(** ** [sscanf] with the formats of vcf.c *)

Definition isspace (c : ascii) : bool :=
  let n := nat_of_ascii c in
  (Nat.eqb n 32 || (Nat.leb 9 n && Nat.leb n 13))%bool.

Definition digit_of (c : ascii) : option Z :=
  let n := nat_of_ascii c in
  if (Nat.leb 48 n && Nat.leb n 57)%bool then Some (Z.of_nat (n - 48)) else None.

Fixpoint skip_space (s : string) : string :=
  match s with
  | String c s' => if isspace c then skip_space s' else s
  | EmptyString => s
  end.

(** The digits at the front of [s], folded into [acc]. *)
Fixpoint scan_digits (s : string) (acc : Z) : Z * string :=
  match s with
  | String c s' =>
      match digit_of c with
      | Some d => scan_digits s' (10 * acc + d)
      | None => (acc, s)
      end
  | EmptyString => (acc, s)
  end.

Definition clamp_long (z : Z) : Z := Z.max (- 2 ^ 63) (Z.min (2 ^ 63 - 1) z).

Definition wrap_int (z : Z) : Z := (z + 2 ^ 31) mod 2 ^ 32 - 2 ^ 31.

(** One [%d] conversion: white space, an optional sign, at least one
    digit.  The C library converts through [strtol] (which saturates at
    the range of [long]) and stores the result in an [int]. *)
Definition scan_int (s : string) : option (Z * string) :=
  let s1 := skip_space s in
  let '(neg, s2) :=
    match s1 with
    | String "-" r => (true, r)
    | String "+" r => (false, r)
    | _ => (false, s1)
    end in
  match s2 with
  | String c _ =>
      match digit_of c with
      | Some _ =>
          let '(v, rest) := scan_digits s2 0 in
          Some (wrap_int (clamp_long (if neg then - v else v)), rest)
      | None => None
      end
  | EmptyString => None
  end.

(** [sscanf(s, "%d<sep>%d", &a, &b)]: the values assigned, in order; the
    return value of [sscanf] is their number (or [EOF], which like 0
    differs from 2). *)
Definition sscanf_dd (sep : ascii) (s : string) : list Z :=
  match scan_int s with
  | None => []
  | Some (a, String c r) =>
      if Ascii.eqb c sep then
        match scan_int r with
        | Some (b, _) => [a; b]
        | None => [a]
        end
      else [a]
  | Some (a, EmptyString) => [a]
  end.

(** [sscanf(s, "%g,%g,%g", &a, &b, &c)], likewise. *)
Definition sscanf_ggg {fops : FloatOps} (s : string) : list float :=
  match scan_float s with
  | None => []
  | Some (a, String "," r) =>
      match scan_float r with
      | None => [a]
      | Some (b, String "," r') =>
          match scan_float r' with
          | None => [a; b]
          | Some (c, _) => [a; b; c]
          end
      | Some (b, _) => [a; b]
      end
  | Some (a, _) => [a]
  end.

(** ** The decoders *)

(** The fields of [VCFInfo] that vcf.c reads and writes. *)
Record VCFInfo : Type := mkVCFInfo {
  n_header_lines : Z;
  n_samples : Z;
  chrom : string;
  pos : Z;
  id : string;
  ref_allele : string;
  alt_allele : string;
  ref_len : Z;
  alt_len : Z;
  qual : string;
  filter : string;
  info : string;
  format : string
}.

(** A [while((tok = strsep(&cur, delim)) != NULL)] loop over the tokens
    it visits. *)
Fixpoint for_tokens {St : Type} (body : string -> St -> M St)
    (toks : list string) (s : St) : M St :=
  match toks with
  | [] => ret s
  | tok :: toks' => do s' <- body tok s; for_tokens body toks' s'
  end.

(** The search loop of [get_format_index], entered with [i] and
    [idx = -1]. *)
Fixpoint format_index_loop (label : string) (toks : list string) (i : Z) : Z :=
  match toks with
  | [] => -1
  | tok :: toks' =>
      if String.eqb tok label then i
      else format_index_loop label toks' (i + 1)
  end.

Definition get_format_index (format_str label : string) : Z :=
  format_index_loop label (strsep_all ":" (Some format_str)) 0.

(** The inner loop of both parsers,
    [while((i <= idx) && (inner_tok = strsep(&inner_cur, ":")) != NULL)],
    whose body acts when [i == idx] and then increments [i]. *)
Fixpoint subfield_loop {St : Type} (body : string -> St -> M St) (idx : Z)
    (inner_toks : list string) (i : Z) (s : St) : M St :=
  match inner_toks with
  | [] => ret s
  | inner_tok :: inner_toks' =>
      if i <=? idx then
        do s' <- (if i =? idx then body inner_tok s else ret s);
        subfield_loop body idx inner_toks' (i + 1) s'
      else ret s
  end.

Definition delim : string := String " " (String "009" EmptyString).

(** *** parse_haplotypes *)

(** Lines 133-149: the phased pattern, then the unphased one. *)
Definition scan_genotype (inner_tok : string) : M (Z * Z) :=
  match sscanf_dd "|" inner_tok with
  | [hap1; hap2] => ret (hap1, hap2)
  | _ =>
      (* n != 2: try with '/' separator instead *)
      do wp <- get_warn_phase;
      match sscanf_dd "/" inner_tok, wp with
      | [hap1; hap2], true =>
          do_ my_warn (WarnUnphased inner_tok);
          do_ set_warn_phase false;
          ret (hap1, hap2)
      | _, _ =>
          do_ my_warn (WarnGtParse inner_tok);
          ret (VCF_GTYPE_MISSING, VCF_GTYPE_MISSING)
      end
  end.

Definition non_binary (hap : Z) : bool :=
  (negb (hap =? VCF_GTYPE_MISSING) && negb (hap =? 0) && negb (hap =? 1))%bool.

(** Lines 151-161. *)
Definition coerce_alleles (hap1 hap2 : Z) : Z * Z :=
  if (non_binary hap1 || non_binary hap2)%bool
  then (VCF_GTYPE_MISSING, VCF_GTYPE_MISSING)
  else (hap1, hap2).

(** What the loops of [parse_haplotypes] carry: the count of entries
    written and the caller's array. *)
Record hap_state : Type := mkHap {
  n_haps : Z;
  hap_array : list Z
}.

(** Lines 133-170, the body run on the GT subfield of one sample. *)
Definition haplotype_body (expect_haps : Z) (inner_tok : string)
    (s : hap_state) : M hap_state :=
  do '(hap1, hap2) <- scan_genotype inner_tok;
  let '(hap1, hap2) := coerce_alleles hap1 hap2 in
  do_ (if n_haps s + 2 >? expect_haps then my_err ErrMoreGenotypes else ret tt);
  ret (mkHap (n_haps s + 2)
         (<[Z.to_nat (n_haps s + 1) := hap2]>
            (<[Z.to_nat (n_haps s) := hap1]> (hap_array s)))).

(** Lines 127-174, the work on one sample token. *)
Definition haplotype_token {env : VCFEnv} (gt_idx expect_haps : Z) (tok : string)
    (s : hap_state) : M hap_state :=
  let gt_str := fst (util_strncpy tok VCF_MAX_FORMAT) in
  subfield_loop (haplotype_body expect_haps) gt_idx
    (strsep_all ":" (Some gt_str)) 0 s.

Definition parse_haplotypes {env : VCFEnv} (vcf_info : VCFInfo)
    (haplotypes : list Z) (cur : option string) : M (list Z) :=
  let gt_idx := get_format_index (format vcf_info) "GT" in
  do_ (if gt_idx =? -1 then my_err (ErrNoGT (format vcf_info)) else ret tt);
  let expect_haps := n_samples vcf_info * 2 in
  do s <- for_tokens (haplotype_token gt_idx expect_haps)
            (strsep_all delim cur) (mkHap 0 haplotypes);
  if negb (n_haps s =? expect_haps)
  then my_err (ErrGenotypeCount expect_haps (n_haps s))
  else ret (hap_array s).

(** *** parse_geno_probs *)

(** Lines 216-229. *)
Definition scan_likelihoods {fops : FloatOps} (inner_tok : string)
  : M (float * float * float) :=
  match sscanf_ggg inner_tok with
  | [like_homo_ref; like_het; like_homo_alt] =>
      ret (like_homo_ref, like_het, like_homo_alt)
  | _ =>
      if String.eqb inner_tok "."
      then ret (float_m0477, float_m0477, float_m0477)
      else my_err (ErrGlParse inner_tok)
  end.

Record prob_state {fops : FloatOps} : Type := mkProb {
  n_geno_probs : Z;
  prob_array : list float
}.
Arguments mkProb {_} _ _.

(** Lines 231-234: log10 likelihoods to probabilities. *)
Definition to_probs {fops : FloatOps} (likes : float * float * float)
  : float * float * float :=
  let '(like_homo_ref, like_het, like_homo_alt) := likes in
  (pow10 like_homo_ref, pow10 like_het, pow10 like_homo_alt).

(** Lines 246-249: the division by the sum. *)
Definition normalize_probs {fops : FloatOps} (probs : float * float * float)
  : float * float * float :=
  let '(prob_homo_ref, prob_het, prob_homo_alt) := probs in
  let prob_sum := fadd (fadd prob_homo_ref prob_het) prob_homo_alt in
  (fdiv prob_homo_ref prob_sum, fdiv prob_het prob_sum,
   fdiv prob_homo_alt prob_sum).

(** Lines 216-255, the body run on the GL subfield of one sample. *)
Definition geno_prob_body {fops : FloatOps} (expect_geno_probs : Z)
    (inner_tok : string) (s : prob_state) : M prob_state :=
  do likes <- scan_likelihoods inner_tok;
  let probs := to_probs likes in
  do_ (if n_geno_probs s + 3 >? expect_geno_probs
       then my_err ErrMoreLikelihoods else ret tt);
  let '(prob_homo_ref, prob_het, prob_homo_alt) := normalize_probs probs in
  ret (mkProb (n_geno_probs s + 3)
         (<[Z.to_nat (n_geno_probs s + 2) := prob_homo_alt]>
            (<[Z.to_nat (n_geno_probs s + 1) := prob_het]>
               (<[Z.to_nat (n_geno_probs s) := prob_homo_ref]>
                  (prob_array s))))).

Definition geno_prob_token {env : VCFEnv} {fops : FloatOps} (gl_idx expect_geno_probs : Z)
    (tok : string) (s : prob_state) : M prob_state :=
  let gtype := fst (util_strncpy tok VCF_MAX_FORMAT) in
  subfield_loop (geno_prob_body expect_geno_probs) gl_idx
    (strsep_all ":" (Some gtype)) 0 s.

Definition parse_geno_probs {env : VCFEnv} {fops : FloatOps} (vcf_info : VCFInfo)
    (geno_probs : list float) (cur : option string) : M (list float) :=
  let expect_geno_probs := n_samples vcf_info * 3 in
  let gl_idx := get_format_index (format vcf_info) "GL" in
  do_ (if gl_idx =? -1 then my_err ErrNoGL else ret tt);
  do s <- for_tokens (geno_prob_token gl_idx expect_geno_probs)
            (strsep_all delim cur) (mkProb 0 geno_probs);
  if negb (n_geno_probs s =? expect_geno_probs)
  then my_err (ErrLikelihoodCount expect_geno_probs (n_geno_probs s))
  else ret (prob_array s).

(** *** vcf_read_header *)

Definition set_header (vcf_info : VCFInfo) (lines samples : Z) : VCFInfo :=
  mkVCFInfo lines samples (chrom vcf_info) (pos vcf_info) (id vcf_info)
    (ref_allele vcf_info) (alt_allele vcf_info) (ref_len vcf_info)
    (alt_len vcf_info) (qual vcf_info) (filter vcf_info) (info vcf_info)
    (format vcf_info).

(** Lines 49-55, the body of the token loop over the [#CHROM] line. *)
Definition header_token (token : string) (tok_num : Z) : M Z :=
  do_ (if tok_num <? n_fix_header then
         let expected := nth (Z.to_nat tok_num) vcf_fix_headers "" in
         if negb (String.eqb token expected)
         then my_warn (WarnHeaderToken tok_num expected token)
         else ret tt
       else ret tt);
  ret (tok_num + 1).

(** The [while(1)] loop, one round per line of the stream. *)
Fixpoint vcf_read_header_loop (vcf_fh : gzFile) (vcf_info : VCFInfo)
  : M (gzFile * VCFInfo) :=
  match vcf_fh with
  | [] => my_err ErrHeaderEof
  | line :: rest =>
      if util_str_starts_with line "##" then
        vcf_read_header_loop rest
          (set_header vcf_info (n_header_lines vcf_info + 1) (n_samples vcf_info))
      else if util_str_starts_with line "#CHROM" then
        do tok_num <- for_tokens header_token (strsep_all delim (Some line)) 0;
        ret (rest, set_header vcf_info (n_header_lines vcf_info + 1)
                     (tok_num - n_fix_header))
      else my_err ErrHeaderStart
  end.

Definition vcf_read_header (vcf_fh : gzFile) (vcf_info : VCFInfo)
  : M (gzFile * VCFInfo) :=
  vcf_read_header_loop vcf_fh (set_header vcf_info 0 (n_samples vcf_info)).

(** *** vcf_read_line *)

(** [token = strsep(&cur, delim); if(token == NULL) my_err(...)]. *)
Definition fixed_token (cur : option string) : M (string * option string) :=
  match strsep delim cur with
  | Some r => ret r
  | None => my_err (ErrFewTokens n_fix_header)
  end.

(** Lines 383-404: the sample columns go to the parsers the caller asked
    for, by passing arrays that are not [NULL]. *)
Definition parse_samples {env : VCFEnv} {fops : FloatOps} (vcf_info : VCFInfo)
    (geno_probs : option (list float)) (haplotypes : option (list Z))
    (cur : option string) : M (option (list float) * option (list Z)) :=
  match geno_probs, haplotypes with
  | Some gp, Some hp =>
      (* strlen(cur) needs a cursor *)
      do cur_copy <- match cur with
                     | Some c => ret (Some c)
                     | None => my_err NullCursor
                     end;
      do gp' <- parse_geno_probs vcf_info gp cur_copy;
      do hp' <- parse_haplotypes vcf_info hp cur;
      ret (Some gp', Some hp')
  | Some gp, None =>
      do gp' <- parse_geno_probs vcf_info gp cur;
      ret (Some gp', None)
  | None, Some hp =>
      do hp' <- parse_haplotypes vcf_info hp cur;
      ret (None, Some hp')
  | None, None => ret (None, None)
  end.

(** What a call of [vcf_read_line] leaves: the value of its [return]
    statement ([None] when control reaches the closing brace without one),
    the rest of the stream, the record and the two arrays. *)
Record line_result {fops : FloatOps} : Type := mkLine {
  lr_return : option Z;
  lr_fh : gzFile;
  lr_info : VCFInfo;
  lr_geno_probs : option (list float);
  lr_haplotypes : option (list Z)
}.
Arguments mkLine {_} _ _ _ _ _.

Definition vcf_read_line {env : VCFEnv} {fops : FloatOps} (vcf_fh : gzFile)
    (vcf_info : VCFInfo) (geno_probs : option (list float))
    (haplotypes : option (list Z)) : M line_result :=
  match util_gzgets_line vcf_fh with
  | (None, vcf_fh) => ret (mkLine (Some (-1)) vcf_fh vcf_info geno_probs haplotypes)
  | (Some line, vcf_fh) =>
      (* chrom *)
      do '(token, cur) <- fixed_token (Some line);
      let chrom' := fst (util_strncpy token sizeof_chrom) in
      (* pos *)
      do '(token, cur) <- fixed_token cur;
      do pos' <- match util_parse_long token with
                 | Some p => ret p
                 | None => my_err (ErrParseLong token)
                 end;
      (* ID *)
      do '(token, cur) <- fixed_token cur;
      let id' := fst (util_strncpy token sizeof_id) in
      (* ref *)
      do '(token, cur) <- fixed_token cur;
      let ref_len' := strlen token in
      let '(ref_allele', ref_len_stored) := util_strncpy token sizeof_ref_allele in
      do_ (if negb (ref_len_stored =? ref_len')
           then my_warn (WarnTruncate ref_len' ref_len_stored) else ret tt);
      (* alt *)
      do '(token, cur) <- fixed_token cur;
      let alt_len' := strlen token in
      let '(alt_allele', alt_len_stored) := util_strncpy token sizeof_alt_allele in
      do_ (if negb (alt_len_stored =? alt_len')
           then my_warn (WarnTruncate alt_len' alt_len_stored) else ret tt);
      (* qual *)
      do '(token, cur) <- fixed_token cur;
      let qual' := fst (util_strncpy token sizeof_qual) in
      (* filter *)
      do '(token, cur) <- fixed_token cur;
      let filter' := fst (util_strncpy token sizeof_filter) in
      (* info *)
      do '(token, cur) <- fixed_token cur;
      let info' := fst (util_strncpy token sizeof_info) in
      (* format *)
      do '(token, cur) <- fixed_token cur;
      let format' := fst (util_strncpy token sizeof_format) in
      let vcf_info :=
        mkVCFInfo (n_header_lines vcf_info) (n_samples vcf_info) chrom' pos'
          id' ref_allele' alt_allele' ref_len' alt_len' qual' filter' info'
          format' in
      (* now parse haplotypes and/or genotype likelihoods *)
      do '(geno_probs, haplotypes) <- parse_samples vcf_info geno_probs haplotypes cur;
      (* the closing brace is reached without a return statement *)
      ret (mkLine None vcf_fh vcf_info geno_probs haplotypes)
  end.

(** ** A concrete environment, to run the decoders *)

(** Converts a token that is a decimal integer with an optional sign,
    and nothing else. *)
Definition parse_long_decimal (token : string) : option Z :=
  let '(neg, s) :=
    match token with
    | String "-" r => (true, r)
    | String "+" r => (false, r)
    | _ => (false, token)
    end in
  match s with
  | EmptyString => None
  | String _ _ =>
      match scan_digits s 0 with
      | (v, EmptyString) => Some (if neg then - v else v)
      | _ => None
      end
  end.

Definition small_env : VCFEnv := {|
  VCF_MAX_FORMAT := 64;
  sizeof_chrom := 16;
  sizeof_id := 16;
  sizeof_ref_allele := 8;
  sizeof_alt_allele := 8;
  sizeof_qual := 16;
  sizeof_filter := 16;
  sizeof_info := 32;
  sizeof_format := 64;
  util_parse_long := parse_long_decimal
|}.

(** Floating-point values as the terms that compute them: a decimal
    constant [mant / 10 ^ scale], or an operation left uninterpreted. *)
Inductive fterm : Type :=
| FDec (mant : Z) (scale : nat)
| FPow10 (x : fterm)
| FAdd (a b : fterm)
| FDiv (a b : fterm).

(** The digits at the front of [s], folded into [acc], and their number. *)
Fixpoint scan_fraction (s : string) (acc : Z) (n : nat) : Z * nat * string :=
  match s with
  | String c s' =>
      match digit_of c with
      | Some d => scan_fraction s' (10 * acc + d) (S n)
      | None => (acc, n, s)
      end
  | EmptyString => (acc, n, s)
  end.

(** Decimal constants [[+-]digits[.digits]] and [[+-].digits], without
    exponent. *)
Definition scan_decimal (s : string) : option (fterm * string) :=
  let s1 := skip_space s in
  let '(neg, s2) :=
    match s1 with
    | String "-" r => (true, r)
    | String "+" r => (false, r)
    | _ => (false, s1)
    end in
  let '(ip, ni, s3) := scan_fraction s2 0 0 in
  let '(m, nf, s4) :=
    match s3 with
    | String "." r => scan_fraction r ip 0
    | _ => (ip, O, s3)
    end in
  match ni, nf with
  | O, O => None
  | _, _ => Some (FDec (if neg then - m else m) nf, s4)
  end.

Definition term_float : FloatOps := {|
  float := fterm;
  scan_float := scan_decimal;
  float_m0477 := FDec (-477) 3;
  pow10 := FPow10;
  fadd := FAdd;
  fdiv := FDiv
|}.

Definition blank_info (samples : Z) : VCFInfo :=
  mkVCFInfo 0 samples "" 0 "" "" "" 0 0 "" "" "" "".

(** A record as [vcf_read_line] leaves it for a line with the given
    FORMAT column, in a file with the given number of samples. *)
Definition sample_info (fmt : string) (samples : Z) : VCFInfo :=
  mkVCFInfo 1 samples "1" 100 "rs1" "A" "G" 1 1 "." "PASS" "." fmt.

Definition zero_floats (n : nat) : list (@float term_float) :=
  repeat (FDec 0 0) n.

(** Single precision as the binary32 format of IEEE 754: 24 bits of
    precision, exponents below 128, every operation rounded to nearest
    with ties to even. *)
Definition binary32_of_Z (z : Z) : spec_float :=
  binary_normalize 24 128 z 0 false.

(** The [float] nearest to the decimal constant [mant / 10 ^ scale],
    with the sign given apart (a zero keeps it). *)
Definition binary32_of_decimal (neg : bool) (mant : Z) (scale : nat)
  : spec_float :=
  match mant with
  | Zpos m =>
      SFdiv 24 128 (S754_finite neg m 0)
        (S754_finite false (Z.to_pos (10 ^ Z.of_nat scale)) 0)
  | _ => S754_zero neg
  end.

(** One [%g] conversion into a [float], for the decimal constants
    [[+-]digits[.digits]] and [[+-].digits], without exponent. *)
Definition scan_binary32 (s : string) : option (spec_float * string) :=
  let s1 := skip_space s in
  let '(neg, s2) :=
    match s1 with
    | String "-" r => (true, r)
    | String "+" r => (false, r)
    | _ => (false, s1)
    end in
  let '(ip, ni, s3) := scan_fraction s2 0 0 in
  let '(m, nf, s4) :=
    match s3 with
    | String "." r => scan_fraction r ip 0
    | _ => (ip, O, s3)
    end in
  match ni, nf with
  | O, O => None
  | _, _ => Some (binary32_of_decimal neg m nf, s4)
  end.

(** [pow(10.0, x)] stored in a [float].  The mathematical library is not
    among the sources; what the range of [float] decides is written out:
    for [x <= -46] the power is below 2^-150, half the least positive
    [float], and is stored as +0; for [x >= 39] it is above the largest
    [float] and is stored as +infinity.  In between, the result is the
    parameter [pow_mid]. *)
Definition pow10_binary32 (pow_mid : spec_float -> spec_float)
    (x : spec_float) : spec_float :=
  if SFleb x (binary32_of_Z (-46)) then S754_zero false
  else if SFleb (binary32_of_Z 39) x then S754_infinity false
  else pow_mid x.

Definition binary32_float (pow_mid : spec_float -> spec_float) : FloatOps := {|
  float := spec_float;
  scan_float := scan_binary32;
  float_m0477 := binary32_of_decimal true 477 3;
  pow10 := pow10_binary32 pow_mid;
  fadd := SFadd 24 128;
  fdiv := SFdiv 24 128
|}.

(** Two calls of [vcf_read_line] in one process, each on its own copy of
    the same line, with the same header and the same arrays. *)
Definition decode_twice {env : VCFEnv} {fops : FloatOps} (line : string)
    (vcf_info : VCFInfo) (geno_probs : option (list float))
    (haplotypes : option (list Z)) : M (line_result * line_result) :=
  do r1 <- vcf_read_line [line] vcf_info geno_probs haplotypes;
  do r2 <- vcf_read_line [line] vcf_info geno_probs haplotypes;
  ret (r1, r2).

(** ** Notions used to state the properties *)

(** The subfield of a sample token that the inner loop reaches at [idx],
    when the token has that many. *)
Definition subfield_at {env : VCFEnv} (idx : Z) (tok : string) : option string :=
  strsep_all ":" (Some (fst (util_strncpy tok VCF_MAX_FORMAT))) !! Z.to_nat idx.

(** The subfields at [idx] of the sample tokens of a line, in order. *)
Definition subfields {env : VCFEnv} (idx : Z) (cur : option string) : list string :=
  omap (subfield_at idx) (strsep_all delim cur).

(** The pair [parse_haplotypes] stores for a GT subfield met with the flag
    at [wp], and the flag afterwards. *)
Definition genotype_pair (wp : bool) (inner_tok : string) : Z * Z :=
  match snd (scan_genotype inner_tok (mkProc wp [])) with
  | Done (hap1, hap2) => coerce_alleles hap1 hap2
  | Fatal _ => (VCF_GTYPE_MISSING, VCF_GTYPE_MISSING)
  end.

Definition genotype_phase (wp : bool) (inner_tok : string) : bool :=
  warn_phase (fst (scan_genotype inner_tok (mkProc wp []))).

Fixpoint decode_genotypes (wp : bool) (sel : list string) : list (Z * Z) :=
  match sel with
  | [] => []
  | inner_tok :: sel' =>
      genotype_pair wp inner_tok
        :: decode_genotypes (genotype_phase wp inner_tok) sel'
  end.

Definition flat_pairs {A} (ps : list (A * A)) : list A :=
  flat_map (fun p => [fst p; snd p]) ps.

(** The triplet [parse_geno_probs] stores for a GL subfield, when the
    subfield does not end the process. *)
Definition posterior {fops : FloatOps} (inner_tok : string)
  : option (float * float * float) :=
  match snd (scan_likelihoods inner_tok proc_init) with
  | Done likes => Some (normalize_probs (to_probs likes))
  | Fatal _ => None
  end.

Definition flat_triples {A} (ts : list (A * A * A)) : list A :=
  flat_map (fun t => [fst (fst t); snd (fst t); snd t]) ts.

(** A stored probability lies in [0,1]. *)
Definition in_unit_interval (x : spec_float) : bool :=
  (SFleb (S754_zero false) x && SFleb x (binary32_of_Z 1))%bool.

(** The three stored probabilities sum to 1 within the tolerance [tol]. *)
Definition sums_to_one (tol : spec_float)
    (probs : spec_float * spec_float * spec_float) : bool :=
  let '(prob_homo_ref, prob_het, prob_homo_alt) := probs in
  SFleb (SFabs (SFsub 24 128
                  (SFadd 24 128 (SFadd 24 128 prob_homo_ref prob_het)
                     prob_homo_alt)
                  (binary32_of_Z 1)))
    tol.

Definition is_truncate (w : warning) : bool :=
  match w with
  | WarnTruncate _ _ => true
  | _ => false
  end.

(** The warning of [vcf_read_line] for an allele token copied into a
    buffer of [size] characters. *)
Definition allele_warnings (token : string) (size : nat) : list warning :=
  if Z.of_nat (size - 1) <? strlen token
  then [WarnTruncate (strlen token) (Z.of_nat (size - 1))]
  else [].

(** The record that [vcf_read_line] fills from the nine fixed tokens of a
    line and the converted position. *)
Definition fixed_fields {env : VCFEnv} (vcf_info : VCFInfo)
    (chrom_t id_t ref_t alt_t qual_t filter_t info_t format_t : string)
    (p : Z) : VCFInfo :=
  mkVCFInfo (n_header_lines vcf_info) (n_samples vcf_info)
    (str_take (sizeof_chrom - 1) chrom_t) p
    (str_take (sizeof_id - 1) id_t)
    (str_take (sizeof_ref_allele - 1) ref_t)
    (str_take (sizeof_alt_allele - 1) alt_t)
    (strlen ref_t) (strlen alt_t)
    (str_take (sizeof_qual - 1) qual_t)
    (str_take (sizeof_filter - 1) filter_t)
    (str_take (sizeof_info - 1) info_t)
    (str_take (sizeof_format - 1) format_t).

(** The log of [st'] is the log of [st] followed by warnings that are not
    about truncated alleles. *)
Definition extends_quietly (st st' : proc_state) : Prop :=
  exists ws,
    warn_log st' = warn_log st ++ ws
    /\ Forall (fun w => is_truncate w = false) ws.

Definition is_fatal {A} (o : outcome A) : bool :=
  match o with
  | Fatal _ => true
  | Done _ => false
  end.

(** ** Notions used for the further properties *)

(** The warnings of [vcf_read_header] for the tokens of a [#CHROM] line:
    one for each of the fixed names, in order, that the token at its
    position differs from. *)
Fixpoint header_mismatches (expected toks : list string) (tok_num : Z)
  : list warning :=
  match expected, toks with
  | name :: expected', token :: toks' =>
      (if String.eqb token name then []
       else [WarnHeaderToken tok_num name token])
        ++ header_mismatches expected' toks' (tok_num + 1)
  | _, _ => []
  end.

(** The values an entry of the haplotype array can take. *)
Definition is_allele (hap : Z) : Prop :=
  hap = 0 \/ hap = 1 \/ hap = VCF_GTYPE_MISSING.

Definition is_unphased_notice (w : warning) : bool :=
  match w with
  | WarnUnphased _ => true
  | _ => false
  end.

Definition count_notices (ws : list warning) : nat :=
  length (List.filter is_unphased_notice ws).

Definition flag_value (b : bool) : nat := if b then 1%nat else 0%nat.

(** From [st] to [st'] the log has grown, and the notices about unphased
    genotypes in what was added, together with the flag that is left,
    make up the flag there was. *)
Definition notice_budget (st st' : proc_state) : Prop :=
  exists ws,
    warn_log st' = warn_log st ++ ws
    /\ (count_notices ws + flag_value (warn_phase st')
        = flag_value (warn_phase st))%nat.

(** Every run of [m] relates the state it starts from to the one it
    leaves. *)
Definition preserves {A} (R : proc_state -> proc_state -> Prop) (m : M A)
  : Prop :=
  forall st, R st (fst (m st)).

(** Of the process state, [m] looks at the flag only: from two states
    with the same flag it has the same outcome and leaves the same flag. *)
Definition phase_only {A} (m : M A) : Prop :=
  forall st1 st2,
    warn_phase st1 = warn_phase st2 ->
    snd (m st1) = snd (m st2)
    /\ warn_phase (fst (m st1)) = warn_phase (fst (m st2)).

(** The three likelihoods that [parse_geno_probs] takes from a GL
    subfield: the values that [sscanf] assigns when it assigns three, the
    constant -0.477 three times for the string [.] when it does not. *)
Definition gl_values {fops : FloatOps} (inner_tok : string)
    (likes : float * float * float) : Prop :=
  sscanf_ggg inner_tok = [fst (fst likes); snd (fst likes); snd likes]
  \/ (length (sscanf_ggg inner_tok) <> 3%nat
      /\ inner_tok = "."
      /\ likes = (float_m0477, float_m0477, float_m0477)).

(** The powers of ten of three likelihoods, each divided by the sum of
    the three, added from left to right. *)
Definition quotients {fops : FloatOps} (likes : float * float * float)
  : list float :=
  let p1 := pow10 (fst (fst likes)) in
  let p2 := pow10 (snd (fst likes)) in
  let p3 := pow10 (snd likes) in
  [fdiv p1 (fadd (fadd p1 p2) p3);
   fdiv p2 (fadd (fadd p1 p2) p3);
   fdiv p3 (fadd (fadd p1 p2) p3)].

(** ** The tokenizer *)

(** One [strsep] call yields the first token of the loop and leaves the
    cursor from which the loop visits the others. *)
Lemma strsep_tokens_step (dl s : string) :
  strsep_tokens dl s
  = fst (strsep_from dl s) :: strsep_all dl (snd (strsep_from dl s)).
Proof.
  induction s as [|c s IH]; simpl; [reflexivity|].
  destruct (char_in c dl); simpl; [reflexivity|].
  rewrite IH. destruct (strsep_from dl s) as [tok cur]. reflexivity.
Qed.

Lemma strsep_all_step (dl : string) (cur : option string) :
  strsep_all dl cur
  = match strsep dl cur with
    | None => []
    | Some (tok, cur') => tok :: strsep_all dl cur'
    end.
Proof.
  destruct cur as [s|]; simpl; [|reflexivity].
  rewrite strsep_tokens_step. destruct (strsep_from dl s). reflexivity.
Qed.

(** A line has one token more than it has delimiter characters. *)
Lemma strsep_tokens_length (dl s : string) :
  length (strsep_tokens dl s) = S (count_delims dl s).
Proof.
  induction s as [|c s IH]; simpl; [reflexivity|].
  destruct (char_in c dl); simpl; [now rewrite IH|].
  destruct (strsep_tokens dl s); simpl in *; lia.
Qed.

(** ** The monad *)

Lemma bind_done {A B} (m : M A) (k : A -> M B) st st' a :
  m st = (st', Done a) -> bind m k st = k a st'.
Proof. intros E. unfold bind. now rewrite E. Qed.

Lemma bind_fatal {A B} (m : M A) (k : A -> M B) st st' e :
  m st = (st', Fatal e) -> bind m k st = (st', Fatal e).
Proof. intros E. unfold bind. now rewrite E. Qed.

(** ** The inner loop *)

Lemma subfield_loop_past {St} (body : string -> St -> M St) idx toks i s st :
  idx < i -> subfield_loop body idx toks i s st = (st, Done s).
Proof.
  intros Hi. destruct toks as [|t toks]; simpl; [reflexivity|].
  destruct (Z.leb_spec i idx); [lia|reflexivity].
Qed.

(** The inner loop runs its body once, on subfield number [idx] when the
    token has one, and not at all otherwise. *)
Lemma subfield_loop_lookup {St} (body : string -> St -> M St) idx toks :
  forall i s st, 0 <= i <= idx ->
    subfield_loop body idx toks i s st
    = match toks !! Z.to_nat (idx - i) with
      | Some t => body t s st
      | None => (st, Done s)
      end.
Proof.
  induction toks as [|t toks IH]; intros i s st Hi; simpl; [reflexivity|].
  destruct (Z.leb_spec i idx); [|lia].
  destruct (Z.eqb_spec i idx) as [->|Hne].
  - rewrite Z.sub_diag. simpl. unfold bind.
    destruct (body t s st) as [st' [s'|e]]; [|reflexivity].
    apply subfield_loop_past. lia.
  - replace (Z.to_nat (idx - i)) with (S (Z.to_nat (idx - (i + 1)))) by lia.
    simpl. unfold bind at 1. unfold ret at 1. apply IH. lia.
Qed.

(** ** parse_haplotypes *)

(** The two patterns never end the process; they leave the flag and the
    pair that [genotype_phase] and [genotype_pair] name, and append their
    warnings to the log. *)
Lemma scan_genotype_run (inner_tok : string) (st : proc_state) :
  exists ws p,
    scan_genotype inner_tok st
    = (mkProc (genotype_phase (warn_phase st) inner_tok) (warn_log st ++ ws),
       Done p)
    /\ coerce_alleles (fst p) (snd p) = genotype_pair (warn_phase st) inner_tok
    /\ Forall (fun w => is_truncate w = false) ws.
Proof.
  destruct st as [wp lg].
  unfold genotype_phase, genotype_pair, scan_genotype. simpl.
  destruct (sscanf_dd "|" inner_tok) as [|a [|b [|c l]]];
    try (destruct wp; destruct (sscanf_dd "/" inner_tok) as [|a' [|b' [|c' l']]]);
    simpl;
    first
      [ exists [], (a, b); rewrite app_nil_r; now repeat split
      | eexists [_], _; split; [reflexivity|];
        split; [reflexivity| repeat constructor] ].
Qed.

Lemma haplotype_body_run (e : Z) (inner_tok : string) (s : hap_state)
    (st : proc_state) :
  exists ws,
    Forall (fun w => is_truncate w = false) ws
    /\ haplotype_body e inner_tok s st
       = (mkProc (genotype_phase (warn_phase st) inner_tok) (warn_log st ++ ws),
          if n_haps s + 2 >? e then Fatal ErrMoreGenotypes
          else
            let pr := genotype_pair (warn_phase st) inner_tok in
            Done (mkHap (n_haps s + 2)
                    (<[Z.to_nat (n_haps s + 1) := snd pr]>
                       (<[Z.to_nat (n_haps s) := fst pr]> (hap_array s))))).
Proof.
  destruct (scan_genotype_run inner_tok st) as (ws & [h1 h2] & E & Hp & Hws).
  exists ws. split; [exact Hws|].
  unfold haplotype_body. rewrite (bind_done _ _ _ _ _ E).
  simpl in Hp. rewrite <- Hp.
  destruct (coerce_alleles h1 h2) as [c1 c2]. simpl.
  destruct (n_haps s + 2 >? e); reflexivity.
Qed.

(** More subfields than the array has room for: the process ends at the
    first one that does not fit. *)
Lemma hap_loop_overrun (e : Z) (sel : list string) :
  forall n arr st,
    sel <> [] -> e < n + 2 * Z.of_nat (length sel) ->
    snd (for_tokens (haplotype_body e) sel (mkHap n arr) st)
    = Fatal ErrMoreGenotypes.
Proof.
  induction sel as [|t sel IH]; intros n arr st Hne Hlt; [congruence|].
  simpl. destruct (haplotype_body_run e t (mkHap n arr) st) as (ws & _ & E).
  simpl in E. destruct (Z.gtb_spec (n + 2) e) as [Hov|Hfit].
  - rewrite (bind_fatal _ _ _ _ _ E). reflexivity.
  - rewrite (bind_done _ _ _ _ _ E). apply IH.
    + destruct sel; [simpl in Hlt; lia|congruence].
    + simpl length in Hlt. lia.
Qed.

(** Otherwise every subfield adds two to the count. *)
Lemma hap_loop_count (e : Z) (sel : list string) :
  forall n arr st,
    n + 2 * Z.of_nat (length sel) <= e ->
    exists st' arr',
      for_tokens (haplotype_body e) sel (mkHap n arr) st
      = (st', Done (mkHap (n + 2 * Z.of_nat (length sel)) arr')).
Proof.
  induction sel as [|t sel IH]; intros n arr st Hle.
  - simpl. exists st, arr. unfold ret. do 3 f_equal. lia.
  - simpl length in Hle. simpl.
    destruct (haplotype_body_run e t (mkHap n arr) st) as (ws & _ & E).
    simpl in E. destruct (Z.gtb_spec (n + 2) e) as [Hov|Hfit]; [lia|].
    rewrite (bind_done _ _ _ _ _ E).
    edestruct (IH (n + 2)) as (st' & arr' & E'); [lia|].
    rewrite E'. exists st', arr'. do 3 f_equal. lia.
Qed.

Lemma insert_pair_app {A} (pre rest : list A) (a b : A) :
  (2 <= length rest)%nat ->
  <[S (length pre) := b]> (<[length pre := a]> (pre ++ rest))
  = (pre ++ [a; b]) ++ drop 2 rest.
Proof.
  intros Hlen. destruct rest as [|x [|y rest]]; simpl in Hlen; try lia.
  rewrite insert_app_r_alt by lia. rewrite Nat.sub_diag. simpl.
  rewrite insert_app_r_alt by lia.
  replace (S (length pre) - length pre)%nat with 1%nat by lia. simpl.
  rewrite <- app_assoc. reflexivity.
Qed.

(** The entries are written pair after pair from the front of the array. *)
Lemma hap_loop_exact (e : Z) (sel : list string) :
  forall pre rest st,
    Z.of_nat (length pre) + 2 * Z.of_nat (length sel) <= e ->
    (2 * length sel <= length rest)%nat ->
    exists st',
      for_tokens (haplotype_body e) sel
        (mkHap (Z.of_nat (length pre)) (pre ++ rest)) st
      = (st',
         Done (mkHap (Z.of_nat (length pre) + 2 * Z.of_nat (length sel))
                 (pre ++ flat_pairs (decode_genotypes (warn_phase st) sel)
                      ++ drop (2 * length sel) rest))).
Proof.
  induction sel as [|t sel IH]; intros pre rest st Hle Hroom.
  - simpl. exists st. unfold ret. rewrite Z.add_0_r. reflexivity.
  - simpl length in *. simpl.
    destruct (haplotype_body_run e t (mkHap (Z.of_nat (length pre)) (pre ++ rest)) st)
      as (ws & _ & E).
    simpl in E.
    destruct (Z.gtb_spec (Z.of_nat (length pre) + 2) e) as [Hov|Hfit]; [lia|].
    rewrite (bind_done _ _ _ _ _ E). clear E.
    replace (Z.to_nat (Z.of_nat (length pre) + 1)) with (S (length pre)) by lia.
    rewrite Nat2Z.id. rewrite insert_pair_app by lia.
    set (pr := genotype_pair (warn_phase st) t).
    replace (Z.of_nat (length pre) + 2)
      with (Z.of_nat (length (pre ++ [fst pr; snd pr])))
      by (rewrite length_app; simpl; lia).
    edestruct (IH (pre ++ [fst pr; snd pr]) (drop 2 rest)) as (st' & E').
    + rewrite length_app. simpl. lia.
    + rewrite length_drop. lia.
    + rewrite E'. exists st'. simpl warn_phase. do 3 f_equal.
      * rewrite length_app. simpl. lia.
      * rewrite <- app_assoc. simpl. rewrite drop_drop.
        subst pr. repeat f_equal. lia.
Qed.

Lemma format_index_loop_range (label : string) (toks : list string) :
  forall i, 0 <= i ->
    format_index_loop label toks i = -1 \/ i <= format_index_loop label toks i.
Proof.
  induction toks as [|t toks IH]; intros i Hi; simpl; [now left|].
  destruct (String.eqb t label); [right; lia|].
  destruct (IH (i + 1)) as [E|E]; [lia|now left|right; lia].
Qed.

Lemma get_format_index_range (format_str label : string) :
  get_format_index format_str label = -1
  \/ 0 <= get_format_index format_str label.
Proof. apply format_index_loop_range. lia. Qed.

(** A loop over the sample tokens is a loop over the subfields that the
    inner loop reaches. *)
Lemma for_tokens_omap {St} (f : string -> option string)
    (tokbody body : string -> St -> M St) :
  (forall tok s st,
      tokbody tok s st
      = match f tok with
        | Some t => body t s st
        | None => (st, Done s)
        end) ->
  forall toks s st,
    for_tokens tokbody toks s st = for_tokens body (omap f toks) s st.
Proof.
  intros Hbody. induction toks as [|tok toks IH]; intros s st; [reflexivity|].
  simpl. unfold bind at 1. rewrite Hbody.
  destruct (f tok) as [t|]; simpl.
  - unfold bind. destruct (body t s st) as [st' [s'|e]]; [apply IH|reflexivity].
  - apply IH.
Qed.

Lemma haplotype_token_subfield {env : VCFEnv} (idx e : Z) tok s st :
  0 <= idx ->
  haplotype_token idx e tok s st
  = match subfield_at idx tok with
    | Some t => haplotype_body e t s st
    | None => (st, Done s)
    end.
Proof.
  intros Hidx. unfold haplotype_token, subfield_at.
  rewrite subfield_loop_lookup by lia. now rewrite Z.sub_0_r.
Qed.

(** [parse_haplotypes] once the GT index is known: the loop over the GT
    subfields, then the count check. *)
Lemma parse_haplotypes_subfields {env : VCFEnv} vcf_info haplotypes cur st :
  get_format_index (format vcf_info) "GT" <> -1 ->
  parse_haplotypes vcf_info haplotypes cur st
  = bind (for_tokens (haplotype_body (n_samples vcf_info * 2))
            (subfields (get_format_index (format vcf_info) "GT") cur)
            (mkHap 0 haplotypes))
      (fun s =>
         if negb (n_haps s =? n_samples vcf_info * 2)
         then my_err (ErrGenotypeCount (n_samples vcf_info * 2) (n_haps s))
         else ret (hap_array s)) st.
Proof.
  intros Hidx. unfold parse_haplotypes.
  destruct (Z.eqb_spec (get_format_index (format vcf_info) "GT") (-1));
    [contradiction|].
  destruct (get_format_index_range (format vcf_info) "GT") as [|Hge];
    [contradiction|].
  unfold bind at 1. unfold ret at 1. unfold bind.
  rewrite (for_tokens_omap
             (subfield_at (get_format_index (format vcf_info) "GT")) _
             (haplotype_body (n_samples vcf_info * 2)))
    by (intros; now apply haplotype_token_subfield).
  reflexivity.
Qed.

Lemma parse_haplotypes_no_gt {env : VCFEnv} vcf_info haplotypes cur st :
  get_format_index (format vcf_info) "GT" = -1 ->
  parse_haplotypes vcf_info haplotypes cur st
  = (st, Fatal (ErrNoGT (format vcf_info))).
Proof. intros E. unfold parse_haplotypes. rewrite E. reflexivity. Qed.

Lemma parse_haplotypes_overrun {env : VCFEnv} vcf_info haplotypes cur st :
  let sel := subfields (get_format_index (format vcf_info) "GT") cur in
  get_format_index (format vcf_info) "GT" <> -1 ->
  sel <> [] -> n_samples vcf_info < Z.of_nat (length sel) ->
  snd (parse_haplotypes vcf_info haplotypes cur st) = Fatal ErrMoreGenotypes.
Proof.
  intros sel Hidx Hne Hlt. rewrite parse_haplotypes_subfields by assumption.
  fold sel.
  pose proof (hap_loop_overrun (n_samples vcf_info * 2) sel 0 haplotypes st Hne)
    as Hov.
  unfold bind.
  destruct (for_tokens _ sel _ st) as [st' [s'|e]]; simpl in *.
  - discriminate Hov. lia.
  - assert (e = ErrMoreGenotypes) as -> by (enough (Fatal (A:=hap_state) e = Fatal ErrMoreGenotypes) by congruence; apply Hov; lia).
    reflexivity.
Qed.

Lemma parse_haplotypes_undercount {env : VCFEnv} vcf_info haplotypes cur st :
  let sel := subfields (get_format_index (format vcf_info) "GT") cur in
  get_format_index (format vcf_info) "GT" <> -1 ->
  sel = [] \/ Z.of_nat (length sel) <= n_samples vcf_info ->
  Z.of_nat (length sel) <> n_samples vcf_info ->
  snd (parse_haplotypes vcf_info haplotypes cur st)
  = Fatal (ErrGenotypeCount (n_samples vcf_info * 2)
             (2 * Z.of_nat (length sel))).
Proof.
  intros sel Hidx Hle Hne. rewrite parse_haplotypes_subfields by assumption.
  fold sel. destruct Hle as [Hnil|Hle].
  - rewrite Hnil in *. cbn [for_tokens length] in *. unfold bind, ret.
    cbn [n_haps hap_array].
    destruct (Z.eqb_spec 0 (n_samples vcf_info * 2)); [lia|reflexivity].
  - destruct (hap_loop_count (n_samples vcf_info * 2) sel 0 haplotypes st)
      as (st' & arr' & E); [lia|].
    rewrite Z.add_0_l in E. rewrite (bind_done _ _ _ _ _ E).
    cbn [n_haps hap_array].
    destruct (Z.eqb_spec (2 * Z.of_nat (length sel)) (n_samples vcf_info * 2));
      [lia|reflexivity].
Qed.

Lemma parse_haplotypes_exact {env : VCFEnv} vcf_info haplotypes cur st :
  let sel := subfields (get_format_index (format vcf_info) "GT") cur in
  get_format_index (format vcf_info) "GT" <> -1 ->
  Z.of_nat (length sel) = n_samples vcf_info ->
  length haplotypes = (2 * length sel)%nat ->
  snd (parse_haplotypes vcf_info haplotypes cur st)
  = Done (flat_pairs (decode_genotypes (warn_phase st) sel)).
Proof.
  intros sel Hidx Hn Hlen. rewrite parse_haplotypes_subfields by assumption.
  fold sel.
  destruct (hap_loop_exact (n_samples vcf_info * 2) sel [] haplotypes st)
    as (st' & E); [simpl; lia|lia|].
  cbn [length app] in E. rewrite Z.add_0_l in E.
  rewrite (bind_done _ _ _ _ _ E). cbn [n_haps hap_array].
  destruct (Z.eqb_spec (2 * Z.of_nat (length sel)) (n_samples vcf_info * 2));
    [|lia].
  cbn [negb]. unfold ret. cbn [snd]. rewrite drop_ge by lia.
  now rewrite app_nil_r.
Qed.

(** ** parse_geno_probs *)

Lemma scan_likelihoods_state {fops : FloatOps} (inner_tok : string) (st : proc_state) :
  scan_likelihoods inner_tok st
  = (st, snd (scan_likelihoods inner_tok proc_init)).
Proof.
  unfold scan_likelihoods.
  destruct (sscanf_ggg inner_tok) as [|a [|b [|c [|d l]]]];
    try reflexivity; destruct (String.eqb inner_tok "."); reflexivity.
Qed.

Lemma scan_likelihoods_fatal {fops : FloatOps} (inner_tok : string) (st : proc_state) e :
  snd (scan_likelihoods inner_tok st) = Fatal e -> e = ErrGlParse inner_tok.
Proof.
  unfold scan_likelihoods.
  destruct (sscanf_ggg inner_tok) as [|a [|b [|c [|d l]]]];
    try discriminate; destruct (String.eqb inner_tok ".");
    try discriminate; simpl; congruence.
Qed.

Lemma geno_prob_body_run {fops : FloatOps} (e : Z) (inner_tok : string)
    (s : prob_state) (st : proc_state) :
  geno_prob_body e inner_tok s st
  = (st,
     match posterior inner_tok with
     | None => Fatal (ErrGlParse inner_tok)
     | Some (prob_homo_ref, prob_het, prob_homo_alt) =>
         if n_geno_probs s + 3 >? e then Fatal ErrMoreLikelihoods
         else
           Done (mkProb (n_geno_probs s + 3)
                   (<[Z.to_nat (n_geno_probs s + 2) := prob_homo_alt]>
                      (<[Z.to_nat (n_geno_probs s + 1) := prob_het]>
                         (<[Z.to_nat (n_geno_probs s) := prob_homo_ref]>
                            (prob_array s)))))
     end).
Proof.
  unfold geno_prob_body, posterior, bind.
  rewrite scan_likelihoods_state.
  pose proof (scan_likelihoods_fatal inner_tok proc_init) as Hf.
  destruct (snd (scan_likelihoods inner_tok proc_init)) as [likes|e'].
  - destruct (normalize_probs (to_probs likes)) as [[p1 p2] p3].
    destruct (n_geno_probs s + 3 >? e); reflexivity.
  - now rewrite (Hf e' eq_refl).
Qed.

Lemma prob_loop_state {fops : FloatOps} (e : Z) (sel : list string) :
  forall s st, fst (for_tokens (geno_prob_body e) sel s st) = st.
Proof.
  induction sel as [|t sel IH]; intros s st; [reflexivity|].
  simpl. unfold bind. rewrite geno_prob_body_run.
  destruct (posterior t) as [[[p1 p2] p3]|]; [|reflexivity].
  destruct (n_geno_probs s + 3 >? e); [reflexivity|apply IH].
Qed.

(** A subfield that cannot be decoded ends the process, wherever it
    stands on the line (if a count check has not ended it before). *)
Lemma prob_loop_bad {fops : FloatOps} (e : Z) (sel : list string) :
  forall s st,
    Exists (fun t => posterior t = None) sel ->
    is_fatal (snd (for_tokens (geno_prob_body e) sel s st)) = true.
Proof.
  induction sel as [|t sel IH]; intros s st Hbad; [inversion Hbad|].
  simpl. unfold bind. rewrite geno_prob_body_run.
  destruct (posterior t) as [[[p1 p2] p3]|] eqn:Ep; [|reflexivity].
  destruct (n_geno_probs s + 3 >? e); [reflexivity|].
  apply IH. inversion Hbad; subst; [congruence|assumption].
Qed.

Lemma prob_loop_overrun {fops : FloatOps} (e : Z) (sel : list string) :
  forall n arr st,
    Forall (fun t => posterior t <> None) sel ->
    sel <> [] -> e < n + 3 * Z.of_nat (length sel) ->
    snd (for_tokens (geno_prob_body e) sel (mkProb n arr) st)
    = Fatal ErrMoreLikelihoods.
Proof.
  induction sel as [|t sel IH]; intros n arr st Hok Hne Hlt; [congruence|].
  inversion Hok as [|? ? Ht Hsel]; subst.
  simpl. unfold bind. rewrite geno_prob_body_run.
  destruct (posterior t) as [[[p1 p2] p3]|]; [|congruence].
  cbn [n_geno_probs prob_array].
  destruct (Z.gtb_spec (n + 3) e) as [Hov|Hfit]; [reflexivity|].
  apply IH; [assumption| |simpl length in Hlt; lia].
  destruct sel; [simpl in Hlt; lia|congruence].
Qed.

Lemma prob_loop_count {fops : FloatOps} (e : Z) (sel : list string) :
  forall n arr st,
    Forall (fun t => posterior t <> None) sel ->
    n + 3 * Z.of_nat (length sel) <= e ->
    exists arr',
      for_tokens (geno_prob_body e) sel (mkProb n arr) st
      = (st, Done (mkProb (n + 3 * Z.of_nat (length sel)) arr')).
Proof.
  induction sel as [|t sel IH]; intros n arr st Hok Hle.
  - simpl. exists arr. unfold ret. now rewrite Z.add_0_r.
  - inversion Hok as [|? ? Ht Hsel]; subst. simpl length in Hle.
    simpl. unfold bind. rewrite geno_prob_body_run.
    destruct (posterior t) as [[[p1 p2] p3]|]; [|congruence].
    cbn [n_geno_probs prob_array].
    destruct (Z.gtb_spec (n + 3) e) as [Hov|Hfit]; [lia|].
    edestruct (IH (n + 3)) as (arr' & E'); [eassumption|lia|].
    rewrite E'. exists arr'. do 3 f_equal. lia.
Qed.

Lemma insert_triple_app {A} (pre rest : list A) (a b c : A) :
  (3 <= length rest)%nat ->
  <[S (S (length pre)) := c]>
    (<[S (length pre) := b]> (<[length pre := a]> (pre ++ rest)))
  = (pre ++ [a; b; c]) ++ drop 3 rest.
Proof.
  intros Hlen. destruct rest as [|x [|y [|z rest]]]; simpl in Hlen; try lia.
  rewrite insert_app_r_alt by lia. rewrite Nat.sub_diag. simpl.
  rewrite insert_app_r_alt by lia.
  replace (S (length pre) - length pre)%nat with 1%nat by lia. simpl.
  rewrite insert_app_r_alt by lia.
  replace (S (S (length pre)) - length pre)%nat with 2%nat by lia. simpl.
  rewrite <- app_assoc. reflexivity.
Qed.

Lemma prob_loop_exact {fops : FloatOps} (e : Z) (sel : list string) :
  forall ts pre rest st,
    Forall2 (fun t p => posterior t = Some p) sel ts ->
    Z.of_nat (length pre) + 3 * Z.of_nat (length sel) <= e ->
    (3 * length sel <= length rest)%nat ->
    for_tokens (geno_prob_body e) sel
      (mkProb (Z.of_nat (length pre)) (pre ++ rest)) st
    = (st,
       Done (mkProb (Z.of_nat (length pre) + 3 * Z.of_nat (length sel))
               (pre ++ flat_triples ts ++ drop (3 * length sel) rest))).
Proof.
  induction sel as [|t sel IH]; intros ts pre rest st Hts Hle Hroom.
  - inversion Hts; subst. simpl. unfold ret. now rewrite Z.add_0_r.
  - inversion Hts as [|? p ? ts' Hp Hts']; subst. simpl length in *.
    simpl. unfold bind. rewrite geno_prob_body_run, Hp.
    destruct p as [[p1 p2] p3]. cbn [n_geno_probs prob_array].
    destruct (Z.gtb_spec (Z.of_nat (length pre) + 3) e) as [Hov|Hfit]; [lia|].
    replace (Z.to_nat (Z.of_nat (length pre) + 2)) with (S (S (length pre))) by lia.
    replace (Z.to_nat (Z.of_nat (length pre) + 1)) with (S (length pre)) by lia.
    rewrite Nat2Z.id. rewrite insert_triple_app by lia.
    replace (Z.of_nat (length pre) + 3)
      with (Z.of_nat (length (pre ++ [p1; p2; p3])))
      by (rewrite length_app; simpl; lia).
    rewrite (IH ts' (pre ++ [p1; p2; p3]) (drop 3 rest) st Hts').
    + do 3 f_equal.
      * rewrite length_app. simpl. lia.
      * rewrite <- app_assoc. simpl. rewrite drop_drop.
        repeat f_equal. lia.
    + rewrite length_app. simpl. lia.
    + rewrite length_drop. lia.
Qed.

Lemma geno_prob_token_subfield {env : VCFEnv} {fops : FloatOps} (idx e : Z) tok s st :
  0 <= idx ->
  geno_prob_token idx e tok s st
  = match subfield_at idx tok with
    | Some t => geno_prob_body e t s st
    | None => (st, Done s)
    end.
Proof.
  intros Hidx. unfold geno_prob_token, subfield_at.
  rewrite subfield_loop_lookup by lia. now rewrite Z.sub_0_r.
Qed.

Lemma parse_geno_probs_subfields {env : VCFEnv} {fops : FloatOps} vcf_info geno_probs cur st :
  get_format_index (format vcf_info) "GL" <> -1 ->
  parse_geno_probs vcf_info geno_probs cur st
  = bind (for_tokens (geno_prob_body (n_samples vcf_info * 3))
            (subfields (get_format_index (format vcf_info) "GL") cur)
            (mkProb 0 geno_probs))
      (fun s =>
         if negb (n_geno_probs s =? n_samples vcf_info * 3)
         then my_err (ErrLikelihoodCount (n_samples vcf_info * 3)
                        (n_geno_probs s))
         else ret (prob_array s)) st.
Proof.
  intros Hidx. unfold parse_geno_probs.
  destruct (Z.eqb_spec (get_format_index (format vcf_info) "GL") (-1));
    [contradiction|].
  destruct (get_format_index_range (format vcf_info) "GL") as [|Hge];
    [contradiction|].
  unfold bind at 1. unfold ret at 1. unfold bind.
  rewrite (for_tokens_omap
             (subfield_at (get_format_index (format vcf_info) "GL")) _
             (geno_prob_body (n_samples vcf_info * 3)))
    by (intros; now apply geno_prob_token_subfield).
  reflexivity.
Qed.

Lemma parse_geno_probs_no_gl {env : VCFEnv} {fops : FloatOps} vcf_info geno_probs cur st :
  get_format_index (format vcf_info) "GL" = -1 ->
  parse_geno_probs vcf_info geno_probs cur st = (st, Fatal ErrNoGL).
Proof. intros E. unfold parse_geno_probs. rewrite E. reflexivity. Qed.

Lemma parse_geno_probs_state {env : VCFEnv} {fops : FloatOps} vcf_info geno_probs cur st :
  fst (parse_geno_probs vcf_info geno_probs cur st) = st.
Proof.
  destruct (Z.eq_dec (get_format_index (format vcf_info) "GL") (-1)) as [E|E].
  - now rewrite parse_geno_probs_no_gl.
  - rewrite parse_geno_probs_subfields by assumption. unfold bind.
    pose proof (prob_loop_state (n_samples vcf_info * 3)
                  (subfields (get_format_index (format vcf_info) "GL") cur)
                  (mkProb 0 geno_probs) st) as Hst.
    destruct (for_tokens _ _ _ st) as [st' [s'|e]]; simpl in Hst; subst;
      [|reflexivity].
    destruct (negb _); reflexivity.
Qed.

Lemma parse_geno_probs_bad {env : VCFEnv} {fops : FloatOps} vcf_info geno_probs cur st :
  Exists (fun t => posterior t = None)
    (subfields (get_format_index (format vcf_info) "GL") cur) ->
  is_fatal (snd (parse_geno_probs vcf_info geno_probs cur st)) = true.
Proof.
  intros Hbad.
  destruct (Z.eq_dec (get_format_index (format vcf_info) "GL") (-1)) as [E|E].
  - now rewrite parse_geno_probs_no_gl.
  - rewrite parse_geno_probs_subfields by assumption. unfold bind.
    pose proof (prob_loop_bad (n_samples vcf_info * 3) _ (mkProb 0 geno_probs)
                  st Hbad) as Hf.
    destruct (for_tokens _ _ _ st) as [st' [s'|e]]; simpl in Hf;
      [discriminate|reflexivity].
Qed.

Lemma parse_geno_probs_overrun {env : VCFEnv} {fops : FloatOps} vcf_info geno_probs cur st :
  let sel := subfields (get_format_index (format vcf_info) "GL") cur in
  get_format_index (format vcf_info) "GL" <> -1 ->
  Forall (fun t => posterior t <> None) sel ->
  sel <> [] -> n_samples vcf_info < Z.of_nat (length sel) ->
  snd (parse_geno_probs vcf_info geno_probs cur st) = Fatal ErrMoreLikelihoods.
Proof.
  intros sel Hidx Hok Hne Hlt. rewrite parse_geno_probs_subfields by assumption.
  fold sel.
  pose proof (prob_loop_overrun (n_samples vcf_info * 3) sel 0 geno_probs st
                Hok Hne) as Hov.
  unfold bind.
  destruct (for_tokens _ sel _ st) as [st' [s'|e]]; simpl in *.
  - discriminate Hov. lia.
  - assert (e = ErrMoreLikelihoods) as ->
        by (enough (Fatal (A:=prob_state) e = Fatal ErrMoreLikelihoods)
             by congruence; apply Hov; lia).
    reflexivity.
Qed.

Lemma parse_geno_probs_undercount {env : VCFEnv} {fops : FloatOps} vcf_info geno_probs cur st :
  let sel := subfields (get_format_index (format vcf_info) "GL") cur in
  get_format_index (format vcf_info) "GL" <> -1 ->
  Forall (fun t => posterior t <> None) sel ->
  sel = [] \/ Z.of_nat (length sel) <= n_samples vcf_info ->
  Z.of_nat (length sel) <> n_samples vcf_info ->
  snd (parse_geno_probs vcf_info geno_probs cur st)
  = Fatal (ErrLikelihoodCount (n_samples vcf_info * 3)
             (3 * Z.of_nat (length sel))).
Proof.
  intros sel Hidx Hok Hle Hne. rewrite parse_geno_probs_subfields by assumption.
  fold sel. destruct Hle as [Hnil|Hle].
  - rewrite Hnil in *. cbn [for_tokens length] in *. unfold bind, ret.
    cbn [n_geno_probs prob_array].
    destruct (Z.eqb_spec 0 (n_samples vcf_info * 3)); [lia|reflexivity].
  - destruct (prob_loop_count (n_samples vcf_info * 3) sel 0 geno_probs st Hok)
      as (arr' & E); [lia|].
    rewrite Z.add_0_l in E. rewrite (bind_done _ _ _ _ _ E).
    cbn [n_geno_probs prob_array].
    destruct (Z.eqb_spec (3 * Z.of_nat (length sel)) (n_samples vcf_info * 3));
      [lia|reflexivity].
Qed.

Lemma parse_geno_probs_exact {env : VCFEnv} {fops : FloatOps} vcf_info geno_probs cur st ts :
  let sel := subfields (get_format_index (format vcf_info) "GL") cur in
  get_format_index (format vcf_info) "GL" <> -1 ->
  Forall2 (fun t p => posterior t = Some p) sel ts ->
  Z.of_nat (length sel) = n_samples vcf_info ->
  length geno_probs = (3 * length sel)%nat ->
  snd (parse_geno_probs vcf_info geno_probs cur st) = Done (flat_triples ts).
Proof.
  intros sel Hidx Hts Hn Hlen. rewrite parse_geno_probs_subfields by assumption.
  fold sel.
  pose proof (prob_loop_exact (n_samples vcf_info * 3) sel ts [] geno_probs st
                Hts) as E.
  cbn [length app] in E. rewrite Z.add_0_l in E.
  rewrite (bind_done _ _ _ _ _ (E ltac:(lia) ltac:(lia))).
  cbn [n_geno_probs prob_array].
  destruct (Z.eqb_spec (3 * Z.of_nat (length sel)) (n_samples vcf_info * 3));
    [|lia].
  cbn [negb]. unfold ret. cbn [snd]. rewrite drop_ge by lia.
  now rewrite app_nil_r.
Qed.

(** ** The count of entries *)

(** When every sample token reaches the index, there is one subfield for
    each sample token. *)
Lemma subfields_all_present {env : VCFEnv} (idx : Z) (cur : option string) :
  Forall (fun tok => subfield_at idx tok <> None) (strsep_all delim cur) ->
  length (subfields idx cur) = length (strsep_all delim cur).
Proof.
  unfold subfields. induction (strsep_all delim cur) as [|tok toks IH];
    intros Hall; [reflexivity|].
  inversion Hall as [|? ? Htok Htoks]; subst. cbn.
  destruct (subfield_at idx tok); [|congruence].
  cbn. f_equal. now apply IH.
Qed.

(** C6.  [parse_haplotypes] ends the process when a GT subfield would
    take the count of written entries beyond [2 * n_samples], and when the
    count at the end of the line differs from [2 * n_samples]; otherwise
    the array holds two entries for each GT subfield, in the order of the
    line, and there is one GT subfield for each sample token when every
    token reaches the GT index.  [parse_geno_probs] does the same with
    three entries and [3 * n_samples], for GL subfields that can be
    decoded. *)
Theorem C6_entry_counts :
  (forall (E : VCFEnv) vcf_info haplotypes cur st,
      let sel := subfields (get_format_index (format vcf_info) "GT") cur in
      get_format_index (format vcf_info) "GT" <> -1 ->
      (sel <> [] -> n_samples vcf_info < Z.of_nat (length sel) ->
       snd (parse_haplotypes vcf_info haplotypes cur st)
       = Fatal ErrMoreGenotypes)
      /\ (sel = [] \/ Z.of_nat (length sel) <= n_samples vcf_info ->
          Z.of_nat (length sel) <> n_samples vcf_info ->
          snd (parse_haplotypes vcf_info haplotypes cur st)
          = Fatal (ErrGenotypeCount (n_samples vcf_info * 2)
                     (2 * Z.of_nat (length sel))))
      /\ (Z.of_nat (length sel) = n_samples vcf_info ->
          length haplotypes = (2 * length sel)%nat ->
          snd (parse_haplotypes vcf_info haplotypes cur st)
          = Done (flat_pairs (decode_genotypes (warn_phase st) sel)))
      /\ (Forall (fun tok =>
                    subfield_at (get_format_index (format vcf_info) "GT") tok
                    <> None) (strsep_all delim cur) ->
          length sel = length (strsep_all delim cur)))
  /\
  (forall (E : VCFEnv) (F : FloatOps) vcf_info geno_probs cur st,
      let sel := subfields (get_format_index (format vcf_info) "GL") cur in
      get_format_index (format vcf_info) "GL" <> -1 ->
      Forall (fun t => posterior t <> None) sel ->
      (sel <> [] -> n_samples vcf_info < Z.of_nat (length sel) ->
       snd (parse_geno_probs vcf_info geno_probs cur st)
       = Fatal ErrMoreLikelihoods)
      /\ (sel = [] \/ Z.of_nat (length sel) <= n_samples vcf_info ->
          Z.of_nat (length sel) <> n_samples vcf_info ->
          snd (parse_geno_probs vcf_info geno_probs cur st)
          = Fatal (ErrLikelihoodCount (n_samples vcf_info * 3)
                     (3 * Z.of_nat (length sel))))
      /\ (forall ts,
             Forall2 (fun t p => posterior t = Some p) sel ts ->
             Z.of_nat (length sel) = n_samples vcf_info ->
             length geno_probs = (3 * length sel)%nat ->
             snd (parse_geno_probs vcf_info geno_probs cur st)
             = Done (flat_triples ts))
      /\ (Forall (fun tok =>
                    subfield_at (get_format_index (format vcf_info) "GL") tok
                    <> None) (strsep_all delim cur) ->
          length sel = length (strsep_all delim cur))).
Proof.
  split.
  - intros E vcf_info haplotypes cur st sel Hidx. split; [|split; [|split]].
    + now apply parse_haplotypes_overrun.
    + now apply parse_haplotypes_undercount.
    + now apply parse_haplotypes_exact.
    + apply subfields_all_present.
  - intros E F vcf_info geno_probs cur st sel Hidx Hok.
    split; [|split; [|split]].
    + now apply parse_geno_probs_overrun.
    + now apply parse_geno_probs_undercount.
    + intros ts Hts Hn Hlen. now apply parse_geno_probs_exact.
    + apply subfields_all_present.
Qed.

Lemma C6_entry_counts_witness :
  let cur := Some "0|1:-1.0,-0.1,-2.0 1|1:." in
  let hap vcf_info :=
    snd (parse_haplotypes (env:=small_env) vcf_info [0; 0; 0; 0] cur proc_init) in
  let prob vcf_info :=
    snd (parse_geno_probs (env:=small_env) (fops:=term_float) vcf_info
           (zero_floats 6) cur proc_init) in
  (hap (sample_info "GT:GL" 1) = Fatal ErrMoreGenotypes
   /\ hap (sample_info "GT:GL" 3) = Fatal (ErrGenotypeCount 6 4)
   /\ hap (sample_info "GT:GL" 2) = Done [0; 1; 1; 1])
  /\ (prob (sample_info "GT:GL" 1) = Fatal ErrMoreLikelihoods
      /\ prob (sample_info "GT:GL" 3) = Fatal (ErrLikelihoodCount 9 6)
      /\ exists ts, length ts = 2%nat
                    /\ prob (sample_info "GT:GL" 2) = Done (flat_triples ts)).
Proof.
  intros cur hap prob. split.
  - pose proof (proj1 C6_entry_counts small_env) as Hh.
    split; [|split].
    + apply (proj1 (Hh (sample_info "GT:GL" 1) [0; 0; 0; 0] cur proc_init
                      ltac:(discriminate)));
        [discriminate|reflexivity].
    + apply (proj1 (proj2 (Hh (sample_info "GT:GL" 3) [0; 0; 0; 0] cur proc_init
                             ltac:(discriminate))));
        [right; discriminate|discriminate].
    + apply (proj1 (proj2 (proj2 (Hh (sample_info "GT:GL" 2) [0; 0; 0; 0] cur
                                    proc_init ltac:(discriminate)))));
        reflexivity.
  - pose proof (proj2 C6_entry_counts small_env term_float) as Hp.
    assert (Hok : forall n,
               Forall (fun t => posterior (fops:=term_float) t <> None)
                 (subfields (env:=small_env)
                    (get_format_index (format (sample_info "GT:GL" n)) "GL") cur))
      by (intros n; repeat constructor; discriminate).
    split; [|split].
    + apply (proj1 (Hp (sample_info "GT:GL" 1) (zero_floats 6) cur proc_init
                      ltac:(discriminate) (Hok 1)));
        [discriminate|reflexivity].
    + apply (proj1 (proj2 (Hp (sample_info "GT:GL" 3) (zero_floats 6) cur
                             proc_init ltac:(discriminate) (Hok 3))));
        [right; discriminate|discriminate].
    + eexists. split;
        [|apply (proj1 (proj2 (proj2 (Hp (sample_info "GT:GL" 2)
                                        (zero_floats 6) cur proc_init
                                        ltac:(discriminate) (Hok 2)))));
          [repeat constructor|reflexivity|reflexivity]].
      reflexivity.
Defined.

(** ** vcf_read_header *)

Lemma header_tokens_count (toks : list string) :
  forall tok_num st,
    snd (for_tokens header_token toks tok_num st)
    = Done (tok_num + Z.of_nat (length toks)).
Proof.
  induction toks as [|t toks IH]; intros tok_num st.
  - simpl. now rewrite Z.add_0_r.
  - cbn [for_tokens]. unfold bind at 1. unfold header_token at 1.
    unfold bind at 1.
    destruct (tok_num <? n_fix_header);
      [destruct (negb _)|]; cbn; rewrite IH; f_equal; lia.
Qed.

Lemma starts_with_chrom_not_meta (line : string) :
  util_str_starts_with line "#CHROM" = true ->
  util_str_starts_with line "##" = false.
Proof.
  unfold util_str_starts_with.
  destruct line as [|c1 [|c2 line]]; cbn [String.prefix]; try discriminate.
  - destruct (ascii_dec "#" c1); discriminate.
  - destruct (ascii_dec "#" c1); [|discriminate].
    destruct (ascii_dec "C" c2) as [<-|]; [|discriminate].
    intros _. destruct (ascii_dec "#" "C"); [discriminate|reflexivity].
Qed.

Lemma vcf_read_header_loop_metas (metas : list string) :
  forall line rest vcf_info st,
    Forall (fun l => util_str_starts_with l "##" = true) metas ->
    util_str_starts_with line "#CHROM" = true ->
    snd (vcf_read_header_loop (metas ++ line :: rest) vcf_info st)
    = Done (rest,
            set_header vcf_info
              (n_header_lines vcf_info + Z.of_nat (length metas) + 1)
              (Z.of_nat (length (strsep_all delim (Some line))) - n_fix_header)).
Proof.
  induction metas as [|m metas IH]; intros line rest vcf_info st Hm Hc.
  - cbn [app vcf_read_header_loop].
    rewrite (starts_with_chrom_not_meta _ Hc), Hc.
    pose proof (header_tokens_count (strsep_all delim (Some line)) 0 st) as Ht.
    unfold bind.
    destruct (for_tokens header_token _ 0 st) as [st' [n|e]];
      simpl in Ht; [|discriminate].
    injection Ht as ->. unfold ret. cbn [snd length]. do 3 f_equal. lia.
  - inversion Hm as [|? ? Hm1 Hm2]; subst.
    cbn [app vcf_read_header_loop]. rewrite Hm1.
    rewrite IH by assumption. cbn [length]. unfold set_header. simpl.
    do 3 f_equal. lia.
Qed.

(** C9.  On a stream of [##] lines followed by a [#CHROM] line,
    [vcf_read_header] succeeds and sets the sample count to the number of
    tokens of the [#CHROM] line (one more than its blanks and tabs) minus
    the 9 fixed column names; the lines read are counted as header
    lines. *)
Theorem C9_sample_count (metas : list string) (line : string) (rest : gzFile)
    (vcf_info : VCFInfo) (st : proc_state) :
  Forall (fun l => util_str_starts_with l "##" = true) metas ->
  util_str_starts_with line "#CHROM" = true ->
  exists info',
    snd (vcf_read_header (metas ++ line :: rest) vcf_info st)
    = Done (rest, info')
    /\ n_samples info' = Z.of_nat (length (strsep_all delim (Some line))) - 9
    /\ n_samples info' = Z.of_nat (count_delims delim line) + 1 - 9
    /\ n_header_lines info' = Z.of_nat (length metas) + 1.
Proof.
  intros Hm Hc. unfold vcf_read_header.
  rewrite vcf_read_header_loop_metas by assumption.
  eexists. split; [reflexivity|].
  cbn [n_samples n_header_lines set_header strsep_all].
  rewrite strsep_tokens_length. unfold n_fix_header. cbn [length vcf_fix_headers].
  repeat split; lia.
Qed.

(** The header line of the specification's scenario gives 2 samples. *)
Lemma C9_sample_count_witness :
  Forall (fun l => util_str_starts_with l "##" = true) ["##fileformat=VCFv4.1"]
  /\ util_str_starts_with
       "#CHROM POS ID REF ALT QUAL FILTER INFO FORMAT S1 S2" "#CHROM" = true
  /\ exists info',
       snd (vcf_read_header
              ["##fileformat=VCFv4.1";
               "#CHROM POS ID REF ALT QUAL FILTER INFO FORMAT S1 S2";
               "1 100 rs1 A G . PASS . GT 0|1 1|1"]
              (blank_info 0) proc_init)
       = Done (["1 100 rs1 A G . PASS . GT 0|1 1|1"], info')
       /\ n_samples info' = 2.
Proof.
  assert (Hm : Forall (fun l => util_str_starts_with l "##" = true)
                 ["##fileformat=VCFv4.1"])
    by (repeat constructor).
  assert (Hc : util_str_starts_with
                 "#CHROM POS ID REF ALT QUAL FILTER INFO FORMAT S1 S2" "#CHROM"
               = true) by reflexivity.
  split; [exact Hm|]. split; [exact Hc|].
  destruct (C9_sample_count ["##fileformat=VCFv4.1"]
              "#CHROM POS ID REF ALT QUAL FILTER INFO FORMAT S1 S2"
              ["1 100 rs1 A G . PASS . GT 0|1 1|1"] (blank_info 0) proc_init
              Hm Hc) as (info' & E & Hn & _).
  exists info'. split; [exact E|]. rewrite Hn. reflexivity.
Defined.

(** ** The unphased pattern and the one-shot notice *)

(** With the flag still set, a subfield that only the unphased pattern
    decodes keeps its two values, and the notice clears the flag. *)
Lemma scan_genotype_unphased_first (inner_tok : string) (lg : list warning)
    (hap1 hap2 : Z) :
  length (sscanf_dd "|" inner_tok) <> 2%nat ->
  sscanf_dd "/" inner_tok = [hap1; hap2] ->
  scan_genotype inner_tok (mkProc true lg)
  = (mkProc false (lg ++ [WarnUnphased inner_tok]), Done (hap1, hap2)).
Proof.
  intros Hp Hu. unfold scan_genotype. rewrite Hu.
  destruct (sscanf_dd "|" inner_tok) as [|a [|b [|c l]]]; try reflexivity.
  now contradiction Hp.
Qed.

(** With the flag cleared, whatever the phased pattern does not decode
    becomes a pair of [MISSING], with the warning of an unparseable
    genotype: also what the unphased pattern has just decoded. *)
Lemma scan_genotype_after_notice (inner_tok : string) (lg : list warning) :
  length (sscanf_dd "|" inner_tok) <> 2%nat ->
  scan_genotype inner_tok (mkProc false lg)
  = (mkProc false (lg ++ [WarnGtParse inner_tok]),
     Done (VCF_GTYPE_MISSING, VCF_GTYPE_MISSING)).
Proof.
  intros Hp. unfold scan_genotype.
  destruct (sscanf_dd "|" inner_tok) as [|a [|b [|c l]]];
    try (now contradiction Hp);
    destruct (sscanf_dd "/" inner_tok) as [|a' [|b' [|c' l']]]; reflexivity.
Qed.

(** Neither pattern decodes the subfield: a pair of [MISSING] and a
    warning, the flag untouched. *)
Lemma scan_genotype_unparseable (inner_tok : string) (st : proc_state) :
  length (sscanf_dd "|" inner_tok) <> 2%nat ->
  length (sscanf_dd "/" inner_tok) <> 2%nat ->
  scan_genotype inner_tok st
  = (mkProc (warn_phase st) (warn_log st ++ [WarnGtParse inner_tok]),
     Done (VCF_GTYPE_MISSING, VCF_GTYPE_MISSING)).
Proof.
  intros Hp Hu. unfold scan_genotype. destruct st as [wp lg].
  destruct (sscanf_dd "|" inner_tok) as [|a [|b [|c l]]];
    try (now contradiction Hp);
    destruct (sscanf_dd "/" inner_tok) as [|a' [|b' [|c' l']]];
    try (now contradiction Hu); destruct wp; reflexivity.
Qed.

(** The phased pattern decodes the subfield: no warning at all. *)
Lemma scan_genotype_phased (inner_tok : string) (st : proc_state) (hap1 hap2 : Z) :
  sscanf_dd "|" inner_tok = [hap1; hap2] ->
  scan_genotype inner_tok st = (st, Done (hap1, hap2)).
Proof. intros Hp. unfold scan_genotype. now rewrite Hp. Qed.

(** The body after the two patterns: coercion, count check, two writes. *)
Lemma haplotype_body_store (e : Z) (inner_tok : string) (s : hap_state)
    (st st1 : proc_state) (hap1 hap2 : Z) :
  scan_genotype inner_tok st = (st1, Done (hap1, hap2)) ->
  n_haps s + 2 <= e ->
  haplotype_body e inner_tok s st
  = (st1,
     Done (mkHap (n_haps s + 2)
             (<[Z.to_nat (n_haps s + 1) := snd (coerce_alleles hap1 hap2)]>
                (<[Z.to_nat (n_haps s) := fst (coerce_alleles hap1 hap2)]>
                   (hap_array s))))).
Proof.
  intros Hscan Hfit. unfold haplotype_body.
  rewrite (bind_done _ _ _ _ _ Hscan).
  destruct (coerce_alleles hap1 hap2) as [c1 c2].
  destruct (Z.gtb_spec (n_haps s + 2) e); [lia|reflexivity].
Qed.

(** C1.  In a fresh process, on a line whose two samples are the unphased
    genotypes [0/1] and [1/0], [parse_haplotypes] keeps the alleles of
    the first only: the second is stored as a pair of [MISSING] and
    reported as unparseable, whereas the phased spelling of the same line
    is stored as written, without a warning. *)
Theorem C1_second_unphased_degrades :
  parse_haplotypes (env:=small_env) (sample_info "GT" 2) [0; 0; 0; 0]
    (Some "0/1 1/0") proc_init
  = (mkProc false [WarnUnphased "0/1"; WarnGtParse "1/0"], Done [0; 1; -1; -1])
  /\ parse_haplotypes (env:=small_env) (sample_info "GT" 2) [0; 0; 0; 0]
       (Some "0|1 1|0") proc_init
     = (proc_init, Done [0; 1; 1; 0]).
Proof. split; reflexivity. Qed.

(** C2.  Decoding the line [1 100 rs1 A G . PASS . GT 0/1] twice in one
    process gives the same record both times, the haplotypes [(0, 1)] the
    first time and [(-1, -1)] the second. *)
Theorem C2_decode_twice_differs :
  exists st r1 r2,
    decode_twice (env:=small_env) (fops:=term_float)
      "1 100 rs1 A G . PASS . GT 0/1" (blank_info 1) None (Some [0; 0])
      proc_init
    = (st, Done (r1, r2))
    /\ lr_info r1 = lr_info r2
    /\ lr_haplotypes r1 = Some [0; 1]
    /\ lr_haplotypes r2 = Some [-1; -1].
Proof.
  let v := eval vm_compute in
    (decode_twice (env:=small_env) (fops:=term_float)
       "1 100 rs1 A G . PASS . GT 0/1" (blank_info 1) None (Some [0; 0])
       proc_init) in
  match v with (?st, Done (?r1, ?r2)) => exists st, r1, r2 end.
  split; [reflexivity|]. repeat split; reflexivity.
Qed.

(** ** Alleles outside 0, 1 and MISSING *)

Lemma coerce_alleles_non_binary (hap1 hap2 : Z) :
  (non_binary hap1 || non_binary hap2)%bool = true ->
  coerce_alleles hap1 hap2 = (VCF_GTYPE_MISSING, VCF_GTYPE_MISSING).
Proof. intros Hnb. unfold coerce_alleles. now rewrite Hnb. Qed.

(** Whatever is stored is 0, 1 or [MISSING]. *)
Lemma coerce_alleles_domain (hap1 hap2 : Z) :
  let pr := coerce_alleles hap1 hap2 in
  (fst pr = 0 \/ fst pr = 1 \/ fst pr = VCF_GTYPE_MISSING)
  /\ (snd pr = 0 \/ snd pr = 1 \/ snd pr = VCF_GTYPE_MISSING).
Proof.
  unfold coerce_alleles, non_binary, VCF_GTYPE_MISSING.
  destruct (Z.eqb_spec hap1 (-1)), (Z.eqb_spec hap1 0), (Z.eqb_spec hap1 1),
    (Z.eqb_spec hap2 (-1)), (Z.eqb_spec hap2 0), (Z.eqb_spec hap2 1);
    simpl; lia.
Qed.

(** The phased genotype [2|3] is stored as a pair of [MISSING] and no
    warning is emitted. *)
Lemma C4_phased_coerced_silently :
  sscanf_dd "|" "2|3" = [2; 3]
  /\ exists st,
       parse_haplotypes (env:=small_env) (sample_info "GT" 1) [0; 0]
         (Some "2|3") proc_init
       = (st, Done [-1; -1])
       /\ warn_log st = [].
Proof. split; [reflexivity|]. exists proc_init. split; reflexivity. Qed.

(** C4, amended.  When one of the two alleles that the patterns decode is
    not 0, 1 or [MISSING], both entries of the sample are stored as
    [MISSING] and the process goes on, in the state that decoding the
    subfield left: the coercion adds no warning.  The subfield [2/3], met
    while the notice about unphased genotypes is still to be given, is
    stored as a pair of [MISSING] with exactly one warning, that notice. *)
Theorem C4_coercion_silent :
  (forall (e : Z) (inner_tok : string) (s : hap_state) (st st1 : proc_state)
          (hap1 hap2 : Z),
      scan_genotype inner_tok st = (st1, Done (hap1, hap2)) ->
      (non_binary hap1 || non_binary hap2)%bool = true ->
      n_haps s + 2 <= e ->
      haplotype_body e inner_tok s st
      = (st1,
         Done (mkHap (n_haps s + 2)
                 (<[Z.to_nat (n_haps s + 1) := VCF_GTYPE_MISSING]>
                    (<[Z.to_nat (n_haps s) := VCF_GTYPE_MISSING]>
                       (hap_array s))))))
  /\
  (forall (e : Z) (s : hap_state) (lg : list warning),
      n_haps s + 2 <= e ->
      haplotype_body e "2/3" s (mkProc true lg)
      = (mkProc false (lg ++ [WarnUnphased "2/3"]),
         Done (mkHap (n_haps s + 2)
                 (<[Z.to_nat (n_haps s + 1) := VCF_GTYPE_MISSING]>
                    (<[Z.to_nat (n_haps s) := VCF_GTYPE_MISSING]>
                       (hap_array s)))))).
Proof.
  split.
  - intros e inner_tok s st st1 hap1 hap2 Hscan Hnb Hfit.
    rewrite (haplotype_body_store _ _ _ _ _ _ _ Hscan Hfit).
    now rewrite (coerce_alleles_non_binary _ _ Hnb).
  - intros e s lg Hfit.
    now rewrite (haplotype_body_store e "2/3" s _ _ 2 3
                   (scan_genotype_unphased_first "2/3" lg 2 3
                      ltac:(discriminate) eq_refl) Hfit).
Qed.

Lemma C4_coercion_silent_witness :
  scan_genotype "2|3" proc_init = (proc_init, Done (2, 3))
  /\ (non_binary 2 || non_binary 3)%bool = true
  /\ n_haps (mkHap 0 [0; 0]) + 2 <= 2
  /\ haplotype_body 2 "2|3" (mkHap 0 [0; 0]) proc_init
     = (proc_init, Done (mkHap 2 [-1; -1]))
  /\ haplotype_body 2 "2/3" (mkHap 0 [0; 0]) proc_init
     = (mkProc false [WarnUnphased "2/3"], Done (mkHap 2 [-1; -1])).
Proof.
  assert (Hfit : n_haps (mkHap 0 [0; 0]) + 2 <= 2) by (cbn [n_haps]; lia).
  split; [reflexivity|]. split; [reflexivity|]. split; [exact Hfit|].
  split.
  - exact (proj1 C4_coercion_silent 2 "2|3" (mkHap 0 [0; 0]) proc_init
             proc_init 2 3 eq_refl eq_refl Hfit).
  - exact (proj2 C4_coercion_silent 2 (mkHap 0 [0; 0]) [] Hfit).
Defined.

(** ** Subfields that cannot be decoded *)

Lemma posterior_unparseable {fops : FloatOps} (inner_tok : string) :
  length (sscanf_ggg inner_tok) <> 3%nat ->
  inner_tok <> "." ->
  posterior inner_tok = None.
Proof.
  intros Hn Hdot. unfold posterior, scan_likelihoods.
  destruct (sscanf_ggg inner_tok) as [|a [|b [|c [|d l]]]];
    try (now contradiction Hn);
    (destruct (String.eqb_spec inner_tok "."); [contradiction|reflexivity]).
Qed.

Lemma scan_likelihoods_missing {fops : FloatOps} (st : proc_state) :
  length (sscanf_ggg ".") <> 3%nat ->
  scan_likelihoods "." st = (st, Done (float_m0477, float_m0477, float_m0477)).
Proof.
  intros Hn. unfold scan_likelihoods.
  destruct (sscanf_ggg ".") as [|a [|b [|c [|d l]]]];
    try (now contradiction Hn); reflexivity.
Qed.

(** What is stored for a GL subfield is always the quotient of the
    powers of ten by their sum. *)
Lemma posterior_renormalized {fops : FloatOps} (inner_tok : string)
    (probs : float * float * float) :
  posterior inner_tok = Some probs ->
  exists l1 l2 l3,
    snd (scan_likelihoods inner_tok proc_init) = Done (l1, l2, l3)
    /\ probs
       = (let prob_sum := fadd (fadd (pow10 l1) (pow10 l2)) (pow10 l3) in
          (fdiv (pow10 l1) prob_sum, fdiv (pow10 l2) prob_sum,
           fdiv (pow10 l3) prob_sum)).
Proof.
  unfold posterior.
  destruct (snd (scan_likelihoods inner_tok proc_init)) as [[[l1 l2] l3]|e];
    [|discriminate].
  intros [= <-]. now exists l1, l2, l3.
Qed.

(** C5.  A GL subfield from which [sscanf] does not get three values ends
    the process unless it is the string [.], whatever the count of
    entries, and so does a line of which it is a GL subfield; for [.] the
    three likelihoods are the constant -0.477.  A GT subfield that neither
    pattern decodes is stored as a pair of [MISSING] with a warning, and
    the process goes on. *)
Theorem C5_gl_fatal_gt_degrades (env : VCFEnv) (fops : FloatOps)
    (gl_tok gt_tok : string) :
  length (sscanf_ggg gl_tok) <> 3%nat ->
  length (sscanf_dd "|" gt_tok) <> 2%nat ->
  length (sscanf_dd "/" gt_tok) <> 2%nat ->
  (gl_tok <> "." ->
   forall e s st, geno_prob_body e gl_tok s st = (st, Fatal (ErrGlParse gl_tok)))
  /\ (gl_tok <> "." ->
      forall vcf_info geno_probs cur st,
        In gl_tok (subfields (get_format_index (format vcf_info) "GL") cur) ->
        is_fatal (snd (parse_geno_probs vcf_info geno_probs cur st)) = true)
  /\ (gl_tok = "." ->
      forall st,
        scan_likelihoods gl_tok st
        = (st, Done (float_m0477, float_m0477, float_m0477)))
  /\ (forall e s st,
         n_haps s + 2 <= e ->
         haplotype_body e gt_tok s st
         = (mkProc (warn_phase st) (warn_log st ++ [WarnGtParse gt_tok]),
            Done (mkHap (n_haps s + 2)
                    (<[Z.to_nat (n_haps s + 1) := VCF_GTYPE_MISSING]>
                       (<[Z.to_nat (n_haps s) := VCF_GTYPE_MISSING]>
                          (hap_array s)))))).
Proof.
  intros Hgl Hp Hu. repeat split.
  - intros Hdot e s st. rewrite geno_prob_body_run.
    now rewrite (posterior_unparseable _ Hgl Hdot).
  - intros Hdot vcf_info geno_probs cur st Hin.
    apply parse_geno_probs_bad. apply List.Exists_exists.
    exists gl_tok. split; [exact Hin|].
    now apply posterior_unparseable.
  - intros -> st. now apply scan_likelihoods_missing.
  - intros e s st Hfit.
    now rewrite (haplotype_body_store e gt_tok s _ _ _ _
                   (scan_genotype_unparseable gt_tok st Hp Hu) Hfit).
Qed.

Lemma C5_gl_fatal_gt_degrades_witness :
  length (sscanf_ggg (fops:=term_float) "-1.0,-0.1") <> 3%nat
  /\ length (sscanf_ggg (fops:=term_float) ".") <> 3%nat
  /\ length (sscanf_dd "|" "./.") <> 2%nat
  /\ length (sscanf_dd "/" "./.") <> 2%nat
  /\ geno_prob_body (fops:=term_float) 3 "-1.0,-0.1" (mkProb 0 (zero_floats 3))
       proc_init
     = (proc_init, Fatal (ErrGlParse "-1.0,-0.1"))
  /\ is_fatal (snd (parse_geno_probs (env:=small_env) (fops:=term_float)
                      (sample_info "GT:GL" 1) (zero_floats 3)
                      (Some "0|1:-1.0,-0.1") proc_init)) = true
  /\ scan_likelihoods (fops:=term_float) "." proc_init
     = (proc_init, Done (FDec (-477) 3, FDec (-477) 3, FDec (-477) 3))
  /\ haplotype_body 2 "./." (mkHap 0 [0; 0]) proc_init
     = (mkProc true [WarnGtParse "./."], Done (mkHap 2 [-1; -1])).
Proof.
  assert (Hgl : length (sscanf_ggg (fops:=term_float) "-1.0,-0.1") <> 3%nat)
    by discriminate.
  assert (Hdot : length (sscanf_ggg (fops:=term_float) ".") <> 3%nat)
    by discriminate.
  assert (Hp : length (sscanf_dd "|" "./.") <> 2%nat) by discriminate.
  assert (Hu : length (sscanf_dd "/" "./.") <> 2%nat) by discriminate.
  pose proof (C5_gl_fatal_gt_degrades small_env term_float "-1.0,-0.1" "./."
                Hgl Hp Hu) as (Hbody & Hline & _ & Hgt).
  pose proof (C5_gl_fatal_gt_degrades small_env term_float "." "./."
                Hdot Hp Hu) as (_ & _ & Hmiss & _).
  repeat (split; [assumption|]).
  split; [apply Hbody; discriminate|].
  split; [apply Hline; [discriminate|now left]|].
  split; [exact (Hmiss eq_refl proc_init)|].
  apply (Hgt 2 (mkHap 0 [0; 0]) proc_init). cbn [n_haps]. lia.
Defined.

(** ** Powers of ten that underflow *)

(** C3.  On a sample whose GL subfield is [-50,-50,-50], in single
    precision, the three powers of ten are stored as +0, their sum is +0
    and each of the three quotients is 0/0: [parse_geno_probs] stores
    three NaNs.  None of them lies in [0,1] and their sum is within no
    tolerance of 1.  This holds whatever [pow] returns for the arguments
    whose power is in the range of [float]. *)
Theorem C3_underflow_stores_nan (pow_mid : spec_float -> spec_float) :
  parse_geno_probs (env:=small_env) (fops:=binary32_float pow_mid)
    (sample_info "GT:GL" 1)
    [S754_zero false; S754_zero false; S754_zero false]
    (Some "0|1:-50,-50,-50") proc_init
  = (proc_init, Done [S754_nan; S754_nan; S754_nan])
  /\ in_unit_interval S754_nan = false
  /\ forall tol : spec_float,
       sums_to_one tol (S754_nan, S754_nan, S754_nan) = false.
Proof.
  split; [reflexivity|]. split; [reflexivity|].
  intros tol. reflexivity.
Qed.

(** ** Sample tokens without the subfield *)

Lemma omap_length_le {A B} (f : A -> option B) (l : list A) :
  (length (omap f l) <= length l)%nat.
Proof.
  induction l as [|a l IH]; cbn; [lia|].
  destruct (f a); cbn; lia.
Qed.

Lemma omap_length_lt {A B} (f : A -> option B) (l : list A) (a : A) :
  In a l -> f a = None -> (length (omap f l) < length l)%nat.
Proof.
  induction l as [|b l IH]; intros Hin Hf; [contradiction|].
  cbn. destruct Hin as [->|Hin].
  - rewrite Hf. pose proof (omap_length_le f l). lia.
  - specialize (IH Hin Hf). destruct (f b); cbn; lia.
Qed.

(** On a line with three sample tokens for two declared samples, of which
    the first has no GT subfield, [parse_haplotypes] succeeds and stores
    the genotypes of the second and third tokens. *)
Lemma C10_short_token_masked :
  subfield_at (env:=small_env) (get_format_index "GL:GT" "GT") "x" = None
  /\ parse_haplotypes (env:=small_env) (sample_info "GL:GT" 2) [0; 0; 0; 0]
       (Some "x .:0|1 .:1|1") proc_init
     = (proc_init, Done [0; 1; 1; 1]).
Proof. split; reflexivity. Qed.

(** C10, amended.  A sample token with too few subfields to reach the
    index of the tag leaves the array, the count and the process state as
    they are.  On a line with no more sample tokens than declared
    samples, the count check at the end of the line then ends the process
    with the count of the entries written (for [parse_geno_probs], when
    the GL subfields present can be decoded). *)
Theorem C10_short_token (env : VCFEnv) (fops : FloatOps) (vcf_info : VCFInfo)
    (cur : option string) (tok : string) :
  In tok (strsep_all delim cur) ->
  Z.of_nat (length (strsep_all delim cur)) <= n_samples vcf_info ->
  (let idx := get_format_index (format vcf_info) "GT" in
   idx <> -1 -> subfield_at idx tok = None ->
   (forall e s st, haplotype_token idx e tok s st = (st, Done s))
   /\ Z.of_nat (length (subfields idx cur)) < n_samples vcf_info
   /\ forall haplotypes st,
        snd (parse_haplotypes vcf_info haplotypes cur st)
        = Fatal (ErrGenotypeCount (n_samples vcf_info * 2)
                   (2 * Z.of_nat (length (subfields idx cur)))))
  /\
  (let idx := get_format_index (format vcf_info) "GL" in
   idx <> -1 -> subfield_at idx tok = None ->
   (forall e s st, geno_prob_token idx e tok s st = (st, Done s))
   /\ Z.of_nat (length (subfields idx cur)) < n_samples vcf_info
   /\ (Forall (fun t => posterior t <> None) (subfields idx cur) ->
       forall geno_probs st,
         snd (parse_geno_probs vcf_info geno_probs cur st)
         = Fatal (ErrLikelihoodCount (n_samples vcf_info * 3)
                    (3 * Z.of_nat (length (subfields idx cur)))))).
Proof.
  intros Hin Hlen. split; intros idx Hidx Hshort.
  - assert (Hlt : Z.of_nat (length (subfields idx cur)) < n_samples vcf_info).
    { pose proof (omap_length_lt (subfield_at idx) _ tok Hin Hshort) as Hl.
      unfold subfields. lia. }
    repeat split.
    + intros e s st. rewrite haplotype_token_subfield.
      * now rewrite Hshort.
      * destruct (get_format_index_range (format vcf_info) "GT");
          [contradiction|assumption].
    + exact Hlt.
    + intros haplotypes st. apply parse_haplotypes_undercount;
        [assumption|right; fold idx; lia|fold idx; lia].
  - assert (Hlt : Z.of_nat (length (subfields idx cur)) < n_samples vcf_info).
    { pose proof (omap_length_lt (subfield_at idx) _ tok Hin Hshort) as Hl.
      unfold subfields. lia. }
    repeat split.
    + intros e s st. rewrite geno_prob_token_subfield.
      * now rewrite Hshort.
      * destruct (get_format_index_range (format vcf_info) "GL");
          [contradiction|assumption].
    + exact Hlt.
    + intros Hok geno_probs st. apply parse_geno_probs_undercount;
        [assumption|assumption|right; fold idx; lia|fold idx; lia].
Qed.

Lemma C10_short_token_witness :
  (In "x" (strsep_all delim (Some "x .:0|1"))
   /\ Z.of_nat (length (strsep_all delim (Some "x .:0|1"))) <= 2
   /\ haplotype_token (env:=small_env) 1 4 "x" (mkHap 0 [0; 0; 0; 0]) proc_init
      = (proc_init, Done (mkHap 0 [0; 0; 0; 0]))
   /\ snd (parse_haplotypes (env:=small_env) (sample_info "GL:GT" 2)
             [0; 0; 0; 0] (Some "x .:0|1") proc_init)
      = Fatal (ErrGenotypeCount 4 2))
  /\
  (In "x" (strsep_all delim (Some "x 0|1:."))
   /\ Z.of_nat (length (strsep_all delim (Some "x 0|1:."))) <= 2
   /\ geno_prob_token (env:=small_env) (fops:=term_float) 1 6 "x"
        (mkProb 0 (zero_floats 6)) proc_init
      = (proc_init, Done (mkProb 0 (zero_floats 6)))
   /\ snd (parse_geno_probs (env:=small_env) (fops:=term_float)
             (sample_info "GT:GL" 2) (zero_floats 6) (Some "x 0|1:.") proc_init)
      = Fatal (ErrLikelihoodCount 6 3)).
Proof.
  split.
  - assert (Hin : In "x" (strsep_all delim (Some "x .:0|1"))) by now left.
    assert (Hlen : Z.of_nat (length (strsep_all delim (Some "x .:0|1"))) <= 2)
      by (cbv; discriminate).
    split; [exact Hin|]. split; [exact Hlen|].
    destruct (proj1 (C10_short_token small_env term_float
                       (sample_info "GL:GT" 2) (Some "x .:0|1") "x" Hin Hlen)
                ltac:(cbv; discriminate) eq_refl) as (Hh1 & _ & Hh2).
    split; [apply Hh1|apply Hh2].
  - assert (Hin : In "x" (strsep_all delim (Some "x 0|1:."))) by now left.
    assert (Hlen : Z.of_nat (length (strsep_all delim (Some "x 0|1:."))) <= 2)
      by (cbv; discriminate).
    split; [exact Hin|]. split; [exact Hlen|].
    destruct (proj2 (C10_short_token small_env term_float
                       (sample_info "GT:GL" 2) (Some "x 0|1:.") "x" Hin Hlen)
                ltac:(cbv; discriminate) eq_refl) as (Hp1 & _ & Hp2).
    split; [apply Hp1|]. apply Hp2. repeat constructor. discriminate.
Defined.

(** ** vcf_read_line *)

Lemma bind_ret_l {A B} (a : A) (k : A -> M B) st : bind (ret a) k st = k a st.
Proof. reflexivity. Qed.

Lemma str_take_length (n : nat) (s : string) :
  String.length (str_take n s) = Nat.min n (String.length s).
Proof.
  revert s. induction n as [|n IH]; intros s; [reflexivity|].
  destruct s as [|c s]; simpl; [reflexivity|]. now rewrite IH.
Qed.

Lemma fixed_token_cons (cur : option string) (t : string) (rest : list string) :
  strsep_all delim cur = t :: rest ->
  exists cur',
    (forall st, fixed_token cur st = (st, Done (t, cur')))
    /\ strsep_all delim cur' = rest.
Proof.
  intros Ht. rewrite strsep_all_step in Ht. unfold fixed_token.
  destruct (strsep delim cur) as [[tok cur']|]; [|discriminate].
  injection Ht as -> Hrest. exists cur'. split; [reflexivity|exact Hrest].
Qed.

Lemma fixed_token_nil (cur : option string) (st : proc_state) :
  strsep_all delim cur = [] ->
  fixed_token cur st = (st, Fatal (ErrFewTokens n_fix_header)).
Proof.
  intros Ht. rewrite strsep_all_step in Ht. unfold fixed_token.
  destruct (strsep delim cur) as [[tok cur']|]; [discriminate|reflexivity].
Qed.

(** The comparison of the stored length with the true one warns exactly
    when the token does not fit the buffer. *)
Lemma allele_warn_step (token : string) (size : nat) (st : proc_state) :
  (if negb (strlen (str_take (size - 1) token) =? strlen token)
   then my_warn (WarnTruncate (strlen token) (strlen (str_take (size - 1) token)))
   else ret tt) st
  = (mkProc (warn_phase st) (warn_log st ++ allele_warnings token size), Done tt).
Proof.
  unfold allele_warnings, strlen. rewrite str_take_length.
  destruct (Z.eqb_spec (Z.of_nat (Nat.min (size - 1) (String.length token)))
              (Z.of_nat (String.length token))) as [Heq|Hne];
    destruct (Z.ltb_spec (Z.of_nat (size - 1)) (Z.of_nat (String.length token)));
    try lia; cbn [negb].
  - destruct st as [wp lg]. unfold ret. cbn [warn_phase warn_log].
    now rewrite app_nil_r.
  - unfold my_warn. do 5 f_equal. lia.
Qed.

(** On a line with its nine fixed tokens, [vcf_read_line] warns about
    the alleles that do not fit, fills the record and hands the rest of
    the line to the parsers; the fixed columns never end the process. *)
Lemma vcf_read_line_fixed {env : VCFEnv} {fops : FloatOps} (line : string)
    (fh : gzFile) (vcf_info : VCFInfo) (geno_probs : option (list float))
    (haplotypes : option (list Z)) (st : proc_state)
    (chrom_t pos_t id_t ref_t alt_t qual_t filter_t info_t format_t : string)
    (samples : list string) (p : Z) :
  strsep_all delim (Some line)
  = chrom_t :: pos_t :: id_t :: ref_t :: alt_t :: qual_t :: filter_t
      :: info_t :: format_t :: samples ->
  util_parse_long pos_t = Some p ->
  let vcf_info' :=
    fixed_fields vcf_info chrom_t id_t ref_t alt_t qual_t filter_t info_t
      format_t p in
  exists cur,
    strsep_all delim cur = samples
    /\ vcf_read_line (line :: fh) vcf_info geno_probs haplotypes st
       = bind (parse_samples vcf_info' geno_probs haplotypes cur)
           (fun r => ret (mkLine None fh vcf_info' (fst r) (snd r)))
           (mkProc (warn_phase st)
              (warn_log st ++ allele_warnings ref_t sizeof_ref_allele
                 ++ allele_warnings alt_t sizeof_alt_allele)).
Proof.
  intros Htoks Hpos vcf_info'.
  destruct (fixed_token_cons _ _ _ Htoks) as (c1 & E1 & H1).
  destruct (fixed_token_cons _ _ _ H1) as (c2 & E2 & H2).
  destruct (fixed_token_cons _ _ _ H2) as (c3 & E3 & H3).
  destruct (fixed_token_cons _ _ _ H3) as (c4 & E4 & H4).
  destruct (fixed_token_cons _ _ _ H4) as (c5 & E5 & H5).
  destruct (fixed_token_cons _ _ _ H5) as (c6 & E6 & H6).
  destruct (fixed_token_cons _ _ _ H6) as (c7 & E7 & H7).
  destruct (fixed_token_cons _ _ _ H7) as (c8 & E8 & H8).
  destruct (fixed_token_cons _ _ _ H8) as (c9 & E9 & H9).
  exists c9. split; [exact H9|].
  unfold vcf_read_line, util_strncpy. cbn [util_gzgets_line].
  rewrite (bind_done _ _ _ _ _ (E1 st)). cbv beta iota zeta.
  rewrite (bind_done _ _ _ _ _ (E2 st)). cbv beta iota zeta.
  rewrite Hpos, bind_ret_l.
  rewrite (bind_done _ _ _ _ _ (E3 st)). cbv beta iota zeta.
  rewrite (bind_done _ _ _ _ _ (E4 st)). cbv beta iota zeta.
  rewrite (bind_done _ _ _ _ _ (allele_warn_step ref_t sizeof_ref_allele st)).
  set (st1 := mkProc (warn_phase st)
                (warn_log st ++ allele_warnings ref_t sizeof_ref_allele)).
  rewrite (bind_done _ _ _ _ _ (E5 st1)). cbv beta iota zeta.
  rewrite (bind_done _ _ _ _ _ (allele_warn_step alt_t sizeof_alt_allele st1)).
  subst st1. cbn [warn_phase warn_log]. rewrite <- app_assoc.
  set (st2 := mkProc (warn_phase st) _).
  rewrite (bind_done _ _ _ _ _ (E6 st2)). cbv beta iota zeta.
  rewrite (bind_done _ _ _ _ _ (E7 st2)). cbv beta iota zeta.
  rewrite (bind_done _ _ _ _ _ (E8 st2)). cbv beta iota zeta.
  rewrite (bind_done _ _ _ _ _ (E9 st2)). cbv beta iota zeta.
  cbn [fst snd]. fold vcf_info'. unfold bind.
  destruct (parse_samples _ _ _ _ st2) as [st3 [[gp' hp']|e]]; reflexivity.
Qed.

Lemma bind_done_inv {A B} (m : M A) (k : A -> M B) st b :
  snd (bind m k st) = Done b ->
  exists st' a, m st = (st', Done a) /\ snd (k a st') = Done b.
Proof.
  unfold bind. destruct (m st) as [st' [a|e]]; [|discriminate].
  intros Hk. now exists st', a.
Qed.

Ltac invert_bind H :=
  let st' := fresh "st" in
  let a := fresh "a" in
  apply bind_done_inv in H; destruct H as (st' & a & _ & H);
  match type of a with
  | (_ * _)%type => destruct a
  | _ => idtac
  end;
  cbv beta iota zeta in H.

(** Past the end-of-stream test, no path of [vcf_read_line] leads to a
    [return] statement. *)
Lemma vcf_read_line_no_return {env : VCFEnv} {fops : FloatOps} (line : string)
    (fh : gzFile) (vcf_info : VCFInfo) (geno_probs : option (list float))
    (haplotypes : option (list Z)) (st : proc_state) (r : line_result) :
  snd (vcf_read_line (line :: fh) vcf_info geno_probs haplotypes st) = Done r ->
  lr_return r = None.
Proof.
  unfold vcf_read_line, util_strncpy. cbn [util_gzgets_line]. intros Hr.
  do 13 invert_bind Hr.
  unfold ret in Hr. cbn [snd] in Hr. injection Hr as <-. reflexivity.
Qed.

Lemma vcf_read_line_eof {env : VCFEnv} {fops : FloatOps} (vcf_info : VCFInfo)
    (geno_probs : option (list float)) (haplotypes : option (list Z))
    (st : proc_state) :
  vcf_read_line [] vcf_info geno_probs haplotypes st
  = (st, Done (mkLine (Some (-1)) [] vcf_info geno_probs haplotypes)).
Proof. reflexivity. Qed.

(** C8.  At the end of the stream [vcf_read_line] returns -1.  On the
    well-formed line [1 100 rs1 A G . PASS . GT 0|1] of a file with one
    sample it decodes the line and reaches the end of its body without a
    [return] statement: no value 0 is returned. *)
Theorem C8_success_returns_nothing :
  (forall (env : VCFEnv) (fops : FloatOps) vcf_info geno_probs haplotypes st,
      vcf_read_line [] vcf_info geno_probs haplotypes st
      = (st, Done (mkLine (Some (-1)) [] vcf_info geno_probs haplotypes)))
  /\ exists r,
       vcf_read_line (env:=small_env) (fops:=term_float)
         ["1 100 rs1 A G . PASS . GT 0|1"] (blank_info 1) None (Some [0; 0])
         proc_init
       = (proc_init, Done r)
       /\ lr_haplotypes r = Some [0; 1]
       /\ lr_return r = None
       /\ lr_return r <> Some 0.
Proof.
  split; [intros; apply vcf_read_line_eof|].
  let v := eval vm_compute in
    (vcf_read_line (env:=small_env) (fops:=term_float)
       ["1 100 rs1 A G . PASS . GT 0|1"] (blank_info 1) None (Some [0; 0])
       proc_init) in
  match v with (_, Done ?r) => exists r end.
  split; [reflexivity|].
  split; [reflexivity|]. split; [reflexivity|discriminate].
Qed.

(** ** The warnings of the parsers *)

Lemma extends_quietly_refl (st : proc_state) : extends_quietly st st.
Proof. exists []. split; [now rewrite app_nil_r|constructor]. Qed.

Lemma extends_quietly_trans (st1 st2 st3 : proc_state) :
  extends_quietly st1 st2 -> extends_quietly st2 st3 ->
  extends_quietly st1 st3.
Proof.
  intros (ws1 & E1 & F1) (ws2 & E2 & F2). exists (ws1 ++ ws2). split.
  - rewrite E2, E1. now rewrite app_assoc.
  - apply Forall_app. now split.
Qed.

Lemma hap_loop_quiet (e : Z) (sel : list string) :
  forall s st,
    extends_quietly st (fst (for_tokens (haplotype_body e) sel s st)).
Proof.
  induction sel as [|t sel IH]; intros s st; [apply extends_quietly_refl|].
  cbn [for_tokens]. unfold bind.
  destruct (haplotype_body_run e t s st) as (ws & Hws & E). rewrite E.
  assert (Hq : extends_quietly st
                 (mkProc (genotype_phase (warn_phase st) t) (warn_log st ++ ws)))
    by now exists ws.
  destruct (n_haps s + 2 >? e); [exact Hq|].
  eapply extends_quietly_trans; [exact Hq|apply IH].
Qed.

Lemma parse_haplotypes_quiet {env : VCFEnv} vcf_info haplotypes cur st :
  extends_quietly st (fst (parse_haplotypes vcf_info haplotypes cur st)).
Proof.
  destruct (Z.eq_dec (get_format_index (format vcf_info) "GT") (-1)) as [E|E].
  - rewrite parse_haplotypes_no_gt by assumption. apply extends_quietly_refl.
  - rewrite parse_haplotypes_subfields by assumption. unfold bind.
    pose proof (hap_loop_quiet (n_samples vcf_info * 2)
                  (subfields (get_format_index (format vcf_info) "GT") cur)
                  (mkHap 0 haplotypes) st) as Hq.
    destruct (for_tokens _ _ _ st) as [st' [s'|e]]; [|exact Hq].
    destruct (negb _); exact Hq.
Qed.

Lemma parse_samples_quiet {env : VCFEnv} {fops : FloatOps} vcf_info geno_probs
    haplotypes cur st :
  extends_quietly st
    (fst (parse_samples vcf_info geno_probs haplotypes cur st)).
Proof.
  unfold parse_samples.
  destruct geno_probs as [gp|], haplotypes as [hp|].
  - destruct cur as [c|]; [|apply extends_quietly_refl].
    rewrite bind_ret_l. unfold bind.
    pose proof (parse_geno_probs_state vcf_info gp (Some c) st) as Hst.
    destruct (parse_geno_probs vcf_info gp (Some c) st) as [st1 [gp'|e]];
      simpl in Hst; subst st1; [|apply extends_quietly_refl].
    pose proof (parse_haplotypes_quiet vcf_info hp (Some c) st) as Hq.
    destruct (parse_haplotypes vcf_info hp (Some c) st) as [st2 [hp'|e]];
      exact Hq.
  - unfold bind.
    pose proof (parse_geno_probs_state vcf_info gp cur st) as Hst.
    destruct (parse_geno_probs vcf_info gp cur st) as [st1 [gp'|e]];
      simpl in Hst; subst st1; apply extends_quietly_refl.
  - unfold bind.
    pose proof (parse_haplotypes_quiet vcf_info hp cur st) as Hq.
    destruct (parse_haplotypes vcf_info hp cur st) as [st2 [hp'|e]]; exact Hq.
  - apply extends_quietly_refl.
Qed.

(** C7.  On a line with its nine fixed tokens (and a position that
    converts), [vcf_read_line] sets [ref_len] and [alt_len] to the lengths
    of the REF and ALT tokens and stores these tokens cut to one character
    less than their buffers; for each of the two that does not fit it logs
    one warning with the true and the stored length, and no other warning
    about truncation is logged; the fixed columns do not end the process:
    without arrays to fill, the call succeeds. *)
Theorem C7_allele_lengths (env : VCFEnv) (fops : FloatOps) (line : string)
    (fh : gzFile) (vcf_info : VCFInfo) (geno_probs : option (list float))
    (haplotypes : option (list Z)) (st : proc_state)
    (chrom_t pos_t id_t ref_t alt_t qual_t filter_t info_t format_t : string)
    (samples : list string) (p : Z) :
  strsep_all delim (Some line)
  = chrom_t :: pos_t :: id_t :: ref_t :: alt_t :: qual_t :: filter_t
      :: info_t :: format_t :: samples ->
  util_parse_long pos_t = Some p ->
  let res := vcf_read_line (line :: fh) vcf_info geno_probs haplotypes st in
  (exists ws,
      warn_log (fst res)
      = warn_log st ++ allele_warnings ref_t sizeof_ref_allele
          ++ allele_warnings alt_t sizeof_alt_allele ++ ws
      /\ Forall (fun w => is_truncate w = false) ws)
  /\ (forall r,
         snd res = Done r ->
         ref_len (lr_info r) = strlen ref_t
         /\ alt_len (lr_info r) = strlen alt_t
         /\ ref_allele (lr_info r) = str_take (sizeof_ref_allele - 1) ref_t
         /\ alt_allele (lr_info r) = str_take (sizeof_alt_allele - 1) alt_t
         /\ strlen (ref_allele (lr_info r))
            = Z.min (Z.of_nat (sizeof_ref_allele - 1)) (strlen ref_t)
         /\ strlen (alt_allele (lr_info r))
            = Z.min (Z.of_nat (sizeof_alt_allele - 1)) (strlen alt_t))
  /\ (geno_probs = None -> haplotypes = None -> is_fatal (snd res) = false).
Proof.
  intros Htoks Hpos res.
  destruct (vcf_read_line_fixed line fh vcf_info geno_probs haplotypes st
              _ _ _ _ _ _ _ _ _ _ _ Htoks Hpos) as (cur & _ & E).
  subst res. rewrite E. clear E.
  set (st2 := mkProc (warn_phase st) _).
  set (info' := fixed_fields _ _ _ _ _ _ _ _ _ _).
  pose proof (parse_samples_quiet info' geno_probs haplotypes cur st2)
    as (ws & Hws & Hq).
  unfold bind, ret.
  destruct (parse_samples info' geno_probs haplotypes cur st2)
    as [st3 [[gp' hp']|e]] eqn:Eps; cbn [fst snd] in *.
  - split; [|split].
    + exists ws. split; [|exact Hq]. rewrite Hws. subst st2.
      cbn [warn_log]. now rewrite <- !app_assoc.
    + intros r Hr. injection Hr as <-. cbn [lr_info]. subst info'.
      unfold fixed_fields, strlen. cbn [ref_len alt_len ref_allele alt_allele].
      rewrite !str_take_length. repeat split; lia.
    + reflexivity.
  - split; [|split].
    + exists ws. split; [|exact Hq]. rewrite Hws. subst st2.
      cbn [warn_log]. now rewrite <- !app_assoc.
    + discriminate.
    + intros -> ->. discriminate Eps.
Qed.

(** A REF allele of 12 characters read into a buffer of 8. *)
Lemma C7_allele_lengths_witness :
  let line := "1 100 rs1 ACGTACGTACGT G . PASS . GT 0|1" in
  let res :=
    vcf_read_line (env:=small_env) (fops:=term_float) [line] (blank_info 1)
      None (Some [0; 0]) proc_init in
  strsep_all delim (Some line)
  = ["1"; "100"; "rs1"; "ACGTACGTACGT"; "G"; "."; "PASS"; "."; "GT"; "0|1"]
  /\ util_parse_long (VCFEnv:=small_env) "100" = Some 100
  /\ (exists ws,
         warn_log (fst res) = WarnTruncate 12 7 :: ws
         /\ Forall (fun w => is_truncate w = false) ws)
  /\ exists r,
       snd res = Done r
       /\ ref_len (lr_info r) = 12
       /\ alt_len (lr_info r) = 1
       /\ ref_allele (lr_info r) = "ACGTACG"
       /\ alt_allele (lr_info r) = "G".
Proof.
  intros line res.
  assert (Htoks : strsep_all delim (Some line)
                  = ["1"; "100"; "rs1"; "ACGTACGTACGT"; "G"; "."; "PASS"; ".";
                     "GT"; "0|1"]) by reflexivity.
  assert (Hpos : util_parse_long (VCFEnv:=small_env) "100" = Some 100)
    by reflexivity.
  split; [exact Htoks|]. split; [exact Hpos|].
  destruct (C7_allele_lengths small_env term_float line [] (blank_info 1) None
              (Some [0; 0]) proc_init _ _ _ _ _ _ _ _ _ _ _ Htoks Hpos)
    as (Hlog & Hrec & _).
  split; [exact Hlog|].
  let v := eval vm_compute in (snd res) in
  match v with Done ?r => pose (r0 := r) end.
  exists r0.
  assert (Hr : snd res = Done r0) by reflexivity.
  split; [exact Hr|].
  destruct (Hrec r0 Hr) as (H1 & H2 & H3 & H4 & _).
  repeat split; assumption.
Defined.

(** * Further properties of the decoders *)

(** ** get_format_index *)

Lemma format_index_loop_found (label : string) (toks : list string) :
  forall i,
    0 <= i ->
    format_index_loop label toks i <> -1 ->
    let k := Z.to_nat (format_index_loop label toks i - i) in
    i <= format_index_loop label toks i
    /\ toks !! k = Some label
    /\ forall j, (j < k)%nat -> toks !! j <> Some label.
Proof.
  induction toks as [|t toks IH]; intros i Hi Hfound; [now contradiction Hfound|].
  cbn [format_index_loop] in *.
  destruct (String.eqb_spec t label) as [->|Hne].
  - rewrite Z.sub_diag. cbn. repeat split; [lia|]. intros j Hj. lia.
  - destruct (IH (i + 1) ltac:(lia) Hfound) as (Hle & Hk & Hbefore).
    set (r := format_index_loop label toks (i + 1)) in *.
    replace (Z.to_nat (r - i)) with (S (Z.to_nat (r - (i + 1)))) by lia.
    cbn. repeat split; [lia|exact Hk|].
    intros [|j] Hj; cbn; [congruence|apply Hbefore; lia].
Qed.

Lemma format_index_loop_absent (label : string) (toks : list string) :
  forall i, 0 <= i ->
    format_index_loop label toks i = -1 <-> ~ In label toks.
Proof.
  induction toks as [|t toks IH]; intros i Hi; cbn [format_index_loop].
  - split; [intros _ []|reflexivity].
  - destruct (String.eqb_spec t label) as [->|Hne].
    + split; [lia|]. intros Hnot. contradiction Hnot. now left.
    + rewrite (IH (i + 1)) by lia. cbn. intuition congruence.
Qed.

(** X1.  When [get_format_index] returns an index other than -1, the
    subfield of the format string at that index is the label, and no
    subfield before it is: the index is that of the first match. *)
Theorem get_format_index_first_match (format_str label : string) :
  get_format_index format_str label <> -1 ->
  let toks := strsep_all ":" (Some format_str) in
  let idx := get_format_index format_str label in
  0 <= idx
  /\ toks !! Z.to_nat idx = Some label
  /\ forall j, (j < Z.to_nat idx)%nat -> toks !! j <> Some label.
Proof.
  intros Hfound toks idx.
  pose proof (format_index_loop_found label toks 0 ltac:(lia) Hfound) as H.
  cbn zeta in H. rewrite Z.sub_0_r in H. exact H.
Qed.

Lemma get_format_index_first_match_witness :
  get_format_index "GL:GT:DP:GT" "GT" <> -1
  /\ get_format_index "GL:GT:DP:GT" "GT" = 1
  /\ strsep_all ":" (Some "GL:GT:DP:GT") !! 1%nat = Some "GT".
Proof.
  assert (Hfound : get_format_index "GL:GT:DP:GT" "GT" <> -1) by discriminate.
  split; [exact Hfound|]. split; [reflexivity|].
  exact (proj1 (proj2 (get_format_index_first_match "GL:GT:DP:GT" "GT" Hfound))).
Defined.

(** X2.  [get_format_index] returns -1 exactly when no subfield of the
    format string is the label; a label that is only part of a subfield
    does not count. *)
Theorem get_format_index_absent (format_str label : string) :
  get_format_index format_str label = -1
  <-> ~ In label (strsep_all ":" (Some format_str)).
Proof. apply format_index_loop_absent. lia. Qed.

Lemma get_format_index_absent_witness :
  ~ In "GT" (strsep_all ":" (Some "GTX:PGT:GL"))
  /\ get_format_index "GTX:PGT:GL" "GT" = -1.
Proof.
  assert (Hnot : ~ In "GT" (strsep_all ":" (Some "GTX:PGT:GL"))).
  { cbn. intros [H|[H|[H|[]]]]; discriminate H. }
  split; [exact Hnot|].
  exact (proj2 (get_format_index_absent "GTX:PGT:GL" "GT") Hnot).
Defined.

(** X3.  When the FORMAT column has no GT subfield, [parse_haplotypes]
    ends the process before it looks at the sample columns, without a
    warning; [parse_geno_probs] does the same when there is no GL
    subfield. *)
Theorem parse_without_tag (env : VCFEnv) (fops : FloatOps) (vcf_info : VCFInfo)
    (cur : option string) (st : proc_state) :
  (~ In "GT" (strsep_all ":" (Some (format vcf_info))) ->
   forall haplotypes,
     parse_haplotypes vcf_info haplotypes cur st
     = (st, Fatal (ErrNoGT (format vcf_info))))
  /\ (~ In "GL" (strsep_all ":" (Some (format vcf_info))) ->
      forall geno_probs,
        parse_geno_probs vcf_info geno_probs cur st = (st, Fatal ErrNoGL)).
Proof.
  split; intros Hnot arr.
  - apply parse_haplotypes_no_gt. now apply format_index_loop_absent.
  - apply parse_geno_probs_no_gl. now apply format_index_loop_absent.
Qed.

Lemma parse_without_tag_witness :
  ~ In "GT" (strsep_all ":" (Some (format (sample_info "DP:PGT" 1))))
  /\ ~ In "GL" (strsep_all ":" (Some (format (sample_info "DP:PGT" 1))))
  /\ parse_haplotypes (env:=small_env) (sample_info "DP:PGT" 1) [0; 0]
       (Some "12:0|1") proc_init
     = (proc_init, Fatal (ErrNoGT "DP:PGT"))
  /\ parse_geno_probs (env:=small_env) (fops:=term_float)
       (sample_info "DP:PGT" 1) (zero_floats 3) (Some "12:0|1") proc_init
     = (proc_init, Fatal ErrNoGL).
Proof.
  assert (Hgt : ~ In "GT" (strsep_all ":" (Some (format (sample_info "DP:PGT" 1))))).
  { cbn. intros [H|[H|[]]]; discriminate H. }
  assert (Hgl : ~ In "GL" (strsep_all ":" (Some (format (sample_info "DP:PGT" 1))))).
  { cbn. intros [H|[H|[]]]; discriminate H. }
  split; [exact Hgt|]. split; [exact Hgl|].
  destruct (parse_without_tag small_env term_float (sample_info "DP:PGT" 1)
              (Some "12:0|1") proc_init) as (Hh & Hp).
  split; [exact (Hh Hgt [0; 0])|exact (Hp Hgl (zero_floats 3))].
Defined.

(** ** vcf_read_header: failures and warnings *)

Lemma vcf_read_header_loop_eof (metas : list string) :
  forall vcf_info st,
    Forall (fun l => util_str_starts_with l "##" = true) metas ->
    vcf_read_header_loop metas vcf_info st = (st, Fatal ErrHeaderEof).
Proof.
  induction metas as [|m metas IH]; intros vcf_info st Hm; [reflexivity|].
  inversion Hm as [|? ? Hm1 Hm2]; subst.
  cbn [vcf_read_header_loop]. rewrite Hm1. now apply IH.
Qed.

Lemma vcf_read_header_loop_start (metas : list string) :
  forall line rest vcf_info st,
    Forall (fun l => util_str_starts_with l "##" = true) metas ->
    util_str_starts_with line "##" = false ->
    util_str_starts_with line "#CHROM" = false ->
    vcf_read_header_loop (metas ++ line :: rest) vcf_info st
    = (st, Fatal ErrHeaderStart).
Proof.
  induction metas as [|m metas IH]; intros line rest vcf_info st Hm H1 H2.
  - cbn [app vcf_read_header_loop]. now rewrite H1, H2.
  - inversion Hm as [|? ? Hm1 Hm2]; subst.
    cbn [app vcf_read_header_loop]. rewrite Hm1. now apply IH.
Qed.

(** X4.  On a stream that ends before a line other than [##] lines is
    read (the empty stream too), [vcf_read_header] ends the process, and
    no warning has been emitted. *)
Theorem vcf_read_header_eof (metas : list string) (vcf_info : VCFInfo)
    (st : proc_state) :
  Forall (fun l => util_str_starts_with l "##" = true) metas ->
  vcf_read_header metas vcf_info st = (st, Fatal ErrHeaderEof).
Proof. intros Hm. unfold vcf_read_header. now apply vcf_read_header_loop_eof. Qed.

Lemma vcf_read_header_eof_witness :
  Forall (fun l => util_str_starts_with l "##" = true)
    ["##fileformat=VCFv4.1"; "##source=x"]
  /\ vcf_read_header ["##fileformat=VCFv4.1"; "##source=x"] (blank_info 0)
       proc_init
     = (proc_init, Fatal ErrHeaderEof).
Proof.
  assert (Hm : Forall (fun l => util_str_starts_with l "##" = true)
                 ["##fileformat=VCFv4.1"; "##source=x"])
    by (repeat constructor).
  split; [exact Hm|].
  exact (vcf_read_header_eof _ (blank_info 0) proc_init Hm).
Defined.

(** X5.  When the first line that does not start with [##] does not start
    with [#CHROM] either, [vcf_read_header] ends the process there: a
    data line is never taken for the column line, and the lines behind it
    are not read. *)
Theorem vcf_read_header_bad_start (metas : list string) (line : string)
    (rest : gzFile) (vcf_info : VCFInfo) (st : proc_state) :
  Forall (fun l => util_str_starts_with l "##" = true) metas ->
  util_str_starts_with line "##" = false ->
  util_str_starts_with line "#CHROM" = false ->
  vcf_read_header (metas ++ line :: rest) vcf_info st
  = (st, Fatal ErrHeaderStart).
Proof.
  intros Hm H1 H2. unfold vcf_read_header.
  now apply vcf_read_header_loop_start.
Qed.

Lemma vcf_read_header_bad_start_witness :
  Forall (fun l => util_str_starts_with l "##" = true) ["##fileformat=VCFv4.1"]
  /\ util_str_starts_with "1 100 rs1 A G . PASS . GT 0|1" "##" = false
  /\ util_str_starts_with "1 100 rs1 A G . PASS . GT 0|1" "#CHROM" = false
  /\ vcf_read_header
       ["##fileformat=VCFv4.1"; "1 100 rs1 A G . PASS . GT 0|1";
        "#CHROM POS ID REF ALT QUAL FILTER INFO FORMAT S1"]
       (blank_info 0) proc_init
     = (proc_init, Fatal ErrHeaderStart).
Proof.
  assert (Hm : Forall (fun l => util_str_starts_with l "##" = true)
                 ["##fileformat=VCFv4.1"])
    by (repeat constructor).
  split; [exact Hm|]. split; [reflexivity|]. split; [reflexivity|].
  exact (vcf_read_header_bad_start ["##fileformat=VCFv4.1"]
           "1 100 rs1 A G . PASS . GT 0|1"
           ["#CHROM POS ID REF ALT QUAL FILTER INFO FORMAT S1"]
           (blank_info 0) proc_init Hm eq_refl eq_refl).
Defined.

Lemma header_mismatches_nil_l (toks : list string) (k : Z) :
  header_mismatches [] toks k = [].
Proof. reflexivity. Qed.

Lemma header_mismatches_nil_r (expected : list string) (k : Z) :
  header_mismatches expected [] k = [].
Proof. destruct expected; reflexivity. Qed.

(** The token loop over the column line, entered at position [k]. *)
Lemma header_tokens_log (toks : list string) :
  forall k st,
    0 <= k ->
    fst (for_tokens header_token toks k st)
    = mkProc (warn_phase st)
        (warn_log st
           ++ header_mismatches (drop (Z.to_nat k) vcf_fix_headers) toks k).
Proof.
  induction toks as [|t toks IH]; intros k [wp lg] Hk.
  - cbn [for_tokens]. rewrite header_mismatches_nil_r.
    unfold ret. cbn. now rewrite app_nil_r.
  - cbn [for_tokens]. unfold bind at 1. unfold header_token at 1.
    unfold bind at 1.
    destruct (Z.ltb_spec k n_fix_header) as [Hlt|Hge].
    + assert (Hlen : (Z.to_nat k < length vcf_fix_headers)%nat)
        by (unfold n_fix_header in Hlt; lia).
      destruct (lookup_lt_is_Some_2 _ _ Hlen) as [name Hname].
      rewrite (nth_lookup_Some _ _ _ _ Hname).
      rewrite (drop_S _ _ _ Hname). cbn [header_mismatches].
      replace (S (Z.to_nat k)) with (Z.to_nat (k + 1)) by lia.
      destruct (String.eqb t name); cbn [negb my_warn ret fst snd];
        rewrite IH by lia; cbn [warn_phase warn_log];
        [reflexivity|now rewrite <- app_assoc].
    + rewrite drop_ge by (unfold n_fix_header in Hge; lia).
      rewrite header_mismatches_nil_l. cbn [ret fst snd].
      rewrite IH by lia. cbn [warn_phase warn_log].
      rewrite drop_ge by (unfold n_fix_header in Hge; lia).
      now rewrite header_mismatches_nil_l.
Qed.

Lemma vcf_read_header_loop_log (metas : list string) :
  forall line rest vcf_info st,
    Forall (fun l => util_str_starts_with l "##" = true) metas ->
    util_str_starts_with line "#CHROM" = true ->
    fst (vcf_read_header_loop (metas ++ line :: rest) vcf_info st)
    = mkProc (warn_phase st)
        (warn_log st
           ++ header_mismatches vcf_fix_headers
                (strsep_all delim (Some line)) 0).
Proof.
  induction metas as [|m metas IH]; intros line rest vcf_info st Hm Hc.
  - cbn [app vcf_read_header_loop].
    rewrite (starts_with_chrom_not_meta _ Hc), Hc.
    pose proof (header_tokens_log (strsep_all delim (Some line)) 0 st
                  ltac:(lia)) as Hl.
    pose proof (header_tokens_count (strsep_all delim (Some line)) 0 st) as Ht.
    unfold bind.
    destruct (for_tokens header_token _ 0 st) as [st' [n|e]];
      cbn [fst snd] in *; [|discriminate].
    exact Hl.
  - inversion Hm as [|? ? Hm1 Hm2]; subst.
    cbn [app vcf_read_header_loop]. rewrite Hm1. now apply IH.
Qed.

(** X6.  Reading the header emits exactly one warning for each of the
    nine fixed column names that the token at its position differs from,
    in order; tokens behind the ninth, and names for which the line has no
    token, give no warning, and the flag of the process is untouched. *)
Theorem vcf_read_header_warnings (metas : list string) (line : string)
    (rest : gzFile) (vcf_info : VCFInfo) (st : proc_state) :
  Forall (fun l => util_str_starts_with l "##" = true) metas ->
  util_str_starts_with line "#CHROM" = true ->
  fst (vcf_read_header (metas ++ line :: rest) vcf_info st)
  = mkProc (warn_phase st)
      (warn_log st
         ++ header_mismatches vcf_fix_headers (strsep_all delim (Some line)) 0).
Proof.
  intros Hm Hc. unfold vcf_read_header.
  now rewrite vcf_read_header_loop_log.
Qed.

Lemma vcf_read_header_warnings_witness :
  Forall (fun l => util_str_starts_with l "##" = true) ["##fileformat=VCFv4.1"]
  /\ util_str_starts_with "#CHROM POS IDENT REF ALT QUAL FILTER INFO" "#CHROM"
     = true
  /\ fst (vcf_read_header
            ["##fileformat=VCFv4.1"; "#CHROM POS IDENT REF ALT QUAL FILTER INFO"]
            (blank_info 0) proc_init)
     = mkProc true [WarnHeaderToken 2 "ID" "IDENT"].
Proof.
  assert (Hm : Forall (fun l => util_str_starts_with l "##" = true)
                 ["##fileformat=VCFv4.1"])
    by (repeat constructor).
  split; [exact Hm|]. split; [reflexivity|].
  exact (vcf_read_header_warnings ["##fileformat=VCFv4.1"]
           "#CHROM POS IDENT REF ALT QUAL FILTER INFO" [] (blank_info 0)
           proc_init Hm eq_refl).
Defined.

(** ** What a successful parse tells *)

Lemma parse_haplotypes_done_count {env : VCFEnv} vcf_info haplotypes cur st arr :
  snd (parse_haplotypes vcf_info haplotypes cur st) = Done arr ->
  get_format_index (format vcf_info) "GT" <> -1
  /\ Z.of_nat (length (subfields (get_format_index (format vcf_info) "GT") cur))
     = n_samples vcf_info.
Proof.
  intros Hdone.
  destruct (Z.eq_dec (get_format_index (format vcf_info) "GT") (-1)) as [E|E].
  { rewrite parse_haplotypes_no_gt in Hdone by assumption. discriminate. }
  split; [exact E|].
  pose proof (parse_haplotypes_overrun vcf_info haplotypes cur st E) as Hov.
  pose proof (parse_haplotypes_undercount vcf_info haplotypes cur st E) as Hun.
  cbv zeta in Hov, Hun. rewrite Hdone in Hov, Hun.
  remember (subfields (get_format_index (format vcf_info) "GT") cur) as sel.
  destruct (Z.eq_dec (Z.of_nat (length sel)) (n_samples vcf_info)) as [|Hne];
    [assumption|exfalso].
  destruct (Z_lt_le_dec (n_samples vcf_info) (Z.of_nat (length sel))) as [Hlt|Hle].
  - destruct sel as [|t sel'].
    + discriminate (Hun (or_introl eq_refl) Hne).
    + discriminate (Hov ltac:(discriminate) Hlt).
  - discriminate (Hun (or_intror Hle) Hne).
Qed.

Lemma decodable_dec {fops : FloatOps} (sel : list string) :
  Forall (fun t => posterior t <> None) sel
  \/ Exists (fun t => posterior t = None) sel.
Proof.
  induction sel as [|t sel [IH|IH]].
  - left. constructor.
  - destruct (posterior t) eqn:Ep.
    + left. constructor; [congruence|assumption].
    + right. now constructor.
  - right. now constructor 2.
Qed.

Lemma parse_geno_probs_done_count {env : VCFEnv} {fops : FloatOps} vcf_info
    geno_probs cur st arr :
  snd (parse_geno_probs vcf_info geno_probs cur st) = Done arr ->
  let sel := subfields (get_format_index (format vcf_info) "GL") cur in
  get_format_index (format vcf_info) "GL" <> -1
  /\ Forall (fun t => posterior t <> None) sel
  /\ Z.of_nat (length sel) = n_samples vcf_info.
Proof.
  intros Hdone sel.
  destruct (Z.eq_dec (get_format_index (format vcf_info) "GL") (-1)) as [E|E].
  { rewrite parse_geno_probs_no_gl in Hdone by assumption. discriminate. }
  split; [exact E|].
  destruct (decodable_dec sel) as [Hok|Hbad].
  2:{ pose proof (parse_geno_probs_bad vcf_info geno_probs cur st Hbad) as Hf.
      rewrite Hdone in Hf. discriminate. }
  split; [exact Hok|].
  pose proof (parse_geno_probs_overrun vcf_info geno_probs cur st E Hok) as Hov.
  pose proof (parse_geno_probs_undercount vcf_info geno_probs cur st E Hok) as Hun.
  rewrite Hdone in Hov, Hun. subst sel.
  remember (subfields (get_format_index (format vcf_info) "GL") cur) as sel.
  destruct (Z.eq_dec (Z.of_nat (length sel)) (n_samples vcf_info)) as [|Hne];
    [assumption|exfalso].
  destruct (Z_lt_le_dec (n_samples vcf_info) (Z.of_nat (length sel))) as [Hlt|Hle].
  - destruct sel as [|t sel'].
    + discriminate (Hun (or_introl eq_refl) Hne).
    + discriminate (Hov ltac:(discriminate) Hlt).
  - discriminate (Hun (or_intror Hle) Hne).
Qed.

(** X7.  [parse_haplotypes] returns only when the FORMAT column has a GT
    subfield and exactly [n_samples] sample tokens reach it (so never with
    a negative sample count); [parse_geno_probs] returns only when there
    is a GL subfield, exactly [n_samples] sample tokens reach it, and each
    of these subfields can be decoded. *)
Theorem parse_success_counts :
  (forall (env : VCFEnv) vcf_info haplotypes cur st arr,
      snd (parse_haplotypes vcf_info haplotypes cur st) = Done arr ->
      get_format_index (format vcf_info) "GT" <> -1
      /\ Z.of_nat
           (length (subfields (get_format_index (format vcf_info) "GT") cur))
         = n_samples vcf_info)
  /\
  (forall (env : VCFEnv) (fops : FloatOps) vcf_info geno_probs cur st arr,
      snd (parse_geno_probs vcf_info geno_probs cur st) = Done arr ->
      get_format_index (format vcf_info) "GL" <> -1
      /\ Forall (fun t => posterior t <> None)
           (subfields (get_format_index (format vcf_info) "GL") cur)
      /\ Z.of_nat
           (length (subfields (get_format_index (format vcf_info) "GL") cur))
         = n_samples vcf_info).
Proof.
  split.
  - intros env vcf_info haplotypes cur st arr Hdone.
    exact (parse_haplotypes_done_count _ _ _ _ _ Hdone).
  - intros env fops vcf_info geno_probs cur st arr Hdone.
    exact (parse_geno_probs_done_count _ _ _ _ _ Hdone).
Qed.

Lemma parse_success_counts_witness :
  snd (parse_haplotypes (env:=small_env) (sample_info "GT:GL" 2) [0; 0; 0; 0]
         (Some "0|1:. 1|1:-1.0,-0.1,-2.0") proc_init)
  = Done [0; 1; 1; 1]
  /\ Z.of_nat
       (length (subfields (env:=small_env)
                  (get_format_index (format (sample_info "GT:GL" 2)) "GT")
                  (Some "0|1:. 1|1:-1.0,-0.1,-2.0")))
     = 2
  /\ Z.of_nat
       (length (subfields (env:=small_env)
                  (get_format_index (format (sample_info "GT:GL" 2)) "GL")
                  (Some "0|1:. 1|1:-1.0,-0.1,-2.0")))
     = 2.
Proof.
  assert (Hh : snd (parse_haplotypes (env:=small_env) (sample_info "GT:GL" 2)
                      [0; 0; 0; 0] (Some "0|1:. 1|1:-1.0,-0.1,-2.0") proc_init)
               = Done [0; 1; 1; 1]) by reflexivity.
  split; [exact Hh|]. split.
  - exact (proj2 (proj1 parse_success_counts small_env _ _ _ _ _ Hh)).
  - pose (arr := snd (parse_geno_probs (env:=small_env) (fops:=term_float)
                        (sample_info "GT:GL" 2) (zero_floats 6)
                        (Some "0|1:. 1|1:-1.0,-0.1,-2.0") proc_init)).
    assert (Hp : exists a, arr = Done a) by (eexists; reflexivity).
    destruct Hp as (a & Hp).
    exact (proj2 (proj2 (proj2 parse_success_counts small_env term_float
                           _ _ _ _ _ Hp))).
Defined.

(** ** The arrays after a successful parse *)

Lemma genotype_pair_domain (wp : bool) (inner_tok : string) :
  is_allele (fst (genotype_pair wp inner_tok))
  /\ is_allele (snd (genotype_pair wp inner_tok)).
Proof.
  unfold genotype_pair, is_allele.
  destruct (snd (scan_genotype inner_tok (mkProc wp []))) as [[hap1 hap2]|e].
  - pose proof (coerce_alleles_domain hap1 hap2) as H. cbv zeta in H.
    exact H.
  - cbn. unfold VCF_GTYPE_MISSING. lia.
Qed.

Lemma decode_genotypes_domain (sel : list string) :
  forall wp, Forall is_allele (flat_pairs (decode_genotypes wp sel)).
Proof.
  unfold flat_pairs.
  induction sel as [|t sel IH]; intros wp; [constructor|].
  cbn [decode_genotypes flat_map app].
  destruct (genotype_pair_domain wp t) as [H1 H2].
  constructor; [exact H1|]. constructor; [exact H2|]. apply IH.
Qed.

Lemma decode_genotypes_length (sel : list string) :
  forall wp,
    length (flat_pairs (decode_genotypes wp sel)) = (2 * length sel)%nat.
Proof.
  unfold flat_pairs.
  induction sel as [|t sel IH]; intros wp; [reflexivity|].
  cbn [decode_genotypes flat_map app length]. rewrite IH. lia.
Qed.

Lemma flat_triples_length {A} (ts : list (A * A * A)) :
  length (flat_triples ts) = (3 * length ts)%nat.
Proof.
  unfold flat_triples. induction ts as [|t ts IH]; [reflexivity|].
  cbn [flat_map app length]. rewrite IH. lia.
Qed.

(** A successful [parse_haplotypes] on an array with room for the
    declared samples: the pairs in front, the rest of the array behind. *)
Lemma parse_haplotypes_done_array {env : VCFEnv} vcf_info haplotypes cur st arr :
  snd (parse_haplotypes vcf_info haplotypes cur st) = Done arr ->
  2 * n_samples vcf_info <= Z.of_nat (length haplotypes) ->
  let sel := subfields (get_format_index (format vcf_info) "GT") cur in
  arr = flat_pairs (decode_genotypes (warn_phase st) sel)
          ++ drop (2 * length sel) haplotypes.
Proof.
  intros Hdone Hroom sel.
  destruct (parse_haplotypes_done_count _ _ _ _ _ Hdone) as (Hidx & Hn).
  fold sel in Hn.
  rewrite parse_haplotypes_subfields in Hdone by assumption. fold sel in Hdone.
  destruct (hap_loop_exact (n_samples vcf_info * 2) sel [] haplotypes st)
    as (st' & E); [cbn [length]; lia|lia|].
  cbn [length app] in E. rewrite Z.add_0_l in E.
  rewrite (bind_done _ _ _ _ _ E) in Hdone. cbn [n_haps hap_array] in Hdone.
  destruct (Z.eqb_spec (2 * Z.of_nat (length sel)) (n_samples vcf_info * 2));
    [|lia].
  cbn [negb] in Hdone. unfold ret in Hdone. cbn [snd] in Hdone.
  now injection Hdone as <-.
Qed.

Lemma parse_geno_probs_done_array {env : VCFEnv} {fops : FloatOps} vcf_info
    geno_probs cur st arr :
  snd (parse_geno_probs vcf_info geno_probs cur st) = Done arr ->
  3 * n_samples vcf_info <= Z.of_nat (length geno_probs) ->
  let sel := subfields (get_format_index (format vcf_info) "GL") cur in
  exists ts,
    Forall2 (fun t p => posterior t = Some p) sel ts
    /\ arr = flat_triples ts ++ drop (3 * length sel) geno_probs.
Proof.
  intros Hdone Hroom sel.
  destruct (parse_geno_probs_done_count _ _ _ _ _ Hdone) as (Hidx & Hok & Hn).
  fold sel in Hok, Hn.
  assert (Hts : exists ts, Forall2 (fun t p => posterior t = Some p) sel ts).
  { clear -Hok. induction Hok as [|t sel' Ht _ (ts & IH)].
    - exists []. constructor.
    - destruct (posterior t) as [p|] eqn:Ep; [|congruence].
      exists (p :: ts). now constructor. }
  destruct Hts as (ts & Hts). exists ts. split; [exact Hts|].
  rewrite parse_geno_probs_subfields in Hdone by assumption. fold sel in Hdone.
  pose proof (prob_loop_exact (n_samples vcf_info * 3) sel ts [] geno_probs st
                Hts) as E.
  cbn [length app] in E. rewrite Z.add_0_l in E.
  rewrite (bind_done _ _ _ _ _ (E ltac:(lia) ltac:(lia))) in Hdone.
  cbn [n_geno_probs prob_array] in Hdone.
  destruct (Z.eqb_spec (3 * Z.of_nat (length sel)) (n_samples vcf_info * 3));
    [|lia].
  cbn [negb] in Hdone. unfold ret in Hdone. cbn [snd] in Hdone.
  now injection Hdone as <-.
Qed.

(** X8.  After a successful [parse_haplotypes] on an array with room for
    two entries per declared sample, each of these [2 * n_samples]
    entries is 0, 1 or [MISSING], whatever the sample columns held. *)
Theorem parse_haplotypes_alleles (env : VCFEnv) (vcf_info : VCFInfo)
    (haplotypes : list Z) (cur : option string) (st : proc_state)
    (arr : list Z) :
  snd (parse_haplotypes vcf_info haplotypes cur st) = Done arr ->
  2 * n_samples vcf_info <= Z.of_nat (length haplotypes) ->
  Forall is_allele (take (Z.to_nat (2 * n_samples vcf_info)) arr).
Proof.
  intros Hdone Hroom.
  destruct (parse_haplotypes_done_count _ _ _ _ _ Hdone) as (_ & Hn).
  rewrite (parse_haplotypes_done_array _ _ _ _ _ Hdone Hroom).
  rewrite take_app_length'
    by (rewrite decode_genotypes_length; lia).
  apply decode_genotypes_domain.
Qed.

Lemma parse_haplotypes_alleles_witness :
  snd (parse_haplotypes (env:=small_env) (sample_info "GT" 3)
         [7; 7; 7; 7; 7; 7; 7] (Some "0|1 2|0 ./.") proc_init)
  = Done [0; 1; -1; -1; -1; -1; 7]
  /\ 2 * n_samples (sample_info "GT" 3) <= Z.of_nat (length [7; 7; 7; 7; 7; 7; 7])
  /\ Forall is_allele (take 6 [0; 1; -1; -1; -1; -1; 7]).
Proof.
  assert (Hdone : snd (parse_haplotypes (env:=small_env) (sample_info "GT" 3)
                         [7; 7; 7; 7; 7; 7; 7] (Some "0|1 2|0 ./.") proc_init)
                  = Done [0; 1; -1; -1; -1; -1; 7]) by reflexivity.
  assert (Hroom : 2 * n_samples (sample_info "GT" 3)
                  <= Z.of_nat (length [7; 7; 7; 7; 7; 7; 7]))
    by (cbv; discriminate).
  split; [exact Hdone|]. split; [exact Hroom|].
  exact (parse_haplotypes_alleles small_env _ _ _ _ _ Hdone Hroom).
Defined.

(** X9.  A successful parse keeps the length of the caller's array and
    leaves every entry behind the first [2 * n_samples] (for
    [parse_geno_probs], [3 * n_samples]) as it was. *)
Theorem parse_keeps_rest_of_array :
  (forall (env : VCFEnv) vcf_info haplotypes cur st arr,
      snd (parse_haplotypes vcf_info haplotypes cur st) = Done arr ->
      2 * n_samples vcf_info <= Z.of_nat (length haplotypes) ->
      length arr = length haplotypes
      /\ drop (Z.to_nat (2 * n_samples vcf_info)) arr
         = drop (Z.to_nat (2 * n_samples vcf_info)) haplotypes)
  /\
  (forall (env : VCFEnv) (fops : FloatOps) vcf_info geno_probs cur st arr,
      snd (parse_geno_probs vcf_info geno_probs cur st) = Done arr ->
      3 * n_samples vcf_info <= Z.of_nat (length geno_probs) ->
      length arr = length geno_probs
      /\ drop (Z.to_nat (3 * n_samples vcf_info)) arr
         = drop (Z.to_nat (3 * n_samples vcf_info)) geno_probs).
Proof.
  split.
  - intros env vcf_info haplotypes cur st arr Hdone Hroom.
    destruct (parse_haplotypes_done_count _ _ _ _ _ Hdone) as (_ & Hn).
    rewrite (parse_haplotypes_done_array _ _ _ _ _ Hdone Hroom).
    set (sel := subfields _ cur) in *.
    pose proof (decode_genotypes_length sel (warn_phase st)) as Hl.
    split.
    + rewrite length_app, length_drop, Hl. lia.
    + replace (Z.to_nat (2 * n_samples vcf_info)) with (2 * length sel)%nat
        by lia.
      now rewrite drop_app_length' by (rewrite Hl; lia).
  - intros env fops vcf_info geno_probs cur st arr Hdone Hroom.
    destruct (parse_geno_probs_done_count _ _ _ _ _ Hdone) as (_ & _ & Hn).
    destruct (parse_geno_probs_done_array _ _ _ _ _ Hdone Hroom)
      as (ts & Hts & ->).
    set (sel := subfields _ cur) in *.
    pose proof (Forall2_length _ _ _ Hts) as Hlen.
    pose proof (flat_triples_length ts) as Hl.
    split.
    + rewrite length_app, length_drop, Hl. lia.
    + replace (Z.to_nat (3 * n_samples vcf_info)) with (3 * length sel)%nat
        by lia.
      now rewrite drop_app_length' by (rewrite Hl; lia).
Qed.

Lemma parse_keeps_rest_of_array_witness :
  snd (parse_haplotypes (env:=small_env) (sample_info "GT" 1) [7; 7; 8; 9]
         (Some "1|0") proc_init)
  = Done [1; 0; 8; 9]
  /\ 2 * n_samples (sample_info "GT" 1) <= Z.of_nat (length [7; 7; 8; 9])
  /\ drop 2 [1; 0; 8; 9] = drop 2 [7; 7; 8; 9]
  /\ exists arr,
       snd (parse_geno_probs (env:=small_env) (fops:=term_float)
              (sample_info "GL" 1) (zero_floats 5) (Some ".") proc_init)
       = Done arr
       /\ drop 3 arr = drop 3 (zero_floats 5).
Proof.
  assert (Hdone : snd (parse_haplotypes (env:=small_env) (sample_info "GT" 1)
                         [7; 7; 8; 9] (Some "1|0") proc_init)
                  = Done [1; 0; 8; 9]) by reflexivity.
  assert (Hroom : 2 * n_samples (sample_info "GT" 1)
                  <= Z.of_nat (length [7; 7; 8; 9])) by (cbv; discriminate).
  split; [exact Hdone|]. split; [exact Hroom|].
  split; [exact (proj2 (proj1 parse_keeps_rest_of_array small_env _ _ _ _ _
                          Hdone Hroom))|].
  let v := eval vm_compute in
    (snd (parse_geno_probs (env:=small_env) (fops:=term_float)
            (sample_info "GL" 1) (zero_floats 5) (Some ".") proc_init)) in
  match v with Done ?a => pose (arr := a) end.
  exists arr.
  assert (Hp : snd (parse_geno_probs (env:=small_env) (fops:=term_float)
                      (sample_info "GL" 1) (zero_floats 5) (Some ".") proc_init)
               = Done arr) by reflexivity.
  split; [exact Hp|].
  exact (proj2 (proj2 parse_keeps_rest_of_array small_env term_float _ _ _ _ _
                  Hp ltac:(cbv; discriminate))).
Defined.

(** ** parse_geno_probs and the process state *)

Lemma prob_loop_stateless {fops : FloatOps} (e : Z) (sel : list string) :
  forall s st1 st2,
    snd (for_tokens (geno_prob_body e) sel s st1)
    = snd (for_tokens (geno_prob_body e) sel s st2).
Proof.
  induction sel as [|t sel IH]; intros s st1 st2; [reflexivity|].
  cbn [for_tokens]. unfold bind. rewrite !geno_prob_body_run.
  destruct (posterior t) as [[[p1 p2] p3]|]; [|reflexivity].
  destruct (n_geno_probs s + 3 >? e); [reflexivity|apply IH].
Qed.

(** A run of [parse_geno_probs] from any state, by the run from the
    initial one. *)
Lemma parse_geno_probs_run (env : VCFEnv) (fops : FloatOps)
    (vcf_info : VCFInfo) (geno_probs : list float) (cur : option string)
    (st : proc_state) :
  parse_geno_probs vcf_info geno_probs cur st
  = (st, snd (parse_geno_probs vcf_info geno_probs cur proc_init)).
Proof.
  pose proof (parse_geno_probs_state vcf_info geno_probs cur st) as Hst.
  destruct (parse_geno_probs vcf_info geno_probs cur st) as [st' o] eqn:E.
  cbn [fst] in Hst. subst st'. f_equal.
  change o with (snd (st, o)). rewrite <- E. clear E.
  destruct (Z.eq_dec (get_format_index (format vcf_info) "GL") (-1)) as [Hi|Hi].
  - now rewrite !parse_geno_probs_no_gl.
  - rewrite !parse_geno_probs_subfields by assumption. unfold bind.
    pose proof (prob_loop_stateless (n_samples vcf_info * 3)
                  (subfields (get_format_index (format vcf_info) "GL") cur)
                  (mkProb 0 geno_probs) st proc_init) as Hs.
    destruct (for_tokens _ _ _ st) as [st1 [s1|e1]];
      destruct (for_tokens _ _ _ proc_init) as [st2 [s2|e2]];
      cbn [snd] in Hs; try discriminate.
    + injection Hs as <-. destruct (negb _); reflexivity.
    + injection Hs as <-. reflexivity.
Qed.

(** X10.  [parse_geno_probs] neither reads nor changes the process
    state: it emits no warning, leaves the flag of the unphased notice as
    it is, and its outcome is the same from every state. *)
Theorem parse_geno_probs_stateless (env : VCFEnv) (fops : FloatOps)
    (vcf_info : VCFInfo) (geno_probs : list float) (cur : option string)
    (st1 st2 : proc_state) :
  fst (parse_geno_probs vcf_info geno_probs cur st1) = st1
  /\ snd (parse_geno_probs vcf_info geno_probs cur st1)
     = snd (parse_geno_probs vcf_info geno_probs cur st2).
Proof.
  rewrite (parse_geno_probs_run _ _ vcf_info geno_probs cur st1).
  rewrite (parse_geno_probs_run _ _ vcf_info geno_probs cur st2).
  now split.
Qed.

(** ** Relations that every step keeps *)

Section Preserves.
Context (R : proc_state -> proc_state -> Prop).
Hypothesis R_refl : forall st, R st st.
Hypothesis R_trans : forall st1 st2 st3, R st1 st2 -> R st2 st3 -> R st1 st3.

Lemma preserves_ret {A} (a : A) : preserves R (ret a).
Proof. intros st. apply R_refl. Qed.

Lemma preserves_err {A} (e : fatal) : preserves R (my_err (A:=A) e).
Proof. intros st. apply R_refl. Qed.

Lemma preserves_bind {A B} (m : M A) (k : A -> M B) :
  preserves R m -> (forall a, preserves R (k a)) -> preserves R (bind m k).
Proof.
  intros Hm Hk st. unfold bind. specialize (Hm st).
  destruct (m st) as [st' [a|e]]; cbn [fst] in *; [|exact Hm].
  eapply R_trans; [exact Hm|apply Hk].
Qed.

Lemma preserves_for_tokens {St} (body : string -> St -> M St) toks :
  (forall tok s, preserves R (body tok s)) ->
  forall s, preserves R (for_tokens body toks s).
Proof.
  intros Hbody. induction toks as [|tok toks IH]; intros s.
  - apply preserves_ret.
  - cbn [for_tokens]. apply preserves_bind; [apply Hbody|apply IH].
Qed.

Lemma preserves_subfield_loop {St} (body : string -> St -> M St) idx toks :
  (forall tok s, preserves R (body tok s)) ->
  forall i s, preserves R (subfield_loop body idx toks i s).
Proof.
  intros Hbody. induction toks as [|tok toks IH]; intros i s.
  - apply preserves_ret.
  - cbn [subfield_loop]. destruct (i <=? idx); [|apply preserves_ret].
    apply preserves_bind; [|intros s'; apply IH].
    destruct (i =? idx); [apply Hbody|apply preserves_ret].
Qed.
End Preserves.

Lemma notice_budget_refl (st : proc_state) : notice_budget st st.
Proof. exists []. split; [now rewrite app_nil_r|reflexivity]. Qed.

Lemma count_notices_app (ws1 ws2 : list warning) :
  count_notices (ws1 ++ ws2) = (count_notices ws1 + count_notices ws2)%nat.
Proof. unfold count_notices. now rewrite List.filter_app, length_app. Qed.

Lemma notice_budget_trans (st1 st2 st3 : proc_state) :
  notice_budget st1 st2 -> notice_budget st2 st3 -> notice_budget st1 st3.
Proof.
  intros (ws1 & E1 & C1) (ws2 & E2 & C2). exists (ws1 ++ ws2). split.
  - rewrite E2, E1. now rewrite app_assoc.
  - rewrite count_notices_app. lia.
Qed.

Lemma notice_budget_warn (w : warning) :
  is_unphased_notice w = false -> preserves notice_budget (my_warn w).
Proof.
  intros Hw st. exists [w]. split; [reflexivity|].
  unfold count_notices. cbn. now rewrite Hw.
Qed.

Lemma notice_budget_scan (inner_tok : string) :
  preserves notice_budget (scan_genotype inner_tok).
Proof.
  intros [wp lg]. unfold scan_genotype.
  destruct (sscanf_dd "|" inner_tok) as [|a [|b [|c l]]];
    try apply notice_budget_refl;
    destruct wp; destruct (sscanf_dd "/" inner_tok) as [|a' [|b' [|c' l']]];
    (eexists [_]; split; [reflexivity|reflexivity]).
Qed.

(** One step of the proofs that a function keeps the budget of notices. *)
Ltac budget_step :=
  match goal with
  | |- preserves _ (ret _) => apply preserves_ret; exact notice_budget_refl
  | |- preserves _ (my_err _) => apply preserves_err; exact notice_budget_refl
  | |- preserves _ (my_warn _) => apply notice_budget_warn; reflexivity
  | |- preserves _ (scan_genotype _) => apply notice_budget_scan
  | |- preserves _ (bind _ _) =>
      apply preserves_bind; [exact notice_budget_trans| |intros ?]
  | |- preserves _ (for_tokens _ _ _) =>
      apply preserves_for_tokens;
      [exact notice_budget_refl|exact notice_budget_trans|intros ? ?]
  | |- preserves _ (subfield_loop _ _ _ _ _) =>
      apply preserves_subfield_loop;
      [exact notice_budget_refl|exact notice_budget_trans|intros ? ?]
  | |- preserves _ (match ?x with _ => _ end) => destruct x
  | |- preserves _ (let _ := _ in _) => cbv zeta
  end.

Lemma notice_budget_parse_haplotypes {env : VCFEnv} vcf_info haplotypes cur :
  preserves notice_budget (parse_haplotypes vcf_info haplotypes cur).
Proof.
  unfold parse_haplotypes, haplotype_token, haplotype_body.
  repeat budget_step.
Qed.

Lemma notice_budget_parse_geno_probs {env : VCFEnv} {fops : FloatOps} vcf_info
    geno_probs cur :
  preserves notice_budget (parse_geno_probs vcf_info geno_probs cur).
Proof.
  intros st. rewrite parse_geno_probs_state. apply notice_budget_refl.
Qed.

Lemma notice_budget_vcf_read_line {env : VCFEnv} {fops : FloatOps} vcf_fh
    vcf_info geno_probs haplotypes :
  preserves notice_budget (vcf_read_line vcf_fh vcf_info geno_probs haplotypes).
Proof.
  unfold vcf_read_line, parse_samples, fixed_token, util_strncpy.
  repeat first
    [ apply notice_budget_parse_haplotypes
    | apply notice_budget_parse_geno_probs
    | budget_step ].
Qed.

Lemma notice_budget_vcf_read_header_loop (vcf_fh : gzFile) :
  forall vcf_info,
    preserves notice_budget (vcf_read_header_loop vcf_fh vcf_info).
Proof.
  induction vcf_fh as [|line rest IH]; intros vcf_info;
    cbn [vcf_read_header_loop]; [budget_step|].
  destruct (util_str_starts_with line "##"); [apply IH|].
  unfold header_token. repeat budget_step.
Qed.

(** X11.  The notice about unphased genotypes is one-shot for the whole
    process: over a call of [vcf_read_header], [vcf_read_line] or
    [parse_haplotypes] the log only grows, and the notices added plus the
    flag left equal the flag found.  So a call adds at most one notice,
    none once the flag is cleared, and the flag is never set again. *)
Theorem unphased_notice_once (env : VCFEnv) (fops : FloatOps) :
  (forall vcf_fh vcf_info st,
      notice_budget st (fst (vcf_read_header vcf_fh vcf_info st)))
  /\ (forall vcf_fh vcf_info geno_probs haplotypes st,
         notice_budget st
           (fst (vcf_read_line vcf_fh vcf_info geno_probs haplotypes st)))
  /\ (forall vcf_info haplotypes cur st,
         notice_budget st (fst (parse_haplotypes vcf_info haplotypes cur st))).
Proof.
  split; [|split].
  - intros vcf_fh vcf_info st. apply notice_budget_vcf_read_header_loop.
  - intros. apply notice_budget_vcf_read_line.
  - intros. apply notice_budget_parse_haplotypes.
Qed.

(** ** The flag is all that the decoders read of the state *)

Lemma phase_only_ret {A} (a : A) : phase_only (ret a).
Proof. intros st1 st2 H. now split. Qed.

Lemma phase_only_err {A} (e : fatal) : phase_only (my_err (A:=A) e).
Proof. intros st1 st2 H. now split. Qed.

Lemma phase_only_warn (w : warning) : phase_only (my_warn w).
Proof. intros st1 st2 H. now split. Qed.

Lemma phase_only_get : phase_only get_warn_phase.
Proof. intros st1 st2 H. cbn. now rewrite H. Qed.

Lemma phase_only_set (b : bool) : phase_only (set_warn_phase b).
Proof. intros st1 st2 H. now split. Qed.

Lemma phase_only_bind {A B} (m : M A) (k : A -> M B) :
  phase_only m -> (forall a, phase_only (k a)) -> phase_only (bind m k).
Proof.
  intros Hm Hk st1 st2 H. unfold bind.
  destruct (Hm st1 st2 H) as [Ho Hp].
  destruct (m st1) as [st1' [a1|e1]], (m st2) as [st2' [a2|e2]];
    cbn [fst snd] in *; try discriminate.
  - injection Ho as <-. now apply Hk.
  - injection Ho as <-. now split.
Qed.

Lemma phase_only_for_tokens {St} (body : string -> St -> M St) toks :
  (forall tok s, phase_only (body tok s)) ->
  forall s, phase_only (for_tokens body toks s).
Proof.
  intros Hbody. induction toks as [|tok toks IH]; intros s.
  - apply phase_only_ret.
  - cbn [for_tokens]. apply phase_only_bind; [apply Hbody|apply IH].
Qed.

Lemma phase_only_subfield_loop {St} (body : string -> St -> M St) idx toks :
  (forall tok s, phase_only (body tok s)) ->
  forall i s, phase_only (subfield_loop body idx toks i s).
Proof.
  intros Hbody. induction toks as [|tok toks IH]; intros i s.
  - apply phase_only_ret.
  - cbn [subfield_loop]. destruct (i <=? idx); [|apply phase_only_ret].
    apply phase_only_bind; [|intros s'; apply IH].
    destruct (i =? idx); [apply Hbody|apply phase_only_ret].
Qed.

Ltac phase_step :=
  match goal with
  | |- phase_only (ret _) => apply phase_only_ret
  | |- phase_only (my_err _) => apply phase_only_err
  | |- phase_only (my_warn _) => apply phase_only_warn
  | |- phase_only get_warn_phase => apply phase_only_get
  | |- phase_only (set_warn_phase _) => apply phase_only_set
  | |- phase_only (bind _ _) => apply phase_only_bind; [|intros ?]
  | |- phase_only (for_tokens _ _ _) => apply phase_only_for_tokens; intros ? ?
  | |- phase_only (subfield_loop _ _ _ _ _) =>
      apply phase_only_subfield_loop; intros ? ?
  | |- phase_only (match ?x with _ => _ end) => destruct x
  | |- phase_only (let _ := _ in _) => cbv zeta
  end.

Lemma phase_only_parse_haplotypes {env : VCFEnv} vcf_info haplotypes cur :
  phase_only (parse_haplotypes vcf_info haplotypes cur).
Proof.
  unfold parse_haplotypes, haplotype_token, haplotype_body, scan_genotype.
  repeat phase_step.
Qed.

Lemma phase_only_parse_geno_probs {env : VCFEnv} {fops : FloatOps} vcf_info
    geno_probs cur :
  phase_only (parse_geno_probs vcf_info geno_probs cur).
Proof.
  intros st1 st2 H.
  rewrite (parse_geno_probs_run _ _ vcf_info geno_probs cur st1).
  rewrite (parse_geno_probs_run _ _ vcf_info geno_probs cur st2).
  now split.
Qed.

Lemma phase_only_vcf_read_line {env : VCFEnv} {fops : FloatOps} vcf_fh vcf_info
    geno_probs haplotypes :
  phase_only (vcf_read_line vcf_fh vcf_info geno_probs haplotypes).
Proof.
  unfold vcf_read_line, parse_samples, fixed_token, util_strncpy.
  repeat first
    [ apply phase_only_parse_haplotypes
    | apply phase_only_parse_geno_probs
    | phase_step ].
Qed.

Lemma notice_budget_cleared (st st' : proc_state) :
  notice_budget st st' -> warn_phase st = false -> warn_phase st' = false.
Proof.
  intros (ws & _ & Hc) Hf. rewrite Hf in Hc.
  destruct (warn_phase st'); [cbn in Hc; lia|reflexivity].
Qed.

(** X12.  Once the flag of the unphased notice is cleared, decoding is
    repeatable: two calls of [vcf_read_line] on copies of the same line,
    with the same header and arrays, that both succeed return the same
    record and the same arrays. *)
Theorem decode_twice_after_notice (env : VCFEnv) (fops : FloatOps)
    (line : string) (vcf_info : VCFInfo) (geno_probs : option (list float))
    (haplotypes : option (list Z)) (st : proc_state) (r1 r2 : line_result) :
  warn_phase st = false ->
  snd (decode_twice line vcf_info geno_probs haplotypes st) = Done (r1, r2) ->
  r1 = r2.
Proof.
  intros Hflag. unfold decode_twice, bind.
  pose proof (notice_budget_vcf_read_line [line] vcf_info geno_probs haplotypes
                st) as Hb.
  destruct (vcf_read_line [line] vcf_info geno_probs haplotypes st)
    as [st1 [a1|e1]] eqn:E1; [|discriminate].
  cbn [fst] in Hb.
  pose proof (notice_budget_cleared _ _ Hb Hflag) as Hflag1.
  destruct (phase_only_vcf_read_line [line] vcf_info geno_probs haplotypes
              st st1 ltac:(congruence)) as [Ho _].
  rewrite E1 in Ho. cbn [snd] in Ho.
  destruct (vcf_read_line [line] vcf_info geno_probs haplotypes st1)
    as [st2 [a2|e2]]; [|discriminate].
  cbn [snd] in Ho. injection Ho as <-.
  unfold ret. cbn [snd]. now intros [= <- <-].
Qed.

Lemma decode_twice_after_notice_witness :
  exists r,
    warn_phase (mkProc false []) = false
    /\ snd (decode_twice (env:=small_env) (fops:=term_float)
              "1 100 rs1 A G . PASS . GT 0/1" (blank_info 1) None (Some [0; 0])
              (mkProc false []))
       = Done (r, r)
    /\ lr_haplotypes r = Some [-1; -1].
Proof.
  let v := eval vm_compute in
    (snd (decode_twice (env:=small_env) (fops:=term_float)
            "1 100 rs1 A G . PASS . GT 0/1" (blank_info 1) None (Some [0; 0])
            (mkProc false []))) in
  match v with Done (?a, ?b) => pose (ra := a); pose (rb := b) end.
  assert (Hd : snd (decode_twice (env:=small_env) (fops:=term_float)
                      "1 100 rs1 A G . PASS . GT 0/1" (blank_info 1) None
                      (Some [0; 0]) (mkProc false []))
               = Done (ra, rb)) by reflexivity.
  pose proof (decode_twice_after_notice small_env term_float _ _ _ _
                (mkProc false []) ra rb eq_refl Hd) as Heq.
  exists ra. split; [reflexivity|]. split; [|reflexivity].
  rewrite Hd. now rewrite <- Heq.
Defined.

(** ** vcf_read_line: the fixed columns *)

Lemma strsep_all_nil (dl : string) (cur : option string) :
  strsep_all dl cur = [] -> cur = None.
Proof.
  destruct cur as [s|]; [|reflexivity]. cbn [strsep_all]. intros E.
  pose proof (strsep_tokens_length dl s) as L. rewrite E in L. discriminate.
Qed.

Lemma fixed_token_done (cur cur' : option string) (t : string)
    (st st' : proc_state) :
  fixed_token cur st = (st', Done (t, cur')) ->
  st' = st /\ strsep_all delim cur = t :: strsep_all delim cur'.
Proof.
  unfold fixed_token. rewrite (strsep_all_step delim cur).
  destruct (strsep delim cur) as [[tok c]|]; [|discriminate].
  unfold ret. intros [= <- <- <-]. now split.
Qed.

(** A call that returns has found the nine fixed tokens and converted
    the position. *)
Lemma vcf_read_line_done_tokens {env : VCFEnv} {fops : FloatOps} (line : string)
    (fh : gzFile) (vcf_info : VCFInfo) (geno_probs : option (list float))
    (haplotypes : option (list Z)) (st : proc_state) (r : line_result) :
  snd (vcf_read_line (line :: fh) vcf_info geno_probs haplotypes st) = Done r ->
  exists chrom_t pos_t id_t ref_t alt_t qual_t filter_t info_t format_t
         samples p,
    strsep_all delim (Some line)
    = chrom_t :: pos_t :: id_t :: ref_t :: alt_t :: qual_t :: filter_t
        :: info_t :: format_t :: samples
    /\ util_parse_long pos_t = Some p.
Proof.
  unfold vcf_read_line, util_strncpy. cbn [util_gzgets_line]. intros Hr.
  apply bind_done_inv in Hr. destruct Hr as (s1 & [t1 c1] & E1 & Hr).
  apply bind_done_inv in Hr. destruct Hr as (s2 & [t2 c2] & E2 & Hr).
  apply bind_done_inv in Hr. destruct Hr as (s3 & p & Ep & Hr).
  apply bind_done_inv in Hr. destruct Hr as (s4 & [t3 c3] & E3 & Hr).
  apply bind_done_inv in Hr. destruct Hr as (s5 & [t4 c4] & E4 & Hr).
  cbv beta iota zeta in Hr.
  apply bind_done_inv in Hr. destruct Hr as (s6 & [] & _ & Hr).
  apply bind_done_inv in Hr. destruct Hr as (s7 & [t5 c5] & E5 & Hr).
  cbv beta iota zeta in Hr.
  apply bind_done_inv in Hr. destruct Hr as (s8 & [] & _ & Hr).
  apply bind_done_inv in Hr. destruct Hr as (s9 & [t6 c6] & E6 & Hr).
  apply bind_done_inv in Hr. destruct Hr as (s10 & [t7 c7] & E7 & Hr).
  apply bind_done_inv in Hr. destruct Hr as (s11 & [t8 c8] & E8 & Hr).
  apply bind_done_inv in Hr. destruct Hr as (s12 & [t9 c9] & E9 & _).
  apply fixed_token_done in E1, E2, E3, E4, E5, E6, E7, E8, E9.
  destruct E1 as [_ H1], E2 as [_ H2], E3 as [_ H3], E4 as [_ H4],
    E5 as [_ H5], E6 as [_ H6], E7 as [_ H7], E8 as [_ H8], E9 as [_ H9].
  exists t1, t2, t3, t4, t5, t6, t7, t8, t9, (strsep_all delim c9), p.
  split.
  - rewrite H1, H2, H3, H4, H5, H6, H7, H8, H9. reflexivity.
  - destruct (util_parse_long t2) as [q|]; [|discriminate Ep].
    unfold ret in Ep. now injection Ep as _ ->.
Qed.

(** One step of [vcf_read_line] through the tokens of a line. *)
Ltac line_step :=
  match goal with
  | H : strsep_all delim ?c = _ :: _
    |- context [bind (fixed_token ?c) _ ?st] =>
      let c' := fresh "c" in
      let E := fresh "E" in
      let H' := fresh "H" in
      destruct (fixed_token_cons _ _ _ H) as (c' & E & H');
      rewrite (bind_done _ _ _ _ _ (E st)); cbv beta iota zeta; clear H E
  | H : strsep_all delim ?c = []
    |- context [bind (fixed_token ?c) _ ?st] =>
      rewrite (bind_fatal _ _ _ _ _ (fixed_token_nil c st H))
  | |- context [bind (if negb (strlen (str_take (?n - 1) ?t) =? strlen ?t)
                      then _ else _) _ ?st] =>
      rewrite (bind_done _ _ _ _ _ (allele_warn_step t n st))
  end.

(** X13.  A line with fewer than nine tokens ends the process with the
    error that asks for nine tokens, whatever arrays were passed (when
    the line has a second token, it must be one that converts to a
    position: the conversion comes before the third token is asked
    for). *)
Theorem vcf_read_line_few_tokens (env : VCFEnv) (fops : FloatOps)
    (line : string) (fh : gzFile) (vcf_info : VCFInfo)
    (geno_probs : option (list float)) (haplotypes : option (list Z))
    (st : proc_state) :
  (length (strsep_all delim (Some line)) < 9)%nat ->
  (forall t, strsep_all delim (Some line) !! 1%nat = Some t ->
             util_parse_long t <> None) ->
  snd (vcf_read_line (line :: fh) vcf_info geno_probs haplotypes st)
  = Fatal (ErrFewTokens 9).
Proof.
  intros Hlen Hp. unfold vcf_read_line, util_strncpy.
  cbn [util_gzgets_line].
  remember (strsep_all delim (Some line)) as toks eqn:Htoks.
  symmetry in Htoks.
  do 9 (destruct toks as [|? toks];
        [ repeat line_step;
          try (match goal with
               | |- context [util_parse_long ?t] =>
                   let Hpos := fresh "Hpos" in
                   destruct (util_parse_long t) eqn:Hpos;
                   [|exfalso; exact (Hp t eq_refl Hpos)];
                   rewrite bind_ret_l
               end;
               repeat line_step);
          reflexivity
        | ]).
  cbn [length] in Hlen. lia.
Qed.

Lemma vcf_read_line_few_tokens_witness :
  (length (strsep_all delim (Some "1 100 rs1 A G . PASS .")) < 9)%nat
  /\ (forall t,
         strsep_all delim (Some "1 100 rs1 A G . PASS .") !! 1%nat = Some t ->
         util_parse_long (VCFEnv:=small_env) t <> None)
  /\ snd (vcf_read_line (env:=small_env) (fops:=term_float)
            ["1 100 rs1 A G . PASS ."] (blank_info 0) None None proc_init)
     = Fatal (ErrFewTokens 9).
Proof.
  assert (Hlen : (length (strsep_all delim (Some "1 100 rs1 A G . PASS .")) < 9)%nat)
    by (cbv; lia).
  assert (Hp : forall t,
             strsep_all delim (Some "1 100 rs1 A G . PASS .") !! 1%nat = Some t ->
             util_parse_long (VCFEnv:=small_env) t <> None).
  { intros t [= <-]. discriminate. }
  split; [exact Hlen|]. split; [exact Hp|].
  exact (vcf_read_line_few_tokens small_env term_float _ [] (blank_info 0)
           None None proc_init Hlen Hp).
Defined.

(** ** vcf_read_line: the sample columns *)

(** The parsers see the cursor through the tokens it yields only. *)
Lemma parse_samples_tokens {env : VCFEnv} {fops : FloatOps} vcf_info geno_probs
    haplotypes (cur1 cur2 : option string) (st : proc_state) :
  strsep_all delim cur1 = strsep_all delim cur2 ->
  parse_samples vcf_info geno_probs haplotypes cur1 st
  = parse_samples vcf_info geno_probs haplotypes cur2 st.
Proof.
  intros Ht.
  assert (Hh : forall hp st', parse_haplotypes vcf_info hp cur1 st'
                              = parse_haplotypes vcf_info hp cur2 st')
    by (intros; unfold parse_haplotypes; now rewrite Ht).
  assert (Hg : forall gp st', parse_geno_probs vcf_info gp cur1 st'
                              = parse_geno_probs vcf_info gp cur2 st')
    by (intros; unfold parse_geno_probs; now rewrite Ht).
  unfold parse_samples, bind.
  destruct geno_probs as [gp|], haplotypes as [hp|];
    rewrite ?Hg, ?Hh; try reflexivity.
  destruct cur1 as [c1|], cur2 as [c2|]; cbn [ret my_err].
  - rewrite Hg. destruct (parse_geno_probs vcf_info gp (Some c2) st)
      as [st1 [gp'|e]]; [|reflexivity].
    now rewrite Hh.
  - apply strsep_all_nil in Ht. discriminate.
  - symmetry in Ht. apply strsep_all_nil in Ht. discriminate.
  - reflexivity.
Qed.

(** The call on a line that has its nine fixed tokens, with the cursor
    behind them named by the tokens it yields. *)
Lemma vcf_read_line_samples {env : VCFEnv} {fops : FloatOps} (line : string)
    (fh : gzFile) (vcf_info : VCFInfo) (geno_probs : option (list float))
    (haplotypes : option (list Z)) (st : proc_state)
    (chrom_t pos_t id_t ref_t alt_t qual_t filter_t info_t format_t : string)
    (samples : list string) (p : Z) (cur : option string) :
  strsep_all delim (Some line)
  = chrom_t :: pos_t :: id_t :: ref_t :: alt_t :: qual_t :: filter_t
      :: info_t :: format_t :: samples ->
  util_parse_long pos_t = Some p ->
  strsep_all delim cur = samples ->
  let vcf_info' :=
    fixed_fields vcf_info chrom_t id_t ref_t alt_t qual_t filter_t info_t
      format_t p in
  vcf_read_line (line :: fh) vcf_info geno_probs haplotypes st
  = bind (parse_samples vcf_info' geno_probs haplotypes cur)
      (fun r => ret (mkLine None fh vcf_info' (fst r) (snd r)))
      (mkProc (warn_phase st)
         (warn_log st ++ allele_warnings ref_t sizeof_ref_allele
            ++ allele_warnings alt_t sizeof_alt_allele)).
Proof.
  intros Htoks Hpos Hcur vcf_info'.
  destruct (vcf_read_line_fixed line fh vcf_info geno_probs haplotypes st
              _ _ _ _ _ _ _ _ _ _ _ Htoks Hpos) as (cur0 & Hcur0 & E).
  rewrite E. unfold bind. fold vcf_info'.
  now rewrite (parse_samples_tokens vcf_info' geno_probs haplotypes cur0 cur)
    by congruence.
Qed.

(** X14.  Without arrays to fill, [vcf_read_line] ignores the sample
    columns: on a line with its nine fixed tokens it succeeds, takes one
    line off the stream, stores every text column cut to one character
    less than its buffer, and logs nothing but the warnings for REF and
    ALT alleles that do not fit (the other columns are cut silently). *)
Theorem vcf_read_line_record_only (env : VCFEnv) (fops : FloatOps)
    (line : string) (fh : gzFile) (vcf_info : VCFInfo) (st : proc_state)
    (chrom_t pos_t id_t ref_t alt_t qual_t filter_t info_t format_t : string)
    (samples : list string) (p : Z) :
  strsep_all delim (Some line)
  = chrom_t :: pos_t :: id_t :: ref_t :: alt_t :: qual_t :: filter_t
      :: info_t :: format_t :: samples ->
  util_parse_long pos_t = Some p ->
  vcf_read_line (line :: fh) vcf_info None None st
  = (mkProc (warn_phase st)
       (warn_log st ++ allele_warnings ref_t sizeof_ref_allele
          ++ allele_warnings alt_t sizeof_alt_allele),
     Done (mkLine None fh
             (mkVCFInfo (n_header_lines vcf_info) (n_samples vcf_info)
                (str_take (sizeof_chrom - 1) chrom_t) p
                (str_take (sizeof_id - 1) id_t)
                (str_take (sizeof_ref_allele - 1) ref_t)
                (str_take (sizeof_alt_allele - 1) alt_t)
                (strlen ref_t) (strlen alt_t)
                (str_take (sizeof_qual - 1) qual_t)
                (str_take (sizeof_filter - 1) filter_t)
                (str_take (sizeof_info - 1) info_t)
                (str_take (sizeof_format - 1) format_t))
             None None)).
Proof.
  intros Htoks Hpos.
  destruct (vcf_read_line_fixed line fh vcf_info None None st
              _ _ _ _ _ _ _ _ _ _ _ Htoks Hpos) as (cur & _ & E).
  rewrite E. reflexivity.
Qed.

Lemma vcf_read_line_record_only_witness :
  let line := "chromosome_one_of_the_assembly 100 rs1 A G . PASS . GT 0|1 x" in
  strsep_all delim (Some line)
  = ["chromosome_one_of_the_assembly"; "100"; "rs1"; "A"; "G"; "."; "PASS";
     "."; "GT"; "0|1"; "x"]
  /\ util_parse_long (VCFEnv:=small_env) "100" = Some 100
  /\ exists r,
       vcf_read_line (env:=small_env) (fops:=term_float) [line] (blank_info 1)
         None None proc_init
       = (proc_init, Done r)
       /\ chrom (lr_info r) = "chromosome_one_"
       /\ lr_fh r = [].
Proof.
  intros line.
  assert (Htoks : strsep_all delim (Some line)
                  = ["chromosome_one_of_the_assembly"; "100"; "rs1"; "A"; "G";
                     "."; "PASS"; "."; "GT"; "0|1"; "x"]) by reflexivity.
  assert (Hpos : util_parse_long (VCFEnv:=small_env) "100" = Some 100)
    by reflexivity.
  split; [exact Htoks|]. split; [exact Hpos|].
  eexists. split.
  - exact (vcf_read_line_record_only small_env term_float line [] (blank_info 1)
             proc_init _ _ _ _ _ _ _ _ _ _ _ Htoks Hpos).
  - split; reflexivity.
Defined.

(** X15.  A line with exactly its nine fixed tokens has no cursor left
    for the sample columns.  When both arrays are passed, [vcf_read_line]
    then takes [strlen] of that [NULL] cursor; with one array and a header
    of zero samples whose FORMAT column names the tag, the same line
    decodes and leaves the array as it is. *)
Theorem vcf_read_line_no_sample_columns (env : VCFEnv) (fops : FloatOps)
    (line : string) (fh : gzFile) (vcf_info : VCFInfo) (st : proc_state)
    (chrom_t pos_t id_t ref_t alt_t qual_t filter_t info_t format_t : string)
    (p : Z) :
  strsep_all delim (Some line)
  = [chrom_t; pos_t; id_t; ref_t; alt_t; qual_t; filter_t; info_t; format_t] ->
  util_parse_long pos_t = Some p ->
  (forall geno_probs haplotypes,
      snd (vcf_read_line (line :: fh) vcf_info (Some geno_probs)
             (Some haplotypes) st)
      = Fatal NullCursor)
  /\ (n_samples vcf_info = 0 ->
      get_format_index (str_take (sizeof_format - 1) format_t) "GT" <> -1 ->
      forall haplotypes,
        exists r,
          snd (vcf_read_line (line :: fh) vcf_info None (Some haplotypes) st)
          = Done r
          /\ lr_haplotypes r = Some haplotypes).
Proof.
  intros Htoks Hpos. split.
  - intros geno_probs haplotypes.
    now rewrite (vcf_read_line_samples line fh vcf_info (Some geno_probs)
                   (Some haplotypes) st _ _ _ _ _ _ _ _ _ [] p None Htoks Hpos
                   eq_refl).
  - intros Hn Hidx haplotypes.
    rewrite (vcf_read_line_samples line fh vcf_info None (Some haplotypes) st
               _ _ _ _ _ _ _ _ _ [] p None Htoks Hpos eq_refl).
    set (vcf_info' := fixed_fields _ _ _ _ _ _ _ _ _ _).
    set (st2 := mkProc _ _).
    assert (E : parse_haplotypes vcf_info' haplotypes None st2
                = (st2, Done haplotypes)).
    { unfold parse_haplotypes. cbn [format vcf_info' fixed_fields n_samples].
      destruct (Z.eqb_spec (get_format_index
                              (str_take (sizeof_format - 1) format_t) "GT") (-1));
        [contradiction|].
      rewrite Hn. reflexivity. }
    unfold parse_samples, bind. rewrite E.
    eexists. split; reflexivity.
Qed.

Lemma vcf_read_line_no_sample_columns_witness :
  strsep_all delim (Some "1 100 rs1 A G . PASS . GT")
  = ["1"; "100"; "rs1"; "A"; "G"; "."; "PASS"; "."; "GT"]
  /\ util_parse_long (VCFEnv:=small_env) "100" = Some 100
  /\ snd (vcf_read_line (env:=small_env) (fops:=term_float)
            ["1 100 rs1 A G . PASS . GT"] (blank_info 0) (Some []) (Some [])
            proc_init)
     = Fatal NullCursor
  /\ exists r,
       snd (vcf_read_line (env:=small_env) (fops:=term_float)
              ["1 100 rs1 A G . PASS . GT"] (blank_info 0) None (Some [])
              proc_init)
       = Done r
       /\ lr_haplotypes r = Some [].
Proof.
  assert (Htoks : strsep_all delim (Some "1 100 rs1 A G . PASS . GT")
                  = ["1"; "100"; "rs1"; "A"; "G"; "."; "PASS"; "."; "GT"])
    by reflexivity.
  assert (Hpos : util_parse_long (VCFEnv:=small_env) "100" = Some 100)
    by reflexivity.
  split; [exact Htoks|]. split; [exact Hpos|].
  destruct (vcf_read_line_no_sample_columns small_env term_float
              "1 100 rs1 A G . PASS . GT" [] (blank_info 0) proc_init
              _ _ _ _ _ _ _ _ _ _ Htoks Hpos) as (Hboth & Hone).
  split; [exact (Hboth [] [])|].
  exact (Hone eq_refl ltac:(cbv; discriminate) []).
Defined.

(** What a call that returns has done: the record is the one of the
    fixed tokens, and the arrays are those of [parse_samples], run on the
    rest of the line after the warnings about the alleles. *)
Lemma vcf_read_line_done_shape {env : VCFEnv} {fops : FloatOps} (line : string)
    (fh : gzFile) (vcf_info : VCFInfo) (geno_probs : option (list float))
    (haplotypes : option (list Z)) (st : proc_state) (r : line_result) :
  snd (vcf_read_line (line :: fh) vcf_info geno_probs haplotypes st) = Done r ->
  exists chrom_t pos_t id_t ref_t alt_t qual_t filter_t info_t format_t
         samples p cur st' g h,
    strsep_all delim (Some line)
    = chrom_t :: pos_t :: id_t :: ref_t :: alt_t :: qual_t :: filter_t
        :: info_t :: format_t :: samples
    /\ util_parse_long pos_t = Some p
    /\ strsep_all delim cur = samples
    /\ parse_samples
         (fixed_fields vcf_info chrom_t id_t ref_t alt_t qual_t filter_t
            info_t format_t p)
         geno_probs haplotypes cur
         (mkProc (warn_phase st)
            (warn_log st ++ allele_warnings ref_t sizeof_ref_allele
               ++ allele_warnings alt_t sizeof_alt_allele))
       = (st', Done (g, h))
    /\ fst (vcf_read_line (line :: fh) vcf_info geno_probs haplotypes st) = st'
    /\ r = mkLine None fh
             (fixed_fields vcf_info chrom_t id_t ref_t alt_t qual_t filter_t
                info_t format_t p) g h.
Proof.
  intros Hr.
  destruct (vcf_read_line_done_tokens _ _ _ _ _ _ _ Hr)
    as (t1 & t2 & t3 & t4 & t5 & t6 & t7 & t8 & t9 & samples & p & Htoks & Hpos).
  destruct (vcf_read_line_fixed line fh vcf_info geno_probs haplotypes st
              _ _ _ _ _ _ _ _ _ _ _ Htoks Hpos) as (cur & Hcur & E).
  rewrite E in Hr |- *. unfold bind in Hr |- *.
  destruct (parse_samples _ geno_probs haplotypes cur _)
    as [st' [[g h]|e]] eqn:Eps; [|discriminate].
  unfold ret in Hr |- *. cbn [fst snd] in Hr |- *. injection Hr as <-.
  exists t1, t2, t3, t4, t5, t6, t7, t8, t9, samples, p, cur, st', g, h.
  repeat split; assumption.
Qed.

Lemma parse_samples_done {env : VCFEnv} {fops : FloatOps} vcf_info geno_probs
    haplotypes cur st st' g h :
  parse_samples vcf_info geno_probs haplotypes cur st = (st', Done (g, h)) ->
  match geno_probs with
  | Some gp =>
      exists gp', g = Some gp'
                  /\ parse_geno_probs vcf_info gp cur st = (st, Done gp')
  | None => g = None
  end
  /\ match haplotypes with
     | Some hp =>
         exists hp', h = Some hp'
                     /\ parse_haplotypes vcf_info hp cur st = (st', Done hp')
     | None => h = None /\ st' = st
     end.
Proof.
  unfold parse_samples.
  destruct geno_probs as [gp|], haplotypes as [hp|].
  - destruct cur as [c|]; [|discriminate]. rewrite bind_ret_l. unfold bind.
    rewrite (parse_geno_probs_run _ _ vcf_info gp (Some c) st).
    destruct (snd (parse_geno_probs vcf_info gp (Some c) proc_init))
      as [gp'|e]; [|discriminate].
    destruct (parse_haplotypes vcf_info hp (Some c) st) as [st1 [hp'|e]];
      [|discriminate].
    unfold ret. intros [= <- <- <-]. split; eexists; split; reflexivity.
  - unfold bind.
    rewrite (parse_geno_probs_run _ _ vcf_info gp cur st).
    destruct (snd (parse_geno_probs vcf_info gp cur proc_init))
      as [gp'|e]; [|discriminate].
    unfold ret. intros [= <- <- <-]. split; [eexists; split; reflexivity|].
    now split.
  - unfold bind.
    destruct (parse_haplotypes vcf_info hp cur st) as [st1 [hp'|e]];
      [|discriminate].
    unfold ret. intros [= <- <- <-]. split; [reflexivity|].
    eexists; split; reflexivity.
  - unfold ret. intros [= <- <- <-]. now repeat split.
Qed.

(** X16.  A call of [vcf_read_line] that returns has taken exactly one
    line off the stream and kept the sample count and the header-line
    count of the record; it hands back an array exactly for each array it
    was given. *)
Theorem vcf_read_line_keeps_header (env : VCFEnv) (fops : FloatOps)
    (line : string) (fh : gzFile) (vcf_info : VCFInfo)
    (geno_probs : option (list float)) (haplotypes : option (list Z))
    (st : proc_state) (r : line_result) :
  snd (vcf_read_line (line :: fh) vcf_info geno_probs haplotypes st) = Done r ->
  lr_fh r = fh
  /\ n_samples (lr_info r) = n_samples vcf_info
  /\ n_header_lines (lr_info r) = n_header_lines vcf_info
  /\ (lr_geno_probs r = None <-> geno_probs = None)
  /\ (lr_haplotypes r = None <-> haplotypes = None).
Proof.
  intros Hr.
  destruct (vcf_read_line_done_shape _ _ _ _ _ _ _ Hr)
    as (t1 & t2 & t3 & t4 & t5 & t6 & t7 & t8 & t9 & samples & p & cur & st'
        & g & h & _ & _ & _ & Eps & _ & ->).
  destruct (parse_samples_done _ _ _ _ _ _ _ _ Eps) as (Hg & Hh).
  cbn [lr_fh lr_info lr_geno_probs lr_haplotypes fixed_fields n_samples
         n_header_lines].
  repeat split; try reflexivity.
  - destruct geno_probs; [destruct Hg as (? & -> & _); discriminate|reflexivity].
  - destruct geno_probs; [discriminate|intros _; assumption].
  - destruct haplotypes; [destruct Hh as (? & -> & _); discriminate|reflexivity].
  - destruct haplotypes; [discriminate|intros _; apply Hh].
Qed.

Lemma vcf_read_line_keeps_header_witness :
  exists r,
    snd (vcf_read_line (env:=small_env) (fops:=term_float)
           ["1 100 rs1 A G . PASS . GT 0|1"; "1 200 rs2 C T . PASS . GT 1|1"]
           (mkVCFInfo 5 1 "" 0 "" "" "" 0 0 "" "" "" "") None (Some [0; 0])
           proc_init)
    = Done r
    /\ lr_fh r = ["1 200 rs2 C T . PASS . GT 1|1"]
    /\ n_samples (lr_info r) = 1
    /\ n_header_lines (lr_info r) = 5.
Proof.
  let v := eval vm_compute in
    (snd (vcf_read_line (env:=small_env) (fops:=term_float)
            ["1 100 rs1 A G . PASS . GT 0|1"; "1 200 rs2 C T . PASS . GT 1|1"]
            (mkVCFInfo 5 1 "" 0 "" "" "" 0 0 "" "" "" "") None (Some [0; 0])
            proc_init)) in
  match v with Done ?a => pose (r0 := a) end.
  exists r0.
  assert (Hr : snd (vcf_read_line (env:=small_env) (fops:=term_float)
                      ["1 100 rs1 A G . PASS . GT 0|1";
                       "1 200 rs2 C T . PASS . GT 1|1"]
                      (mkVCFInfo 5 1 "" 0 "" "" "" 0 0 "" "" "" "") None
                      (Some [0; 0]) proc_init)
               = Done r0) by reflexivity.
  split; [exact Hr|].
  destruct (vcf_read_line_keeps_header small_env term_float _ _ _ _ _ _ r0 Hr)
    as (H1 & H2 & H3 & _).
  repeat split; assumption.
Defined.

(** X17.  Asking for both arrays gives what asking for each gives: when
    the call with both arrays returns, the call with the probability
    array alone returns the same probabilities, the call with the
    haplotype array alone returns the same haplotypes and leaves the same
    process state, and all three fill the same record. *)
Theorem vcf_read_line_both_as_each (env : VCFEnv) (fops : FloatOps)
    (line : string) (fh : gzFile) (vcf_info : VCFInfo)
    (geno_probs : list float) (haplotypes : list Z) (st st' : proc_state)
    (r : line_result) :
  vcf_read_line (line :: fh) vcf_info (Some geno_probs) (Some haplotypes) st
  = (st', Done r) ->
  exists rg rh,
    snd (vcf_read_line (line :: fh) vcf_info (Some geno_probs) None st)
    = Done rg
    /\ vcf_read_line (line :: fh) vcf_info None (Some haplotypes) st
       = (st', Done rh)
    /\ lr_geno_probs rg = lr_geno_probs r
    /\ lr_haplotypes rh = lr_haplotypes r
    /\ lr_info rg = lr_info r
    /\ lr_info rh = lr_info r.
Proof.
  intros Hboth.
  assert (Hr : snd (vcf_read_line (line :: fh) vcf_info (Some geno_probs)
                      (Some haplotypes) st) = Done r) by now rewrite Hboth.
  destruct (vcf_read_line_done_shape _ _ _ _ _ _ _ Hr)
    as (t1 & t2 & t3 & t4 & t5 & t6 & t7 & t8 & t9 & samples & p & cur & st3
        & g & h & Htoks & Hpos & Hcur & Eps & Hst & ->).
  rewrite Hboth in Hst. cbn [fst] in Hst. subst st3.
  destruct (parse_samples_done _ _ _ _ _ _ _ _ Eps)
    as ((gp' & -> & Eg) & (hp' & -> & Eh)).
  rewrite (vcf_read_line_samples line fh vcf_info (Some geno_probs) None st
             _ _ _ _ _ _ _ _ _ samples p cur Htoks Hpos Hcur).
  rewrite (vcf_read_line_samples line fh vcf_info None (Some haplotypes) st
             _ _ _ _ _ _ _ _ _ samples p cur Htoks Hpos Hcur).
  unfold parse_samples, bind. rewrite Eg, Eh. unfold ret. cbn [fst snd].
  do 2 eexists. repeat split; reflexivity.
Qed.

Lemma vcf_read_line_both_as_each_witness :
  exists st' r rg rh,
    vcf_read_line (env:=small_env) (fops:=term_float)
      ["1 100 rs1 A G . PASS . GT:GL 0/1:."] (blank_info 1)
      (Some (zero_floats 3)) (Some [0; 0]) proc_init
    = (st', Done r)
    /\ snd (vcf_read_line (env:=small_env) (fops:=term_float)
              ["1 100 rs1 A G . PASS . GT:GL 0/1:."] (blank_info 1)
              (Some (zero_floats 3)) None proc_init)
       = Done rg
    /\ vcf_read_line (env:=small_env) (fops:=term_float)
         ["1 100 rs1 A G . PASS . GT:GL 0/1:."] (blank_info 1) None
         (Some [0; 0]) proc_init
       = (st', Done rh)
    /\ lr_geno_probs rg = lr_geno_probs r
    /\ lr_haplotypes rh = lr_haplotypes r.
Proof.
  let v := eval vm_compute in
    (vcf_read_line (env:=small_env) (fops:=term_float)
       ["1 100 rs1 A G . PASS . GT:GL 0/1:."] (blank_info 1)
       (Some (zero_floats 3)) (Some [0; 0]) proc_init) in
  match v with (?s, Done ?a) => pose (s0 := s); pose (r0 := a) end.
  assert (Hboth : vcf_read_line (env:=small_env) (fops:=term_float)
                    ["1 100 rs1 A G . PASS . GT:GL 0/1:."] (blank_info 1)
                    (Some (zero_floats 3)) (Some [0; 0]) proc_init
                  = (s0, Done r0)) by reflexivity.
  destruct (vcf_read_line_both_as_each small_env term_float _ _ _ _ _ _ _ _
              Hboth) as (rg & rh & Hg & Hh & Eg & Eh & _).
  exists s0, r0, rg, rh. repeat split; assumption.
Defined.

(** X18.  Of what [vcf_read_line] returns, only the haplotypes depend on
    the process state: two calls on the same stream with the same record
    and arrays, from any two states, that both return agree on the
    returned value, the rest of the stream, every field of the record and
    the probabilities. *)
Theorem vcf_read_line_record_stateless (env : VCFEnv) (fops : FloatOps)
    (vcf_fh : gzFile) (vcf_info : VCFInfo) (geno_probs : option (list float))
    (haplotypes : option (list Z)) (st1 st2 : proc_state)
    (r1 r2 : line_result) :
  snd (vcf_read_line vcf_fh vcf_info geno_probs haplotypes st1) = Done r1 ->
  snd (vcf_read_line vcf_fh vcf_info geno_probs haplotypes st2) = Done r2 ->
  lr_return r1 = lr_return r2
  /\ lr_fh r1 = lr_fh r2
  /\ lr_info r1 = lr_info r2
  /\ lr_geno_probs r1 = lr_geno_probs r2.
Proof.
  destruct vcf_fh as [|line fh].
  - rewrite !vcf_read_line_eof. cbn [snd]. intros [= <-] [= <-].
    now repeat split.
  - intros H1 H2.
    destruct (vcf_read_line_done_shape _ _ _ _ _ _ _ H1)
      as (t1 & t2 & t3 & t4 & t5 & t6 & t7 & t8 & t9 & samples & p & cur & sa
          & g & h & Htoks & Hpos & Hcur & Eps & _ & ->).
    destruct (vcf_read_line_done_shape _ _ _ _ _ _ _ H2)
      as (u1 & u2 & u3 & u4 & u5 & u6 & u7 & u8 & u9 & samples' & p' & cur'
          & sb & g' & h' & Htoks' & Hpos' & Hcur' & Eps' & _ & ->).
    rewrite Htoks in Htoks'.
    injection Htoks' as <- <- <- <- <- <- <- <- <- <-.
    assert (p' = p) as -> by congruence.
    rewrite (parse_samples_tokens _ _ _ cur' cur) in Eps' by congruence.
    destruct (parse_samples_done _ _ _ _ _ _ _ _ Eps) as (Hg & _).
    destruct (parse_samples_done _ _ _ _ _ _ _ _ Eps') as (Hg' & _).
    cbn [lr_return lr_fh lr_info lr_geno_probs].
    repeat split.
    destruct geno_probs as [gp|]; [|congruence].
    destruct Hg as (a & -> & Ea), Hg' as (a' & -> & Ea').
    rewrite (parse_geno_probs_run _ _ _ gp cur) in Ea, Ea'.
    congruence.
Qed.

Lemma vcf_read_line_record_stateless_witness :
  exists r1 r2,
    snd (vcf_read_line (env:=small_env) (fops:=term_float)
           ["1 100 rs1 A G . PASS . GT:GL 0/1:."] (blank_info 1)
           (Some (zero_floats 3)) (Some [0; 0]) (mkProc true []))
    = Done r1
    /\ snd (vcf_read_line (env:=small_env) (fops:=term_float)
              ["1 100 rs1 A G . PASS . GT:GL 0/1:."] (blank_info 1)
              (Some (zero_floats 3)) (Some [0; 0]) (mkProc false []))
       = Done r2
    /\ lr_info r1 = lr_info r2
    /\ lr_geno_probs r1 = lr_geno_probs r2
    /\ lr_haplotypes r1 <> lr_haplotypes r2.
Proof.
  let v := eval vm_compute in
    (snd (vcf_read_line (env:=small_env) (fops:=term_float)
            ["1 100 rs1 A G . PASS . GT:GL 0/1:."] (blank_info 1)
            (Some (zero_floats 3)) (Some [0; 0]) (mkProc true []))) in
  match v with Done ?a => pose (ra := a) end.
  let v := eval vm_compute in
    (snd (vcf_read_line (env:=small_env) (fops:=term_float)
            ["1 100 rs1 A G . PASS . GT:GL 0/1:."] (blank_info 1)
            (Some (zero_floats 3)) (Some [0; 0]) (mkProc false []))) in
  match v with Done ?a => pose (rb := a) end.
  assert (H1 : snd (vcf_read_line (env:=small_env) (fops:=term_float)
                      ["1 100 rs1 A G . PASS . GT:GL 0/1:."] (blank_info 1)
                      (Some (zero_floats 3)) (Some [0; 0]) (mkProc true []))
               = Done ra) by reflexivity.
  assert (H2 : snd (vcf_read_line (env:=small_env) (fops:=term_float)
                      ["1 100 rs1 A G . PASS . GT:GL 0/1:."] (blank_info 1)
                      (Some (zero_floats 3)) (Some [0; 0]) (mkProc false []))
               = Done rb) by reflexivity.
  destruct (vcf_read_line_record_stateless small_env term_float _ _ _ _ _ _
              ra rb H1 H2) as (_ & _ & Hi & Hg).
  exists ra, rb. repeat split; try assumption. discriminate.
Defined.

(** ** Lines that decode *)

Lemma hap_loop_phased (e : Z) (sel : list string) :
  Forall (fun t => length (sscanf_dd "|" t) = 2%nat) sel ->
  forall s st, fst (for_tokens (haplotype_body e) sel s st) = st.
Proof.
  induction 1 as [|t sel Ht _ IH]; intros s st; [reflexivity|].
  cbn [for_tokens]. unfold bind, haplotype_body.
  destruct (sscanf_dd "|" t) as [|a [|b [|c l]]] eqn:Es; try discriminate.
  unfold bind at 1. rewrite (scan_genotype_phased t st a b Es).
  destruct (coerce_alleles a b) as [c1 c2]. unfold bind.
  destruct (n_haps s + 2 >? e); cbn [my_err ret fst snd]; [reflexivity|].
  apply IH.
Qed.

(** X19.  A line on which every GT subfield matches the phased pattern
    leaves the process state as it is: [parse_haplotypes] emits no warning
    for it (also when alleles are coerced to [MISSING], and also when the
    counts end the process) and does not touch the flag. *)
Theorem parse_haplotypes_phased_silent (env : VCFEnv) (vcf_info : VCFInfo)
    (haplotypes : list Z) (cur : option string) (st : proc_state) :
  Forall (fun t => length (sscanf_dd "|" t) = 2%nat)
    (subfields (get_format_index (format vcf_info) "GT") cur) ->
  fst (parse_haplotypes vcf_info haplotypes cur st) = st.
Proof.
  intros Hph.
  destruct (Z.eq_dec (get_format_index (format vcf_info) "GT") (-1)) as [E|E].
  - now rewrite parse_haplotypes_no_gt.
  - rewrite parse_haplotypes_subfields by assumption. unfold bind.
    pose proof (hap_loop_phased (n_samples vcf_info * 2) _ Hph
                  (mkHap 0 haplotypes) st) as Hst.
    destruct (for_tokens _ _ _ st) as [st' [s'|e]]; cbn [fst] in Hst; subst st';
      [|reflexivity].
    destruct (negb _); reflexivity.
Qed.

Lemma parse_haplotypes_phased_silent_witness :
  Forall (fun t => length (sscanf_dd "|" t) = 2%nat)
    (subfields (env:=small_env)
       (get_format_index (format (sample_info "GT:DP" 2)) "GT")
       (Some "0|1:12 3|0:7"))
  /\ parse_haplotypes (env:=small_env) (sample_info "GT:DP" 2) [0; 0; 0; 0]
       (Some "0|1:12 3|0:7") proc_init
     = (proc_init, Done [0; 1; -1; -1]).
Proof.
  assert (Hph : Forall (fun t => length (sscanf_dd "|" t) = 2%nat)
                  (subfields (env:=small_env)
                     (get_format_index (format (sample_info "GT:DP" 2)) "GT")
                     (Some "0|1:12 3|0:7")))
    by (repeat constructor).
  split; [exact Hph|].
  pose proof (parse_haplotypes_phased_silent small_env (sample_info "GT:DP" 2)
                [0; 0; 0; 0] (Some "0|1:12 3|0:7") proc_init Hph) as Hst.
  destruct (parse_haplotypes (env:=small_env) (sample_info "GT:DP" 2)
              [0; 0; 0; 0] (Some "0|1:12 3|0:7") proc_init) as [st' o] eqn:E.
  cbn [fst] in Hst. subst st'. f_equal.
  change o with (snd (proc_init, o)). rewrite <- E. reflexivity.
Defined.

(** X20.  A well-formed data line decodes.  When the line has its nine
    fixed tokens and a position that converts, the FORMAT column (as
    stored) names GT, every sample token reaches the GT subfield, there
    are as many sample tokens as declared samples and the array has two
    entries for each, [vcf_read_line] with the haplotype array returns,
    and the array holds the pairs of the sample tokens in order. *)
Theorem vcf_read_line_haplotypes (env : VCFEnv) (fops : FloatOps)
    (line : string) (fh : gzFile) (vcf_info : VCFInfo) (haplotypes : list Z)
    (st : proc_state)
    (chrom_t pos_t id_t ref_t alt_t qual_t filter_t info_t format_t : string)
    (samples : list string) (p : Z) :
  strsep_all delim (Some line)
  = chrom_t :: pos_t :: id_t :: ref_t :: alt_t :: qual_t :: filter_t
      :: info_t :: format_t :: samples ->
  util_parse_long pos_t = Some p ->
  let idx := get_format_index (str_take (sizeof_format - 1) format_t) "GT" in
  idx <> -1 ->
  Forall (fun tok => subfield_at idx tok <> None) samples ->
  Z.of_nat (length samples) = n_samples vcf_info ->
  length haplotypes = (2 * length samples)%nat ->
  exists r,
    snd (vcf_read_line (line :: fh) vcf_info None (Some haplotypes) st) = Done r
    /\ lr_haplotypes r
       = Some (flat_pairs
                 (decode_genotypes (warn_phase st)
                    (omap (subfield_at idx) samples)))
    /\ lr_geno_probs r = None.
Proof.
  intros Htoks Hpos idx Hidx Hall Hn Hlen.
  destruct (vcf_read_line_fixed line fh vcf_info None (Some haplotypes) st
              _ _ _ _ _ _ _ _ _ _ _ Htoks Hpos) as (cur & Hcur & E).
  rewrite E. clear E.
  set (vcf_info' := fixed_fields _ _ _ _ _ _ _ _ _ _).
  set (st2 := mkProc _ _).
  assert (Hsel : subfields idx cur = omap (subfield_at idx) samples)
    by (unfold subfields; now rewrite Hcur).
  assert (Hcount : length (subfields idx cur) = length samples).
  { rewrite <- Hcur. apply subfields_all_present. now rewrite Hcur. }
  pose proof (parse_haplotypes_exact vcf_info' haplotypes cur st2) as Hex.
  cbv zeta in Hex. cbn [format vcf_info' fixed_fields n_samples] in Hex.
  fold idx in Hex. rewrite Hcount, Hsel in Hex.
  specialize (Hex Hidx Hn Hlen).
  unfold parse_samples, bind.
  destruct (parse_haplotypes vcf_info' haplotypes cur st2) as [st3 [hp'|e]];
    cbn [snd] in Hex; [|discriminate].
  injection Hex as ->. unfold ret. cbn [fst snd].
  eexists. repeat split.
Qed.

Lemma vcf_read_line_haplotypes_witness :
  let line := "1 100 rs1 A G . PASS . DP:GT 9:0|1 7:1/1" in
  strsep_all delim (Some line)
  = ["1"; "100"; "rs1"; "A"; "G"; "."; "PASS"; "."; "DP:GT"; "9:0|1"; "7:1/1"]
  /\ util_parse_long (VCFEnv:=small_env) "100" = Some 100
  /\ exists r,
       snd (vcf_read_line (env:=small_env) (fops:=term_float) [line]
              (blank_info 2) None (Some [0; 0; 0; 0]) proc_init)
       = Done r
       /\ lr_haplotypes r = Some [0; 1; 1; 1].
Proof.
  intros line.
  assert (Htoks : strsep_all delim (Some line)
                  = ["1"; "100"; "rs1"; "A"; "G"; "."; "PASS"; "."; "DP:GT";
                     "9:0|1"; "7:1/1"]) by reflexivity.
  assert (Hpos : util_parse_long (VCFEnv:=small_env) "100" = Some 100)
    by reflexivity.
  split; [exact Htoks|]. split; [exact Hpos|].
  destruct (vcf_read_line_haplotypes small_env term_float line []
              (blank_info 2) [0; 0; 0; 0] proc_init _ _ _ _ _ _ _ _ _ _ _
              Htoks Hpos ltac:(cbv; discriminate)
              ltac:(repeat constructor; discriminate) eq_refl eq_refl)
    as (r & Hr & Hh & _).
  exists r. split; [exact Hr|exact Hh].
Defined.

(** The triplet stored for a subfield with the likelihoods [likes]. *)
Lemma gl_values_posterior {fops : FloatOps} (inner_tok : string)
    (likes : float * float * float) :
  gl_values inner_tok likes ->
  posterior inner_tok = Some (normalize_probs (to_probs likes)).
Proof.
  destruct likes as [[l1 l2] l3]. unfold gl_values, posterior, scan_likelihoods.
  cbn [fst snd]. intros [Hs|(Hn & -> & [= -> -> ->])].
  - rewrite Hs. reflexivity.
  - destruct (sscanf_ggg ".") as [|a [|b [|c [|d l]]]];
      try (now contradiction Hn); reflexivity.
Qed.

Lemma flat_triples_quotients {fops : FloatOps}
    (ls : list (float * float * float)) :
  flat_triples (map (fun likes => normalize_probs (to_probs likes)) ls)
  = flat_map quotients ls.
Proof.
  unfold flat_triples. induction ls as [|[[l1 l2] l3] ls IH]; [reflexivity|].
  cbn [map flat_map]. rewrite IH. reflexivity.
Qed.

(** The GL subfields of sample tokens with known likelihoods, and the
    triplets stored for them. *)
Lemma gl_values_subfields {env : VCFEnv} {fops : FloatOps} (idx : Z)
    (samples : list string) (ls : list (float * float * float)) :
  Forall2 (fun tok likes =>
             exists inner_tok,
               subfield_at idx tok = Some inner_tok
               /\ gl_values inner_tok likes) samples ls ->
  Forall2 (fun t q => posterior t = Some q)
    (omap (subfield_at idx) samples)
    (map (fun likes => normalize_probs (to_probs likes)) ls)
  /\ length (omap (subfield_at idx) samples) = length samples.
Proof.
  induction 1 as [|tok likes samples ls (it & Hs & Hv) _ [IH1 IH2]].
  - split; [constructor|reflexivity].
  - cbn -[subfield_at]. rewrite Hs. cbn -[subfield_at].
    split; [|now f_equal].
    constructor; [now apply gl_values_posterior|exact IH1].
Qed.

(** X21.  A well-formed data line decodes its likelihoods.  When the
    line has its nine fixed tokens and a position that converts, the
    FORMAT column (as stored) names GL, every sample token reaches a GL
    subfield from which [sscanf] gets three likelihoods or which is the
    string [.] (then the three are -0.477), there are as many sample
    tokens as declared samples and the array has three entries for each,
    [vcf_read_line] with the probability array returns without a warning
    from the sample columns, and the array holds, for each sample token in
    order, the powers of ten of its three likelihoods divided by their
    sum. *)
Theorem vcf_read_line_geno_probs (env : VCFEnv) (fops : FloatOps)
    (line : string) (fh : gzFile) (vcf_info : VCFInfo)
    (geno_probs : list float) (st : proc_state)
    (chrom_t pos_t id_t ref_t alt_t qual_t filter_t info_t format_t : string)
    (samples : list string) (p : Z) (ls : list (float * float * float)) :
  strsep_all delim (Some line)
  = chrom_t :: pos_t :: id_t :: ref_t :: alt_t :: qual_t :: filter_t
      :: info_t :: format_t :: samples ->
  util_parse_long pos_t = Some p ->
  let idx := get_format_index (str_take (sizeof_format - 1) format_t) "GL" in
  idx <> -1 ->
  Forall2 (fun tok likes =>
             exists inner_tok,
               subfield_at idx tok = Some inner_tok
               /\ gl_values inner_tok likes) samples ls ->
  Z.of_nat (length samples) = n_samples vcf_info ->
  length geno_probs = (3 * length samples)%nat ->
  exists r,
    vcf_read_line (line :: fh) vcf_info (Some geno_probs) None st
    = (mkProc (warn_phase st)
         (warn_log st ++ allele_warnings ref_t sizeof_ref_allele
            ++ allele_warnings alt_t sizeof_alt_allele),
       Done r)
    /\ lr_geno_probs r = Some (flat_map quotients ls)
    /\ lr_haplotypes r = None.
Proof.
  intros Htoks Hpos idx Hidx Hall Hn Hlen.
  destruct (vcf_read_line_fixed line fh vcf_info (Some geno_probs) None st
              _ _ _ _ _ _ _ _ _ _ _ Htoks Hpos) as (cur & Hcur & E).
  rewrite E. clear E.
  set (vcf_info' := fixed_fields _ _ _ _ _ _ _ _ _ _).
  set (st2 := mkProc _ _).
  destruct (gl_values_subfields idx samples ls Hall) as [Hts Hcount].
  pose proof (parse_geno_probs_exact vcf_info' geno_probs cur st2
                (map (fun likes => normalize_probs (to_probs likes)) ls))
    as Hex.
  cbv zeta in Hex. cbn [format vcf_info' fixed_fields n_samples] in Hex.
  fold idx in Hex. unfold subfields in Hex. rewrite Hcur, Hcount in Hex.
  specialize (Hex Hidx Hts Hn Hlen).
  pose proof (parse_geno_probs_state vcf_info' geno_probs cur st2) as Hst.
  unfold parse_samples, bind.
  destruct (parse_geno_probs vcf_info' geno_probs cur st2) as [st3 [gp'|e]];
    cbn [fst snd] in Hex, Hst; [|discriminate].
  injection Hex as ->. subst st3. unfold ret. cbn [fst snd].
  eexists. split; [reflexivity|]. cbn [lr_geno_probs lr_haplotypes].
  rewrite flat_triples_quotients. split; reflexivity.
Qed.

Lemma vcf_read_line_geno_probs_witness :
  let line := "1 100 rs1 A G . PASS . GT:GL 0|1:-1.0,-0.1,-2.0 1|1:." in
  let p1 := FPow10 (FDec (-10) 1) in
  let p2 := FPow10 (FDec (-1) 1) in
  let p3 := FPow10 (FDec (-20) 1) in
  let pm := FPow10 (FDec (-477) 3) in
  strsep_all delim (Some line)
  = ["1"; "100"; "rs1"; "A"; "G"; "."; "PASS"; "."; "GT:GL";
     "0|1:-1.0,-0.1,-2.0"; "1|1:."]
  /\ util_parse_long (VCFEnv:=small_env) "100" = Some 100
  /\ exists r,
       vcf_read_line (env:=small_env) (fops:=term_float) [line]
         (blank_info 2) (Some (zero_floats 6)) None proc_init
       = (proc_init, Done r)
       /\ lr_geno_probs r
          = Some [FDiv p1 (FAdd (FAdd p1 p2) p3);
                  FDiv p2 (FAdd (FAdd p1 p2) p3);
                  FDiv p3 (FAdd (FAdd p1 p2) p3);
                  FDiv pm (FAdd (FAdd pm pm) pm);
                  FDiv pm (FAdd (FAdd pm pm) pm);
                  FDiv pm (FAdd (FAdd pm pm) pm)].
Proof.
  intros line p1 p2 p3 pm.
  assert (Htoks : strsep_all delim (Some line)
                  = ["1"; "100"; "rs1"; "A"; "G"; "."; "PASS"; "."; "GT:GL";
                     "0|1:-1.0,-0.1,-2.0"; "1|1:."]) by reflexivity.
  assert (Hpos : util_parse_long (VCFEnv:=small_env) "100" = Some 100)
    by reflexivity.
  split; [exact Htoks|]. split; [exact Hpos|].
  destruct (vcf_read_line_geno_probs small_env term_float line []
              (blank_info 2) (zero_floats 6) proc_init _ _ _ _ _ _ _ _ _ _ _
              [(FDec (-10) 1, FDec (-1) 1, FDec (-20) 1);
               (FDec (-477) 3, FDec (-477) 3, FDec (-477) 3)]
              Htoks Hpos)
    as (r & Hr & Hg & _);
    [ cbv; discriminate
    | constructor;
      [exists "-1.0,-0.1,-2.0"; split; [reflexivity|left; reflexivity]|];
      constructor;
      [exists "."; split; [reflexivity|right];
       split; [cbv; discriminate|split; reflexivity]
      |constructor]
    | reflexivity | reflexivity | ].
  exists r. split; [exact Hr|exact Hg].
Defined.
